(** * Hotel-booking chatbot: memory consolidation pipeline

    A shallow embedding of the Python sources

      - [app.py]                    (summarisation variant, SQLAlchemy profile row)
      - [hotel_booking_chatbot.py]  (flat JSON file, first variant)
      - [hotel_booking_chatbot2.py] (flat JSON file, corruption tolerant)
      - [hotel_booking_chatbot3.py] (SQLite [Users]/[Memory] tables)

    Python exceptions are values of [outcome]; every effect (the language
    model, the clock, the JSON file, the tables, Streamlit's session state)
    is threaded explicitly through the functions that touch it.  A Python
    [str] is held as the bytes of its UTF-8 encoding. *)

From Stdlib Require Import Ascii String List Arith Lia Bool.
From Stdlib Require Import DecimalString.
From stdpp Require Import gmap strings list.

(** ** Python [str] operations used by the sources *)

Module PyStr.

(** A Python [str] is held as the bytes of its UTF-8 encoding.  [is_ascii]
    is [str.isascii]: every character is below 128, so that characters
    and bytes are the same thing. *)
Fixpoint is_ascii (s : string) : bool :=
  match s with
  | EmptyString => true
  | String c t => (nat_of_ascii c <? 128) && is_ascii t
  end.

(** [str.lower] / [str.upper] on one character of an ASCII text: only the
    letters A-Z and a-z have a case.  On an ASCII text [lower] is
    [str.lower]; beyond ASCII it is not (Python lower-cases the Kelvin sign
    U+212A to the letter k, for one), so what is proved of a lower-cased
    text of any content is proved for ASCII texts. *)
Definition lower_ascii (c : ascii) : ascii :=
  let n := nat_of_ascii c in
  if (65 <=? n) && (n <=? 90) then ascii_of_nat (n + 32) else c.

Definition upper_ascii (c : ascii) : ascii :=
  let n := nat_of_ascii c in
  if (97 <=? n) && (n <=? 122) then ascii_of_nat (n - 32) else c.

Fixpoint lower (s : string) : string :=
  match s with
  | EmptyString => EmptyString
  | String c t => String (lower_ascii c) (lower t)
  end.

(** [str.capitalize]: first character upper-cased, all others lower-cased. *)
Definition capitalize (s : string) : string :=
  match s with
  | EmptyString => EmptyString
  | String c t => String (upper_ascii c) (lower t)
  end.

(** [needle in hay].  The needles of the sources are ASCII texts, and an
    ASCII text occurs among the bytes of a UTF-8 text exactly where it
    occurs among its characters; the same holds for [replace] below. *)
Fixpoint contains (needle hay : string) : bool :=
  String.prefix needle hay ||
  match hay with
  | EmptyString => false
  | String _ t => contains needle t
  end.

(** [s.replace(old, new)]: every non-overlapping occurrence, scanning from
    the left.  [skip] counts the characters of a matched occurrence that
    are still to be dropped. *)
Fixpoint replace_from (skip : nat) (old new s : string) : string :=
  match s with
  | EmptyString => EmptyString
  | String c t =>
      match skip with
      | S k => replace_from k old new t
      | O =>
          if String.prefix old s
          then new +:+ replace_from (String.length old - 1) old new t
          else String c (replace_from 0 old new t)
      end
  end.

(** With an empty [old], Python puts [new] before every character and at
    the end. *)
Fixpoint replace_empty (new s : string) : string :=
  match s with
  | EmptyString => new
  | String c t => new +:+ String c (replace_empty new t)
  end.

Definition replace (old new s : string) : string :=
  match old with
  | EmptyString => replace_empty new s
  | _ => replace_from 0 old new s
  end.

(** [sep.join(parts)]. *)
Fixpoint join (sep : string) (parts : list string) : string :=
  match parts with
  | [] => EmptyString
  | [p] => p
  | p :: rest => p +:+ sep +:+ join sep rest
  end.

(** [str.strip]: white space dropped at both ends.  The white space of
    Python is the characters for which [str.isspace] holds: U+0009-000D,
    U+001C-0020, U+0085, U+00A0, U+1680, U+2000-200A, U+2028, U+2029,
    U+202F, U+205F and U+3000, listed here by their UTF-8 encodings. *)
Definition of_bytes (codes : list nat) : string :=
  string_of_list_ascii (map ascii_of_nat codes).

Definition whitespace : list string :=
  map of_bytes
    [ [9]; [10]; [11]; [12]; [13]; [28]; [29]; [30]; [31]; [32];
      [194; 133]; [194; 160]; [225; 154; 128];
      [226; 128; 128]; [226; 128; 129]; [226; 128; 130]; [226; 128; 131];
      [226; 128; 132]; [226; 128; 133]; [226; 128; 134]; [226; 128; 135];
      [226; 128; 136]; [226; 128; 137]; [226; 128; 138];
      [226; 128; 168]; [226; 128; 169]; [226; 128; 175];
      [226; 129; 159]; [227; 128; 128] ].

(** The number of bytes of the character of [chars] that [s] starts with,
    0 when it starts with none of them. *)
Definition width_of (chars : list string) (s : string) : nat :=
  match List.find (fun ch => String.prefix ch s) chars with
  | Some ch => String.length ch
  | None => 0
  end.

(** Leading characters of [chars] dropped; [skip] counts the bytes of the
    current character that are still to be dropped. *)
Fixpoint lstrip_from (chars : list string) (skip : nat) (s : string) : string :=
  match s with
  | EmptyString => EmptyString
  | String c t =>
      match skip with
      | S k => lstrip_from chars k t
      | O =>
          match width_of chars s with
          | O => s
          | S k => lstrip_from chars k t
          end
      end
  end.

Definition lstrip (s : string) : string := lstrip_from whitespace 0 s.

(** The right end is stripped on the reversed text, where each character
    shows its bytes in reverse. *)
Definition rstrip (s : string) : string :=
  String.rev (lstrip_from (map String.rev whitespace) 0 (String.rev s)).

Definition strip (s : string) : string := rstrip (lstrip s).

(** [str(n)] for a natural number. *)
Definition of_nat (n : nat) : string :=
  NilEmpty.string_of_uint (Nat.to_uint n).

End PyStr.

(** ** Exceptions and outcomes *)

(** A Python exception: its class and what [str(e)] returns. *)
Record exn := Exn { exn_class : string; exn_str : string }.

Inductive outcome (A : Type) : Type :=
| Returns (a : A)
| Raises (e : exn).
Arguments Returns {A} a.
Arguments Raises {A} e.

(** ** app.py: the capability gateway *)

Module Gateway.

(** [if "rate_limit" in str(e).lower()] *)
Definition is_rate_limit (e : exn) : bool :=
  PyStr.contains "rate_limit" (PyStr.lower (exn_str e)).

(** [raise Exception("Max retries exceeded")] *)
Definition max_retries_exceeded : exn := Exn "Exception" "Max retries exceeded".

Section Retry.
(** [W] is whatever the call can touch; [invoke] is
    [runnable.invoke(messages, config=config)], [sleep] is [time.sleep]. *)
Context {W R : Type}.
Variable invoke : W -> outcome R * W.
Variable sleep : nat -> W -> W.

(** The body of [for attempt in range(max_retries)], followed by the
    [raise] after the loop. *)
Fixpoint retry_loop (attempts : list nat) (w : W) : outcome R * W :=
  match attempts with
  | [] => (Raises max_retries_exceeded, w)
  | attempt :: rest =>
      match invoke w with
      | (Returns r, w1) => (Returns r, w1)
      | (Raises e, w1) =>
          if is_rate_limit e
          then retry_loop rest (sleep (2 ^ attempt) w1)
          else (Raises e, w1)
      end
  end.

Definition call_llm_with_retry (max_retries : nat) (w : W) : outcome R * W :=
  retry_loop (seq 0 max_retries) w.
End Retry.

(** A generation capability given by its sequence of outcomes: the
    [n]-th call (counting from 0) yields [script n].  The state records
    how many calls were made and every duration passed to [sleep]. *)
Record trace := Trace { calls : nat; slept : list nat }.

Definition scripted_invoke {R} (script : nat -> outcome R) (t : trace)
  : outcome R * trace :=
  (script (calls t), Trace (S (calls t)) (slept t)).

Definition log_sleep (d : nat) (t : trace) : trace :=
  Trace (calls t) (slept t ++ [d]).

Definition run {R} (script : nat -> outcome R) (max_retries : nat)
  : outcome R * trace :=
  call_llm_with_retry (scripted_invoke script) log_sleep max_retries (Trace 0 []).

(** The outcome is a failure carrying the transient marker. *)
Definition transient {R} (o : outcome R) : bool :=
  match o with
  | Returns _ => false
  | Raises e => is_rate_limit e
  end.

End Gateway.

(** ** Shared text constants *)

Definition nl : string := String (ascii_of_nat 10) EmptyString.
Definition dq : string := String (ascii_of_nat 34) EmptyString.

(** ** app.py: the summarisation variant *)

Module App.

(** A LangChain message as the script reads it: [msg.type], [msg.content]. *)
Record message := Message { msg_type : string; msg_content : string }.

(** An entry of [st.session_state.messages]. *)
Record chat_entry := ChatEntry { role : string; content : string }.

(** A row of the [user_profiles] table. *)
Record UserProfile := Profile { id : nat; user_id : string; preferences : string }.

(** Everything that outlives a run of the script.  [store] is the dict of
    session histories that the chain kept in [st.session_state] writes to:
    the one bound to [store] in the run that built the chain, which the
    chain reaches through that run's [get_session_history].  [chat_calls],
    [slept] and [summary_calls] log the calls made to the two models and to
    [sleep]. *)
Record world := World {
  store : gmap string (list message);
  ss_messages : list chat_entry;
  ss_preferences : string;
  user_profiles : list UserProfile;
  chat_calls : nat;
  slept : list nat;
  summary_calls : nat
}.

Definition set_store (s : gmap string (list message)) (w : world) : world :=
  World s (ss_messages w) (ss_preferences w) (user_profiles w)
        (chat_calls w) (slept w) (summary_calls w).

Definition push_message (m : chat_entry) (w : world) : world :=
  World (store w) (ss_messages w ++ [m]) (ss_preferences w) (user_profiles w)
        (chat_calls w) (slept w) (summary_calls w).

Definition set_preferences (p : string) (w : world) : world :=
  World (store w) (ss_messages w) p (user_profiles w)
        (chat_calls w) (slept w) (summary_calls w).

Definition set_profiles (t : list UserProfile) (w : world) : world :=
  World (store w) (ss_messages w) (ss_preferences w) t
        (chat_calls w) (slept w) (summary_calls w).

Definition count_chat_call (w : world) : world :=
  World (store w) (ss_messages w) (ss_preferences w) (user_profiles w)
        (S (chat_calls w)) (slept w) (summary_calls w).

Definition sleep (d : nat) (w : world) : world :=
  World (store w) (ss_messages w) (ss_preferences w) (user_profiles w)
        (chat_calls w) (slept w ++ [d]) (summary_calls w).

Definition count_summary_call (w : world) : world :=
  World (store w) (ss_messages w) (ss_preferences w) (user_profiles w)
        (chat_calls w) (slept w) (S (summary_calls w)).

(** [get_session_history]: creates the empty history on first use. *)
Definition get_session_history (session_id : string)
           (s : gmap string (list message))
  : list message * gmap string (list message) :=
  match s !! session_id with
  | Some h => (h, s)
  | None => ([], <[session_id := []]> s)
  end.

(** Line 43, [store = {}].  Streamlit executes the script from its first
    line at every interaction, each time in a new module namespace, so
    every run binds [store] to a new empty dict, and the
    [get_session_history] that the run defines reads that dict.  The chat
    input of line 113 is only shown by a run that has a user id, and such
    a run builds the chain if there is none (line 77); a run that receives
    a chat input is therefore a later run than the one whose dict the chain
    holds, and its own [store] is empty when line 129 reads it. *)
Definition script_store : gmap string (list message) := ∅.

(** [parse_room_type] *)
Definition room_types : list string :=
  ["king bed"; "double bed"; "queen bed"; "suite"; "single bed"].

Fixpoint first_room (rooms : list string) (history_lower : string) : option string :=
  match rooms with
  | [] => None
  | room :: rest =>
      if PyStr.contains room history_lower then Some room
      else first_room rest history_lower
  end.

Definition parse_room_type (history_str : string) : string :=
  let history_lower := PyStr.lower history_str in
  match first_room room_types history_lower with
  | Some room => PyStr.capitalize room
  | None => "Not Specified"
  end.

(** Lines 153-156: the fallback applied to the generated summary. *)
Definition apply_fallback (history_str summary : string) : string :=
  if PyStr.contains "Room Type: Not Specified" summary
  then
    let room_type := parse_room_type history_str in
    PyStr.replace "Room Type: Not Specified" ("Room Type: " +:+ room_type) summary
  else summary.

(** [session.query(UserProfile).filter_by(user_id=user_id).first()] *)
Definition query_first (uid : string) (t : list UserProfile) : option UserProfile :=
  List.find (fun r => String.eqb (user_id r) uid) t.

(** [user.preferences = summary] on the row that [query_first] returned. *)
Fixpoint update_first (uid summary : string) (t : list UserProfile) : list UserProfile :=
  match t with
  | [] => []
  | r :: rest =>
      if String.eqb (user_id r) uid
      then Profile (id r) (user_id r) summary :: rest
      else r :: update_first uid summary rest
  end.

(** The auto-assigned integer primary key of a new row. *)
Definition fresh_id (t : list UserProfile) : nat :=
  S (fold_right Nat.max 0 (map id t)).

(** Lines 161-167. *)
Definition upsert (uid summary : string) (t : list UserProfile) : list UserProfile :=
  match query_first uid t with
  | Some _ => update_first uid summary t
  | None => t ++ [Profile (fresh_id t) uid summary]
  end.

(** Line 81: the preferences a new session starts from. *)
Definition initial_preferences (uid user_name : string) (t : list UserProfile) : string :=
  match query_first uid t with
  | Some user => preferences user
  | None =>
      match user_name with
      | EmptyString => "No preferences found."
      | _ => "Name: " +:+ user_name
      end
  end.

(** Line 130: [f"{msg.type}: {msg.content}"] joined by newlines. *)
Definition render_history (history : list message) : string :=
  PyStr.join nl (map (fun msg => msg_type msg +:+ ": " +:+ msg_content msg) history).

(** Lines 135-148. *)
Definition summary_prompt (history_str user_name : string) : string :=
  String.concat EmptyString
    [ nl;
      "    Summarize the conversation to extract user preferences in this exact format: "; nl;
      "    "; dq; "Name: <name>, Location: <location>, Room Type: <room type>, Other: <other preferences>"; dq; nl;
      "    - Name: Use the provided user name or 'Not Provided' if none."; nl;
      "    - Location: Identify the city or area (e.g., Paris, New York)."; nl;
      "    - Room Type: Identify the room type (e.g., King Bed, Double Bed, Suite). Do not use 'Not Specified' unless no room type is mentioned."; nl;
      "    - Other: Include other preferences (e.g., Near Eiffel Tower, Has Pool)."; nl;
      "    Examples:"; nl;
      "    - "; dq; "I want a hotel in Paris with a king bed near the Eiffel Tower"; dq; " → ";
                dq; "Name: Not Provided, Location: Paris, Room Type: King Bed, Other: Near Eiffel Tower"; dq; nl;
      "    - "; dq; "I'm John, I need a suite in London with a pool"; dq; " → ";
                dq; "Name: John, Location: London, Room Type: Suite, Other: Has Pool"; dq; nl;
      "    Conversation:"; nl;
      "    "; history_str; nl;
      "    User name: "; user_name; nl;
      "    " ].

Section Turn.
(** The chat model behind the chain: what its [n]-th call answers, given
    the preferences, the session history and the input put in the prompt.
    The summary model likewise, given the summary prompt. *)
Variable chat_model : nat -> string -> list message -> string -> outcome string.
Variable summary_model : nat -> string -> outcome string.

(** [st.session_state.chain.invoke(messages, config)], the chain being a
    [RunnableWithMessageHistory]: the session history is fetched (and
    created), the model is called, and only when it answers are the
    input and the answer appended to the session history. *)
Definition chain_invoke (session_id input prefs : string) (w : world)
  : outcome string * world :=
  let '(hist, s1) := get_session_history session_id (store w) in
  let w1 := count_chat_call (set_store s1 w) in
  match chat_model (chat_calls w) prefs hist input with
  | Returns answer =>
      (Returns answer,
       set_store (<[session_id := hist ++ [Message "human" input; Message "ai" answer]]> s1) w1)
  | Raises e => (Raises e, w1)
  end.

(** Lines 113-169: one run of the script with a chat input.  The chain
    appends the exchange to the dict it holds; line 129 reads the history
    of the user from the dict of this run. *)
Definition turn (uid user_name user_input : string) (w : world)
  : outcome unit * world :=
  let w1 := push_message (ChatEntry "user" user_input) w in
  match Gateway.call_llm_with_retry
          (chain_invoke uid user_input (ss_preferences w1)) sleep 3 w1 with
  | (Raises e, w2) => (Raises e, w2)
  | (Returns answer, w2) =>
      let w3 := push_message (ChatEntry "assistant" answer) w2 in
      let '(history, _) := get_session_history uid script_store in
      let history_str := render_history history in
      match summary_model (summary_calls w3) (summary_prompt history_str user_name) with
      | Raises e => (Raises e, count_summary_call w3)
      | Returns summary0 =>
          let summary := apply_fallback history_str summary0 in
          let w5 := count_summary_call w3 in
          let w6 := set_profiles (upsert uid summary (user_profiles w5)) w5 in
          (Returns tt, set_preferences summary w6)
      end
  end.
End Turn.


End App.

(** ** Long-term memory of the three chatbot variants *)

(** A history entry [{"user_input": ..., "assistant_response": ...}]. *)
Record InteractionRecord := Interaction {
  user_input : string;
  assistant_response : string
}.

(** A Python [dict] from text to text: its items in insertion order. *)
Module PyDict.
Definition dict : Type := list (string * string).

(** [d.get(k)] *)
Fixpoint get (k : string) (d : dict) : option string :=
  match d with
  | [] => None
  | (k', v) :: rest => if String.eqb k' k then Some v else get k rest
  end.

(** [d[k] = v]: an existing key keeps its position, a new one goes last. *)
Fixpoint set (k v : string) (d : dict) : dict :=
  match d with
  | [] => [(k, v)]
  | (k', v') :: rest =>
      if String.eqb k' k then (k, v) :: rest else (k', v') :: set k v rest
  end.

Definition keys (d : dict) : list string := map fst d.
(** [for k, v in items: d[k] = v] *)
Definition update (d items : dict) : dict :=
  fold_left (fun acc kv => set (fst kv) (snd kv) acc) items d.
End PyDict.

(** [{"preferences": {...}, "history": [...]}] *)
Record LongTermMemory := LTM {
  preferences : PyDict.dict;
  history : list InteractionRecord
}.

Definition empty_memory : LongTermMemory := LTM [] [].

(** ** hotel_booking_chatbot.py and hotel_booking_chatbot2.py: the JSON file *)

Module FlatFile.

(** [MEMORY_FILE] as one variant finds it.  The file is only ever read
    through [json.load]/[json.loads] and written through [json.dump], so
    a readable document is held as the value the reader gets back from
    it, and an unreadable one by the way the parser fails on it.  The
    first variant parses the text as it is and the second parses the
    stripped text, so one text need not be the same [file] to both:
    [FlatText] below has the view of each, and what compares the two
    variants is stated there. *)
Inductive file : Type :=
| Absent                                        (* [os.path.exists] is false *)
| Blank                                         (* nothing but white space *)
| Malformed (text : string)                     (* the parser raises [JSONDecodeError] *)
| Overlong                                      (* the parser raises another [ValueError] *)
| TooDeep                                       (* the parser raises [RecursionError] *)
| NotAnObject                                   (* valid JSON, but not an object *)
| Document (data : gmap string LongTermMemory). (* user id -> memory *)

(** What [json.loads] raises: [JSONDecodeError], a subclass of
    [ValueError], on text that is not JSON; a plain [ValueError] on an
    integer literal with more digits than the interpreter converts; and
    [RecursionError], a [RuntimeError], on arrays or objects nested deeper
    than the recursion limit, which is met before the text is read to its
    end. *)
Definition JSONDecodeError : exn := Exn "JSONDecodeError" "Expecting value".
Definition ValueError : exn :=
  Exn "ValueError" "Exceeds the limit (4300 digits) for integer string conversion".
Definition RecursionError : exn :=
  Exn "RecursionError"
      "maximum recursion depth exceeded while decoding a JSON array from a unicode string".
Definition AttributeError : exn := Exn "AttributeError" "object has no attribute 'get'".
Definition TypeError : exn := Exn "TypeError" "object does not support item assignment".

(** [data.get(user_id, {"preferences": {}, "history": []})] *)
Definition get_or_empty (uid : string) (data : gmap string LongTermMemory)
  : LongTermMemory :=
  match data !! uid with
  | Some m => m
  | None => empty_memory
  end.

(** First variant: no handling of a file that does not parse. *)
Module V1.
Definition load_long_term_memory (uid : string) (f : file)
  : outcome LongTermMemory * file :=
  match f with
  | Absent => (Returns empty_memory, f)
  | Blank => (Raises JSONDecodeError, f)       (* [json.load] on an empty text *)
  | Malformed _ => (Raises JSONDecodeError, f)
  | Overlong => (Raises ValueError, f)
  | TooDeep => (Raises RecursionError, f)
  | NotAnObject => (Raises AttributeError, f)
  | Document data => (Returns (get_or_empty uid data), f)
  end.

Definition save_long_term_memory (uid : string) (memory_data : LongTermMemory)
           (f : file) : outcome unit * file :=
  match f with
  | Absent => (Returns tt, Document (<[uid := memory_data]> ∅))
  | Blank => (Raises JSONDecodeError, f)       (* raised while reading: nothing written *)
  | Malformed _ => (Raises JSONDecodeError, f)
  | Overlong => (Raises ValueError, f)
  | TooDeep => (Raises RecursionError, f)
  | NotAnObject => (Raises TypeError, f)
  | Document data => (Returns tt, Document (<[uid := memory_data]> data))
  end.
End V1.

(** Second variant: a blank file is skipped, and
    [except (json.JSONDecodeError, ValueError)] catches the parser's
    [ValueError]s; a [RecursionError] is not one. *)
Module V2.
Definition load_long_term_memory (uid : string) (f : file)
  : outcome LongTermMemory * file :=
  match f with
  | Absent => (Returns empty_memory, f)        (* no file: the last [return] *)
  | Blank => (Returns empty_memory, f)         (* [if content] fails: the last [return] *)
  | Malformed _ => (Returns empty_memory, f)   (* the [except] branch *)
  | Overlong => (Returns empty_memory, f)      (* the [except] branch *)
  | TooDeep => (Raises RecursionError, f)      (* not caught *)
  | NotAnObject => (Raises AttributeError, f)  (* [data.get] on a non-dict, not caught *)
  | Document data => (Returns (get_or_empty uid data), f)
  end.

Definition save_long_term_memory (uid : string) (memory_data : LongTermMemory)
           (f : file) : outcome unit * file :=
  match f with
  | Absent => (Returns tt, Document (<[uid := memory_data]> ∅))       (* [data = {}] *)
  | Blank => (Returns tt, Document (<[uid := memory_data]> ∅))        (* [else {}] *)
  | Malformed _ => (Returns tt, Document (<[uid := memory_data]> ∅))  (* [except: data = {}] *)
  | Overlong => (Returns tt, Document (<[uid := memory_data]> ∅))     (* [except: data = {}] *)
  | TooDeep => (Raises RecursionError, f)  (* raised while reading: nothing written *)
  | NotAnObject => (Raises TypeError, f)   (* [data[user_id] = ...] fails before the write *)
  | Document data => (Returns tt, Document (<[uid := memory_data]> data))
  end.
End V2.

End FlatFile.

(** *** The same two variants over the text of the file

    Here the file is its text ([None] when it does not exist) and the JSON
    library is a pair of functions: [json_loads] says what parsing a text
    gives, [json_dump] is the text that [json.dump(data, f, indent=2)]
    writes.  [view] tells which [FlatFile.file] a text is to the reader. *)

Module FlatText.

Inductive parsed : Type :=
| Undecodable                                (* raises [JSONDecodeError] *)
| OutOfRange                                 (* raises another [ValueError] *)
| Overflow                                   (* raises [RecursionError] *)
| NonDict                                    (* a value that is not an object *)
| Dict (data : gmap string LongTermMemory).

Module V1.
Section Library.
Variable json_loads : string -> parsed.
Variable json_dump : gmap string LongTermMemory -> string.

Definition load_long_term_memory (uid : string) (f : option string)
  : outcome LongTermMemory * option string :=
  match f with
  | Some text =>
      match json_loads text with
      | Dict data => (Returns (FlatFile.get_or_empty uid data), f)
      | NonDict => (Raises FlatFile.AttributeError, f)
      | Undecodable => (Raises FlatFile.JSONDecodeError, f)
      | OutOfRange => (Raises FlatFile.ValueError, f)
      | Overflow => (Raises FlatFile.RecursionError, f)
      end
  | None => (Returns empty_memory, f)
  end.

Definition save_long_term_memory (uid : string) (memory_data : LongTermMemory)
           (f : option string) : outcome unit * option string :=
  match f with
  | Some text =>
      match json_loads text with
      | Dict data => (Returns tt, Some (json_dump (<[uid := memory_data]> data)))
      | NonDict => (Raises FlatFile.TypeError, f)
      | Undecodable => (Raises FlatFile.JSONDecodeError, f)
      | OutOfRange => (Raises FlatFile.ValueError, f)
      | Overflow => (Raises FlatFile.RecursionError, f)
      end
  | None => (Returns tt, Some (json_dump (<[uid := memory_data]> ∅)))
  end.

Definition view (f : option string) : FlatFile.file :=
  match f with
  | Some text =>
      match json_loads text with
      | Dict data => FlatFile.Document data
      | NonDict => FlatFile.NotAnObject
      | Undecodable => FlatFile.Malformed text
      | OutOfRange => FlatFile.Overlong
      | Overflow => FlatFile.TooDeep
      end
  | None => FlatFile.Absent
  end.
End Library.
End V1.

Module V2.
Section Library.
Variable json_loads : string -> parsed.
Variable json_dump : gmap string LongTermMemory -> string.

Definition load_long_term_memory (uid : string) (f : option string)
  : outcome LongTermMemory * option string :=
  match f with
  | Some text =>
      let content := PyStr.strip text in
      match content with
      | EmptyString => (Returns empty_memory, f)
      | _ =>
          match json_loads content with
          | Dict data => (Returns (FlatFile.get_or_empty uid data), f)
          | NonDict => (Raises FlatFile.AttributeError, f)
          | Undecodable => (Returns empty_memory, f)
          | OutOfRange => (Returns empty_memory, f)
          | Overflow => (Raises FlatFile.RecursionError, f)
          end
      end
  | None => (Returns empty_memory, f)
  end.

(** Lines 35-43: the [data] that [save_long_term_memory] starts from, or
    the exception that leaves the [try]. *)
Definition read_data (f : option string) : parsed :=
  match f with
  | Some text =>
      let content := PyStr.strip text in
      match content with
      | EmptyString => Dict ∅
      | _ =>
          match json_loads content with
          | Undecodable => Dict ∅
          | OutOfRange => Dict ∅
          | data => data
          end
      end
  | None => Dict ∅
  end.

Definition save_long_term_memory (uid : string) (memory_data : LongTermMemory)
           (f : option string) : outcome unit * option string :=
  match read_data f with
  | Dict data => (Returns tt, Some (json_dump (<[uid := memory_data]> data)))
  | Overflow => (Raises FlatFile.RecursionError, f)
  | _ => (Raises FlatFile.TypeError, f)
  end.

Definition view (f : option string) : FlatFile.file :=
  match f with
  | Some text =>
      match PyStr.strip text with
      | EmptyString => FlatFile.Blank
      | content =>
          match json_loads content with
          | Dict data => FlatFile.Document data
          | NonDict => FlatFile.NotAnObject
          | Undecodable => FlatFile.Malformed text
          | OutOfRange => FlatFile.Overlong
          | Overflow => FlatFile.TooDeep
          end
      end
  | None => FlatFile.Absent
  end.
End Library.
End V2.

End FlatText.

(** ** hotel_booking_chatbot3.py: the SQLite tables *)

Module Sqlite.

Record user_row := UserRow { u_user_id : string; created_at : nat }.

Record memory_row := Row {
  row_id : nat;
  row_user : string;
  data_type : string;
  key : string;
  value : string;
  timestamp : nat
}.

(** The two tables, rows in insertion (rowid) order, the last
    auto-increment id handed out, and the clock [datetime.now()] reads
    (one tick per reading). *)
Record state := State {
  Users : list user_row;
  Memory : list memory_row;
  last_rowid : nat;
  clock : nat
}.

(** [INSERT OR IGNORE INTO Users (user_id, created_at) VALUES (?, now)] *)
Definition insert_or_ignore_user (uid : string) (st : state) : state :=
  let now := clock st in
  let users :=
    if existsb (fun u => String.eqb (u_user_id u) uid) (Users st)
    then Users st
    else Users st ++ [UserRow uid now] in
  State users (Memory st) (last_rowid st) (S now).

(** An [INSERT] into [Memory].  The table's only key is the
    auto-increment [id], which the statements never supply, so the
    [INSERT OR REPLACE] of the preferences never finds a row to replace. *)
Definition insert_memory (uid dt k v : string) (st : state) : state :=
  let now := clock st in
  let rid := S (last_rowid st) in
  State (Users st) (Memory st ++ [Row rid uid dt k v now]) rid (S now).

(** [SELECT data_type, key, value FROM Memory WHERE user_id = ?]; the rows
    come back in rowid order. *)
Definition select_memory (uid : string) (st : state) : list memory_row :=
  List.filter (fun r => String.eqb (row_user r) uid) (Memory st).

(** [SELECT id FROM Memory WHERE user_id = ? AND data_type = ? AND value = ?]
    followed by [cursor.fetchone()]: is there such a row? *)
Definition select_exists (uid dt v : string) (st : state) : bool :=
  existsb (fun r => String.eqb (row_user r) uid
                    && String.eqb (data_type r) dt
                    && String.eqb (value r) v) (Memory st).

Section Codec.
(** [json.dumps] and [json.loads] at the type of history entries.
    [None] stands for [JSONDecodeError], the one exception that line 74
    catches: the history rows of the tables are taken to hold values on
    which the parser returns an entry or raises that exception, as the
    rows written by [save_long_term_memory] do. *)
Variable json_dumps : InteractionRecord -> string.
Variable json_loads : string -> option InteractionRecord.

(** The loop of [load_long_term_memory] over the fetched rows. *)
Fixpoint collect (rows : list memory_row) (prefs : PyDict.dict)
         (hist : list InteractionRecord) : LongTermMemory :=
  match rows with
  | [] => LTM prefs hist
  | row :: rest =>
      if String.eqb (data_type row) "preference"
      then collect rest (PyDict.set (key row) (value row) prefs) hist
      else if String.eqb (data_type row) "history"
      then match json_loads (value row) with
           | Some entry => collect rest prefs (hist ++ [entry])
           | None => collect rest prefs hist
           end
      else collect rest prefs hist
  end.

Definition load_long_term_memory (uid : string) (st : state)
  : LongTermMemory * state :=
  let st1 := insert_or_ignore_user uid st in
  (collect (select_memory uid st1) [] [], st1).

(** [for key, value in memory_data.get("preferences", {}).items()] *)
Fixpoint save_preferences (uid : string) (items : PyDict.dict) (st : state) : state :=
  match items with
  | [] => st
  | (k, v) :: rest => save_preferences uid rest (insert_memory uid "preference" k v st)
  end.

(** [for entry in memory_data.get("history", [])]; [n] is
    [len(memory_data['history'])]. *)
Fixpoint save_history (uid : string) (n : nat) (entries : list InteractionRecord)
         (st : state) : state :=
  match entries with
  | [] => st
  | entry :: rest =>
      let serialized_entry := json_dumps entry in
      if select_exists uid "history" serialized_entry st
      then save_history uid n rest st
      else save_history uid n rest
             (insert_memory uid "history" ("interaction_" +:+ PyStr.of_nat n)
                            serialized_entry st)
  end.

Definition save_long_term_memory (uid : string) (memory_data : LongTermMemory)
           (st : state) : state :=
  let st1 := insert_or_ignore_user uid st in
  let st2 := save_preferences uid (preferences memory_data) st1 in
  save_history uid (length (history memory_data)) (history memory_data) st2.

(** The serialized history entries stored for a user, in row order. *)
Definition history_values (uid : string) (st : state) : list string :=
  map value
      (List.filter (fun r => String.eqb (row_user r) uid
                             && String.eqb (data_type r) "history") (Memory st)).
End Codec.

(** The preference rows stored for a user, as (key, value), in row order. *)
Definition preference_items (uid : string) (st : state) : PyDict.dict :=
  map (fun r => (key r, value r))
      (List.filter (fun r => String.eqb (row_user r) uid
                             && String.eqb (data_type r) "preference") (Memory st)).

(** Every history value stored for the user is a text that [json_dumps]
    writes and [json_loads] reads back: the rows are the program's own. *)
Definition written_by (json_dumps : InteractionRecord -> string)
           (json_loads : string -> option InteractionRecord)
           (uid : string) (st : state) : Prop :=
  forall v, In v (history_values uid st) ->
            exists e, json_loads v = Some e /\ json_dumps e = v.

(** The keys of the two tables: row ids all different and none above the
    last id handed out; user ids all different. *)
Definition rowids_ok (st : state) : Prop :=
  NoDup (map row_id (Memory st))
  /\ Forall (fun r => row_id r <= last_rowid st) (Memory st).

Definition users_ok (st : state) : Prop :=
  NoDup (map u_user_id (Users st)).

End Sqlite.

(** ** hotel_booking_chatbot2.py / hotel_booking_chatbot3.py: [main] *)

Module Chatbot.

(** An entry of [st.session_state.messages]. *)
Record chat_entry := ChatEntry { role : string; content : string }.

(** Streamlit's session state: the exchanges kept by the
    [ConversationBufferMemory], the displayed messages, and the number of
    calls made to the model so far. *)
Record session := Session {
  ss_memory : list (string * string);
  ss_messages : list chat_entry;
  llm_calls : nat
}.

(** [history[-3:]] *)
Definition last3 {A} (l : list A) : list A := skipn (length l - 3) l.

Definition render_preference (kv : string * string) : string :=
  fst kv +:+ ": " +:+ snd kv.

Definition render_interaction (item : InteractionRecord) : string :=
  "User: " +:+ user_input item +:+ " | Assistant: " +:+ assistant_response item.

Definition pref_str (prefs : PyDict.dict) : string :=
  match prefs with
  | [] => "None available"
  | _ => nl +:+ "- " +:+ PyStr.join (nl +:+ "- ") (map render_preference prefs)
  end.

Definition hist_str (hist : list InteractionRecord) : string :=
  match hist with
  | [] => "None available"
  | _ =>
      let recent_history := last3 hist in
      nl +:+ "- " +:+ PyStr.join (nl +:+ "- ") (map render_interaction recent_history)
  end.

Definition long_term_context_str (m : LongTermMemory) : string :=
  "Stored Preferences:" +:+ nl +:+ pref_str (preferences m) +:+ nl +:+ nl
  +:+ "Recent Past Interactions:" +:+ nl +:+ hist_str (history m).

(** The buffer of the conversation memory, [ai_prefix="Assistant"]. *)
Definition buffer (mem : list (string * string)) : string :=
  PyStr.join nl
    (flat_map (fun ex => ["Human: " +:+ fst ex; "Assistant: " +:+ snd ex]) mem).

(** [PROMPT] with its three variables filled in. *)
Definition prompt_text (long_term_context hist input : string) : string :=
  String.concat EmptyString
    [ "You are a hotel booking assistant. Your goal is to help the user book a hotel by asking relevant questions (e.g., location, dates, budget). Always reference and utilize the user's stored preferences and past interactions from the long-term context when relevant to the current query. If the user has previously mentioned preferences (like budget or location), acknowledge them in your response or confirm if they still apply before proceeding.";
      nl; nl;
      "Long-Term Context (User Preferences and Past Interactions):"; nl;
      long_term_context; nl; nl;
      "Current Conversation History:"; nl;
      hist; nl; nl;
      "User Input: "; input; nl; nl;
      "Assistant: " ].

(** Lines 121-126 of the second variant (189-194 of the third): the new
    history entry and the two keyword heuristics. *)
Definition consolidate (prompt response : string) (m : LongTermMemory)
  : LongTermMemory :=
  let hist := history m ++ [Interaction prompt response] in
  let prefs1 :=
    if PyStr.contains "budget" (PyStr.lower prompt)
    then PyDict.set "budget" prompt (preferences m)
    else preferences m in
  let prefs2 :=
    if PyStr.contains "location" (PyStr.lower prompt)
       || PyStr.contains "city" (PyStr.lower prompt)
    then PyDict.set "location" prompt prefs1
    else prefs1 in
  LTM prefs2 hist.

Section Main.
(** The storage backend and the model.  [llm n p] is the answer to the
    [n]-th call, made with prompt [p]. *)
Context {St : Type}.
Variable load_long_term_memory : string -> St -> outcome LongTermMemory * St.
Variable save_long_term_memory : string -> LongTermMemory -> St -> outcome unit * St.
Variable llm : nat -> string -> outcome string.

(** One run of [main]; [chat_input] is what [st.chat_input] returned. *)
Definition main (uid : string) (chat_input : option string) (ss : session) (s : St)
  : outcome unit * (session * St) :=
  match load_long_term_memory uid s with
  | (Raises e, s1) => (Raises e, (ss, s1))
  | (Returns long_term_data, s1) =>
      let context := long_term_context_str long_term_data in
      match chat_input with
      | None => (Returns tt, (ss, s1))
      | Some prompt =>
          let ss1 := Session (ss_memory ss)
                             (ss_messages ss ++ [ChatEntry "user" prompt])
                             (llm_calls ss) in
          let ss2 := Session (ss_memory ss1) (ss_messages ss1) (S (llm_calls ss1)) in
          match llm (llm_calls ss1)
                    (prompt_text context (buffer (ss_memory ss1)) prompt) with
          | Raises e => (Raises e, (ss2, s1))
          | Returns response =>
              let ss3 := Session (ss_memory ss2 ++ [(prompt, response)])
                                 (ss_messages ss2 ++ [ChatEntry "assistant" response])
                                 (llm_calls ss2) in
              let long_term_data' := consolidate prompt response long_term_data in
              match save_long_term_memory uid long_term_data' s1 with
              | (Raises e, s2) => (Raises e, (ss3, s2))
              | (Returns _, s2) => (Returns tt, (ss3, s2))
              end
          end
      end
  end.
End Main.

(** The second variant runs [main] over the JSON file. *)
Definition main_flat := @main FlatFile.file
  FlatFile.V2.load_long_term_memory FlatFile.V2.save_long_term_memory.

(** The third variant runs it over the tables; neither call raises. *)
Definition sqlite_load (json_loads : string -> option InteractionRecord)
           (uid : string) (st : Sqlite.state) : outcome LongTermMemory * Sqlite.state :=
  let '(m, st1) := Sqlite.load_long_term_memory json_loads uid st in (Returns m, st1).

Definition sqlite_save (json_dumps : InteractionRecord -> string)
           (uid : string) (m : LongTermMemory) (st : Sqlite.state)
  : outcome unit * Sqlite.state :=
  (Returns tt, Sqlite.save_long_term_memory json_dumps uid m st).

Definition main_sqlite (json_dumps : InteractionRecord -> string)
           (json_loads : string -> option InteractionRecord) :=
  @main Sqlite.state (sqlite_load json_loads) (sqlite_save json_dumps).

End Chatbot.

(** ** A JSON codec for history entries

    [dumps] writes an entry of ASCII text as [json.dumps] writes the dict,
    with the escapes of its default settings; [loads] reads such a
    document back.  Text is taken byte by byte: bytes above 127 are
    copied, where the library would write [\uXXXX].  [loads] accepts the documents [dumps] writes and reports
    every other text as undecodable.  The properties of the tables are
    stated for any pair of functions in the place of [json.dumps] and
    [json.loads]; this codec is the one the concrete runs use. *)

Module Json.

Definition backslash : ascii := ascii_of_nat 92.
Definition quote : ascii := ascii_of_nat 34.

Definition hex_digit (n : nat) : ascii :=
  if n <? 10 then ascii_of_nat (48 + n) else ascii_of_nat (87 + n).

Definition hex_value (c : ascii) : option nat :=
  let n := nat_of_ascii c in
  if (48 <=? n) && (n <=? 57) then Some (n - 48)
  else if (97 <=? n) && (n <=? 102) then Some (n - 87)
  else if (65 <=? n) && (n <=? 70) then Some (n - 55)
  else None.

Definition escape_char (c : ascii) : string :=
  let n := nat_of_ascii c in
  if Nat.eqb n 34 then String backslash (String quote EmptyString)
  else if Nat.eqb n 92 then String backslash (String backslash EmptyString)
  else if Nat.eqb n 10 then String backslash "n"
  else if Nat.eqb n 13 then String backslash "r"
  else if Nat.eqb n 9 then String backslash "t"
  else if Nat.eqb n 8 then String backslash "b"
  else if Nat.eqb n 12 then String backslash "f"
  else if (n <? 32) || Nat.eqb n 127
       then String backslash
              ("u00" +:+ String (hex_digit (n / 16)) (String (hex_digit (n mod 16)) EmptyString))
  else String c EmptyString.

Fixpoint escape (s : string) : string :=
  match s with
  | EmptyString => EmptyString
  | String c t => escape_char c +:+ escape t
  end.

(** The text up to the opening quote of the first value, and the text
    between the closing quote of the first value and the opening quote of
    the second. *)
Definition first_key : string := "{" +:+ dq +:+ "user_input" +:+ dq +:+ ": " +:+ dq.
Definition second_key : string := ", " +:+ dq +:+ "assistant_response" +:+ dq +:+ ": " +:+ dq.

Definition dumps (e : InteractionRecord) : string :=
  first_key +:+ escape (user_input e) +:+ dq
  +:+ second_key +:+ escape (assistant_response e) +:+ dq +:+ "}".

(** Where the reader of a string literal stands. *)
Inductive mode : Type :=
| Plain
| Escaped
| Hex (remaining acc : nat).

(** Reads a string literal after its opening quote: the text read so far
    is [acc]; returns the text and what follows the closing quote. *)
Fixpoint read_string (m : mode) (acc s : string) : option (string * string) :=
  match s with
  | EmptyString => None
  | String c t =>
      match m with
      | Plain =>
          if Ascii.eqb c quote then Some (acc, t)
          else if Ascii.eqb c backslash then read_string Escaped acc t
          else if nat_of_ascii c <? 32 then None
          else read_string Plain (acc +:+ String c EmptyString) t
      | Escaped =>
          let n := nat_of_ascii c in
          let put b := read_string Plain (acc +:+ String (ascii_of_nat b) EmptyString) t in
          if Nat.eqb n 34 then put 34
          else if Nat.eqb n 92 then put 92
          else if Nat.eqb n 47 then put 47
          else if Nat.eqb n 110 then put 10
          else if Nat.eqb n 114 then put 13
          else if Nat.eqb n 116 then put 9
          else if Nat.eqb n 98 then put 8
          else if Nat.eqb n 102 then put 12
          else if Nat.eqb n 117 then read_string (Hex 4 0) acc t
          else None
      | Hex remaining v =>
          match hex_value c with
          | None => None
          | Some d =>
              let v' := 16 * v + d in
              match remaining with
              | 0 => None
              | 1 => if v' <? 256
                     then read_string Plain (acc +:+ String (ascii_of_nat v') EmptyString) t
                     else None
              | S k => read_string (Hex k v') acc t
              end
          end
      end
  end.

(** Drops [p] from the front of [s]. *)
Fixpoint expect (p s : string) : option string :=
  match p with
  | EmptyString => Some s
  | String a p' =>
      match s with
      | EmptyString => None
      | String b s' => if Ascii.eqb a b then expect p' s' else None
      end
  end.

Definition loads (s : string) : option InteractionRecord :=
  match expect first_key s with
  | None => None
  | Some s1 =>
      match read_string Plain EmptyString s1 with
      | None => None
      | Some (ui, s2) =>
          match expect second_key s2 with
          | None => None
          | Some s3 =>
              match read_string Plain EmptyString s3 with
              | None => None
              | Some (ar, s4) =>
                  if String.eqb s4 "}" then Some (Interaction ui ar) else None
              end
          end
      end
  end.

End Json.

(** * Concrete scenarios *)

Module Scenario.

(** Three capabilities: two rate-limit failures then an answer; a failure
    without the marker; rate-limit failures only. *)
Definition script_recovering (n : nat) : outcome string :=
  match n with
  | 0 => Raises (Exn "RateLimitError" "Error code: 429 - rate_limit_exceeded")
  | 1 => Raises (Exn "RateLimitError" "RATE_LIMIT reached, slow down")
  | _ => Returns "Here are three hotels in Paris."
  end.

Definition script_fatal (n : nat) : outcome string :=
  Raises (Exn "ConnectionError" "connection refused").

Definition script_throttled (n : nat) : outcome string :=
  Raises (Exn "RateLimitError" "Rate_Limit").

(** A document with two users, and a new memory for one of them. *)
Definition bob_memory : LongTermMemory :=
  LTM [("budget", "My budget is 200 a night")]
      [Interaction "My budget is 200 a night" "Noted. Which city?"].

Definition two_users : FlatFile.file :=
  FlatFile.Document
    (<["alice" := LTM [] [Interaction "hello" "Hi! Where would you like to stay?"]]>
       (<["bob" := bob_memory]> ∅)).

Definition alice_memory : LongTermMemory :=
  LTM [("location", "I want a hotel in the city of Rome")]
      [Interaction "hello" "Hi! Where would you like to stay?";
       Interaction "I want a hotel in the city of Rome" "Rome it is."].

(** A model that always gives the same answer, a fresh Streamlit session,
    and empty tables. *)
Definition same_answer (n : nat) (prompt : string) : outcome string :=
  Returns "Which city would you like to stay in?".

Definition new_session : Chatbot.session := Chatbot.Session [] [] 0.

Definition empty_tables : Sqlite.state := Sqlite.State [] [] 0 0.

(** The third variant, user [u1] typing [hi] in two successive runs. *)
Definition sqlite_first_turn :=
  Chatbot.main_sqlite Json.dumps Json.loads same_answer "u1" (Some "hi")
                      new_session empty_tables.

Definition sqlite_second_turn :=
  Chatbot.main_sqlite Json.dumps Json.loads same_answer "u1" (Some "hi")
                      (fst (snd sqlite_first_turn)) (snd (snd sqlite_first_turn)).

(** app.py: a returning user whose profile holds a summary. *)
Definition john_summary : string :=
  "Name: John, Location: London, Room Type: Suite, Other: Has Pool".

Definition john_world : App.world :=
  App.World ∅ [] john_summary [App.Profile 1 "u1" john_summary] 0 [] 0.

Definition chat_ok (n : nat) (prefs : string) (hist : list App.message) (input : string)
  : outcome string :=
  Returns "We have several suites available.".

Definition chat_refused (n : nat) (prefs : string) (hist : list App.message)
           (input : string) : outcome string :=
  Raises (Exn "ConnectionError" "connection refused").



Definition summary_paris (n : nat) (prompt : string) : outcome string :=
  Returns "Name: John, Location: Paris, Room Type: King Bed, Other: Near Eiffel Tower".

(** app.py, two completed turns of [u1] starting from an empty table. *)
Definition empty_world : App.world := App.World ∅ [] "Name: John" [] 0 [] 0.

Definition app_first_turn :=
  App.turn chat_ok summary_paris "u1" "John"
           "I want a hotel in Paris with a king bed near the Eiffel Tower" empty_world.

Definition app_second_turn :=
  App.turn chat_ok summary_paris "u1" "John" "Is breakfast included?"
           (snd app_first_turn).

(** Tables holding two saves of [u1]. *)
Definition paris_then_rome : Sqlite.state :=
  Sqlite.save_long_term_memory Json.dumps "u1" (LTM [("location", "Rome")] [])
    (Sqlite.save_long_term_memory Json.dumps "u1" (LTM [("location", "Paris")] [])
       empty_tables).

(** A parser that knows the empty document and rejects every other text,
    and a file cut off in the middle of a document. *)
Definition loads_empty_only (text : string) : FlatText.parsed :=
  if String.eqb text "{}" then FlatText.Dict ∅ else FlatText.Undecodable.

Definition truncated_text : string := "{" +:+ dq +:+ "alice" +:+ dq +:+ ": {" +:+ nl.

(** A stand-in for the parser on a file of opening brackets: like the
    library under the default recursion limit it gives up with
    [RecursionError] once a thousand arrays are open, before it could find
    the text cut off; it knows the empty document and rejects every other
    text.  [deep_text] is a thousand opening brackets followed by a
    newline. *)
Fixpoint open_brackets (text : string) : nat :=
  match text with
  | String "["%char rest => S (open_brackets rest)
  | _ => 0
  end.

Definition loads_bounded (text : string) : FlatText.parsed :=
  if 1000 <=? open_brackets text then FlatText.Overflow
  else if String.eqb text "{}" then FlatText.Dict ∅
  else FlatText.Undecodable.

Definition deep_text : string :=
  string_of_list_ascii (repeat "["%char 1000) +:+ nl.

(** A chat model that is rate-limited once and then answers. *)
Definition chat_limited_once (n : nat) (prefs : string) (hist : list App.message)
           (input : string) : outcome string :=
  match n with
  | 0 => Raises (Exn "RateLimitError" "rate_limit_exceeded")
  | _ => Returns "We have several suites available."
  end.

(** A memory with one preference and two history entries. *)
Definition ann_memory : LongTermMemory :=
  LTM [("budget", "My budget is 150 euros")]
      [Interaction "hello" "Hi! Where would you like to stay?";
       Interaction "My budget is 150 euros" "Noted."].

(** A model that is down. *)
Definition llm_down (n : nat) (prompt : string) : outcome string :=
  Raises (Exn "ConnectionError" "connection refused").

End Scenario.

(** * Properties *)

(** ** Text *)

Lemma append_nil (t : string) : EmptyString +:+ t = t.
Proof. reflexivity. Qed.

Lemma append_cons (c : ascii) (s t : string) : String c s +:+ t = String c (s +:+ t).
Proof. reflexivity. Qed.

Lemma string_app_nil_r (s : string) : s +:+ EmptyString = s.
Proof. induction s as [|c s IH]; [reflexivity|]. rewrite append_cons, IH. reflexivity. Qed.

Lemma string_app_assoc (a b c : string) : (a +:+ b) +:+ c = a +:+ (b +:+ c).
Proof.
  induction a as [|x a IH]; [reflexivity|]. rewrite !append_cons, IH. reflexivity.
Qed.

(** ** The capability gateway *)

Section GatewayFacts.
Context {R : Type}.
Variable script : nat -> outcome R.

Local Abbreviation loop := (Gateway.retry_loop (Gateway.scripted_invoke script) Gateway.log_sleep).

(** The loop stops at the first call that is not a transient failure and
    hands back that call's outcome, whether an answer or an exception. *)
Lemma retry_loop_stops (n k : nat) :
  forall (a0 : nat) (t : Gateway.trace),
    k < n ->
    (forall j, j < k -> Gateway.transient (script (Gateway.calls t + j)) = true) ->
    Gateway.transient (script (Gateway.calls t + k)) = false ->
    loop (seq a0 n) t =
    (script (Gateway.calls t + k),
     Gateway.Trace (Gateway.calls t + S k)
                   (Gateway.slept t ++ map (Nat.pow 2) (seq a0 k))).
Proof.
  revert k. induction n as [|n IH]; intros k a0 t Hk Hbefore Hat; [lia|].
  cbn [seq Gateway.retry_loop]. unfold Gateway.scripted_invoke at 1.
  destruct k as [|k].
  - rewrite Nat.add_0_r in Hat. cbn [seq map]. rewrite app_nil_r.
    replace (Gateway.calls t + 1) with (S (Gateway.calls t)) by lia.
    rewrite Nat.add_0_r.
    destruct (script (Gateway.calls t)) as [r|e]; [reflexivity|].
    cbn in Hat. rewrite Hat. reflexivity.
  - pose proof (Hbefore 0 ltac:(lia)) as H0. rewrite Nat.add_0_r in H0.
    destruct (script (Gateway.calls t)) as [r|e]; [discriminate H0|].
    cbn in H0. rewrite H0.
    rewrite (IH k (S a0)); cbn [Gateway.calls Gateway.slept Gateway.log_sleep].
    + replace (S (Gateway.calls t) + k) with (Gateway.calls t + S k) by lia.
      replace (S (Gateway.calls t) + S k) with (Gateway.calls t + S (S k)) by lia.
      cbn [seq map]. rewrite <- app_assoc. reflexivity.
    + lia.
    + intros j Hj. replace (S (Gateway.calls t) + j) with (Gateway.calls t + S j) by lia.
      apply Hbefore. lia.
    + replace (S (Gateway.calls t) + k) with (Gateway.calls t + S k) by lia. exact Hat.
Qed.

(** When every attempt fails transiently the loop sleeps after each of
    them and then raises the terminal exception. *)
Lemma retry_loop_exhausts (n : nat) :
  forall (a0 : nat) (t : Gateway.trace),
    (forall j, j < n -> Gateway.transient (script (Gateway.calls t + j)) = true) ->
    loop (seq a0 n) t =
    (Raises Gateway.max_retries_exceeded,
     Gateway.Trace (Gateway.calls t + n)
                   (Gateway.slept t ++ map (Nat.pow 2) (seq a0 n))).
Proof.
  induction n as [|n IH]; intros a0 t Hall.
  - cbn. rewrite Nat.add_0_r, app_nil_r. destruct t; reflexivity.
  - cbn [seq Gateway.retry_loop]. unfold Gateway.scripted_invoke at 1.
    pose proof (Hall 0 ltac:(lia)) as H0. rewrite Nat.add_0_r in H0.
    destruct (script (Gateway.calls t)) as [r|e]; [discriminate H0|].
    cbn in H0. rewrite H0.
    rewrite (IH (S a0)); cbn [Gateway.calls Gateway.slept Gateway.log_sleep].
    + replace (S (Gateway.calls t) + n) with (Gateway.calls t + S n) by lia.
      cbn [seq map]. rewrite <- app_assoc. reflexivity.
    + intros j Hj. replace (S (Gateway.calls t) + j) with (Gateway.calls t + S j) by lia.
      apply Hall. lia.
Qed.
End GatewayFacts.

(** C1.  Whatever the sequence of outcomes of the generation capability,
    [call_llm_with_retry] with its default of 3 attempts retries exactly the
    failures whose text contains [rate_limit] in any letter case, sleeping
    [2^k] after attempt [k]: it returns the outcome of the first call that
    is not such a failure (an answer is returned, another exception is
    re-raised as it is), and after three transient failures raises
    [Max retries exceeded].  In particular two transient failures followed
    by an answer make exactly 3 calls and return the answer, and a first
    failure that is not transient makes exactly 1 call and propagates. *)
Theorem C1_bounded_retry_with_backoff :
  forall (R : Type) (script : nat -> outcome R),
    (forall k, k < 3 ->
       (forall j, j < k -> Gateway.transient (script j) = true) ->
       Gateway.transient (script k) = false ->
       Gateway.run script 3 =
       (script k, Gateway.Trace (S k) (map (Nat.pow 2) (seq 0 k))))
    /\ ((forall j, j < 3 -> Gateway.transient (script j) = true) ->
        Gateway.run script 3 =
        (Raises Gateway.max_retries_exceeded, Gateway.Trace 3 [1; 2; 4]))
    /\ (forall e0 e1 r,
          script 0 = Raises e0 -> Gateway.is_rate_limit e0 = true ->
          script 1 = Raises e1 -> Gateway.is_rate_limit e1 = true ->
          script 2 = Returns r ->
          Gateway.run script 3 = (Returns r, Gateway.Trace 3 [1; 2]))
    /\ (forall e,
          script 0 = Raises e -> Gateway.is_rate_limit e = false ->
          Gateway.run script 3 = (Raises e, Gateway.Trace 1 [])).
Proof.
  intros R script.
  assert (Hstop : forall k, k < 3 ->
       (forall j, j < k -> Gateway.transient (script j) = true) ->
       Gateway.transient (script k) = false ->
       Gateway.run script 3 =
       (script k, Gateway.Trace (S k) (map (Nat.pow 2) (seq 0 k)))).
  { intros k Hk Hbefore Hat. unfold Gateway.run, Gateway.call_llm_with_retry.
    rewrite (retry_loop_stops script 3 k 0 (Gateway.Trace 0 [])); auto. }
  split; [exact Hstop|]. split; [|split].
  - intros Hall. unfold Gateway.run, Gateway.call_llm_with_retry.
    rewrite (retry_loop_exhausts script 3 0 (Gateway.Trace 0 [])); auto.
  - intros e0 e1 r H0 T0 H1 T1 H2.
    rewrite (Hstop 2); [rewrite H2; reflexivity|lia| |rewrite H2; reflexivity].
    intros j Hj. destruct j as [|[|j]]; [rewrite H0|rewrite H1|lia]; assumption.
  - intros e H0 T0.
    rewrite (Hstop 0); [rewrite H0; reflexivity|lia| |rewrite H0; exact T0].
    intros j Hj. lia.
Qed.

Lemma C1_bounded_retry_witness :
  Gateway.run Scenario.script_recovering 3
  = (Returns "Here are three hotels in Paris.", Gateway.Trace 3 [1; 2])
  /\ Gateway.run Scenario.script_fatal 3
     = (Raises (Exn "ConnectionError" "connection refused"), Gateway.Trace 1 [])
  /\ Gateway.run Scenario.script_throttled 3
     = (Raises Gateway.max_retries_exceeded, Gateway.Trace 3 [1; 2; 4]).
Proof.
  split; [|split].
  - apply (proj1 (proj2 (proj2 (C1_bounded_retry_with_backoff string Scenario.script_recovering)))
             (Exn "RateLimitError" "Error code: 429 - rate_limit_exceeded")
             (Exn "RateLimitError" "RATE_LIMIT reached, slow down")); reflexivity.
  - apply (proj2 (proj2 (proj2 (C1_bounded_retry_with_backoff string Scenario.script_fatal))));
      reflexivity.
  - apply (proj1 (proj2 (C1_bounded_retry_with_backoff string Scenario.script_throttled))).
    intros j _. reflexivity.
Defined.

(** ** The room-type fallback of app.py *)

Lemma prefix_split (p s : string) :
  String.prefix p s = true -> exists r, s = p +:+ r.
Proof.
  revert s. induction p as [|a p IH]; intros s H.
  - exists s. reflexivity.
  - destruct s as [|b s]; [discriminate H|].
    cbn in H. destruct (ascii_dec a b) as [->|]; [|discriminate H].
    destruct (IH s H) as [r ->]. exists r. reflexivity.
Qed.

Lemma string_length_app (a b : string) :
  String.length (a +:+ b) = String.length a + String.length b.
Proof. induction a as [|c a IH]; simpl; [reflexivity|]. f_equal. exact IH. Qed.

(** Dropping the rest of a matched occurrence. *)
Lemma replace_from_skip (old new pre r : string) :
  PyStr.replace_from (String.length pre) old new (pre +:+ r)
  = PyStr.replace_from 0 old new r.
Proof.
  induction pre as [|c pre IH]; cbn [String.length String.append].
  - reflexivity.
  - cbn [PyStr.replace_from]. exact IH.
Qed.

(** Replacing a text by itself changes nothing. *)
Lemma replace_same (old s : string) :
  old <> EmptyString -> PyStr.replace old old s = s.
Proof.
  intros Hold. destruct old as [|a old']; [congruence|]. clear Hold.
  unfold PyStr.replace.
  remember (String.length s) as n eqn:Hn.
  assert (Hle : String.length s <= n) by lia. clear Hn.
  revert s Hle. induction n as [|n IH]; intros s Hle.
  - destruct s; [reflexivity|cbn in Hle; lia].
  - destruct s as [|c t]; [reflexivity|].
    cbn [PyStr.replace_from].
    destruct (String.prefix (String a old') (String c t)) eqn:Hp.
    + destruct (prefix_split _ _ Hp) as [r Hr].
      cbn [String.append] in Hr. injection Hr as <- ->.
      replace (String.length (String c old') - 1) with (String.length old')
        by (simpl; lia).
      rewrite replace_from_skip, IH; [reflexivity|].
      simpl in Hle. rewrite string_length_app in Hle. lia.
    + rewrite IH; [reflexivity|]. simpl in Hle. lia.
Qed.

(** When no room phrase occurs in the lower-cased history the sentinel
    stays, and so does the whole summary. *)
Lemma apply_fallback_no_match (history_str summary : string) :
  App.first_room App.room_types (PyStr.lower history_str) = None ->
  App.apply_fallback history_str summary = summary.
Proof.
  intros Hnone. unfold App.apply_fallback, App.parse_room_type.
  rewrite Hnone.
  destruct (PyStr.contains "Room Type: Not Specified" summary); [|reflexivity].
  apply replace_same. discriminate.
Qed.

(** The scan takes the phrases in list order: the phrase found is the
    first of the list that occurs in the text. *)
Lemma first_room_priority (rooms : list string) (h room : string) :
  App.first_room rooms h = Some room ->
  exists before after,
    rooms = before ++ room :: after
    /\ PyStr.contains room h = true
    /\ Forall (fun r => PyStr.contains r h = false) before.
Proof.
  induction rooms as [|r rooms IH]; intros H; [discriminate H|].
  cbn in H. destruct (PyStr.contains r h) eqn:Hr.
  - injection H as <-. exists [], rooms. repeat split; auto.
  - destruct (IH H) as (before & after & -> & Hin & Hall).
    exists (r :: before), after. repeat split; auto.
Qed.

(** C2.  With the history line [human: I'd like a queen bed please] and a
    summary whose Room Type is the sentinel, the fallback finds the phrase
    [queen bed] and writes it as [str.capitalize] renders it, [Queen bed]:
    the rewritten summary holds [Room Type: Queen bed] and does not hold
    [Room Type: Queen Bed]. *)
Theorem C2_fallback_on_queen_bed :
  App.parse_room_type "human: I'd like a queen bed please" = "Queen bed"
  /\ App.apply_fallback
       "human: I'd like a queen bed please"
       "Name: Not Provided, Location: Not Specified, Room Type: Not Specified, Other: None"
     = "Name: Not Provided, Location: Not Specified, Room Type: Queen bed, Other: None"
  /\ PyStr.contains "Room Type: Queen Bed"
       (App.apply_fallback
          "human: I'd like a queen bed please"
          "Name: Not Provided, Location: Not Specified, Room Type: Not Specified, Other: None")
     = false.
Proof.
  split; [|split]; vm_compute; reflexivity.
Qed.

(** ** The JSON file backends *)

(** Over the text of the file, loading is loading from the file as the
    reader sees it; and so is saving, when the library reads back the
    documents it writes. *)
Lemma text_load_view (json_loads : string -> FlatText.parsed) (uid : string)
      (f : option string) :
  fst (FlatText.V2.load_long_term_memory json_loads uid f)
  = fst (FlatFile.V2.load_long_term_memory uid (FlatText.V2.view json_loads f))
  /\ fst (FlatText.V1.load_long_term_memory json_loads uid f)
     = fst (FlatFile.V1.load_long_term_memory uid (FlatText.V1.view json_loads f)).
Proof.
  split.
  - unfold FlatText.V2.load_long_term_memory, FlatText.V2.view.
    destruct f as [text|]; [|reflexivity].
    cbv zeta. destruct (PyStr.strip text) as [|c content]; [reflexivity|].
    destruct (json_loads (String c content)); reflexivity.
  - unfold FlatText.V1.load_long_term_memory, FlatText.V1.view.
    destruct f as [text|]; [|reflexivity].
    destruct (json_loads text); reflexivity.
Qed.

Section TextSave.
Variable json_loads : string -> FlatText.parsed.
Variable json_dump : gmap string LongTermMemory -> string.
Hypothesis strip_dump : forall data, PyStr.strip (json_dump data) = json_dump data.
Hypothesis dump_not_empty : forall data, json_dump data <> EmptyString.
Hypothesis loads_dump : forall data, json_loads (json_dump data) = FlatText.Dict data.

Lemma view_dump (data : gmap string LongTermMemory) :
  FlatText.V2.view json_loads (Some (json_dump data)) = FlatFile.Document data
  /\ FlatText.V1.view json_loads (Some (json_dump data)) = FlatFile.Document data.
Proof.
  split.
  - unfold FlatText.V2.view. rewrite strip_dump.
    destruct (json_dump data) as [|c content] eqn:E; [destruct (dump_not_empty data E)|].
    rewrite <- E, loads_dump. reflexivity.
  - unfold FlatText.V1.view. rewrite loads_dump. reflexivity.
Qed.

Lemma text_save_view (uid : string) (m : LongTermMemory) (f : option string) :
  (fst (FlatText.V2.save_long_term_memory json_loads json_dump uid m f)
   = fst (FlatFile.V2.save_long_term_memory uid m (FlatText.V2.view json_loads f))
   /\ FlatText.V2.view json_loads
        (snd (FlatText.V2.save_long_term_memory json_loads json_dump uid m f))
      = snd (FlatFile.V2.save_long_term_memory uid m (FlatText.V2.view json_loads f)))
  /\ (fst (FlatText.V1.save_long_term_memory json_loads json_dump uid m f)
      = fst (FlatFile.V1.save_long_term_memory uid m (FlatText.V1.view json_loads f))
      /\ FlatText.V1.view json_loads
           (snd (FlatText.V1.save_long_term_memory json_loads json_dump uid m f))
         = snd (FlatFile.V1.save_long_term_memory uid m (FlatText.V1.view json_loads f))).
Proof.
  split.
  - destruct f as [text|].
    + assert (Hview : FlatText.V2.view json_loads (Some text)
                      = match PyStr.strip text with
                        | EmptyString => FlatFile.Blank
                        | content =>
                            match json_loads content with
                            | FlatText.Dict data => FlatFile.Document data
                            | FlatText.NonDict => FlatFile.NotAnObject
                            | FlatText.Undecodable => FlatFile.Malformed text
                            | FlatText.OutOfRange => FlatFile.Overlong
                            | FlatText.Overflow => FlatFile.TooDeep
                            end
                        end) by reflexivity.
      unfold FlatText.V2.save_long_term_memory, FlatText.V2.read_data. cbv zeta.
      destruct (PyStr.strip text) as [|c content].
      * rewrite Hview. cbn [fst snd FlatFile.V2.save_long_term_memory].
        split; [reflexivity|apply view_dump].
      * destruct (json_loads (String c content));
          cbn [fst snd]; rewrite !Hview; cbn [fst snd FlatFile.V2.save_long_term_memory];
          (split; [reflexivity|]); try apply view_dump; reflexivity.
    + cbn [fst snd FlatText.V2.view FlatFile.V2.save_long_term_memory
           FlatText.V2.save_long_term_memory FlatText.V2.read_data].
      split; [reflexivity|apply view_dump].
  - destruct f as [text|].
    + assert (Hview : FlatText.V1.view json_loads (Some text)
                      = match json_loads text with
                        | FlatText.Dict data => FlatFile.Document data
                        | FlatText.NonDict => FlatFile.NotAnObject
                        | FlatText.Undecodable => FlatFile.Malformed text
                        | FlatText.OutOfRange => FlatFile.Overlong
                        | FlatText.Overflow => FlatFile.TooDeep
                        end) by reflexivity.
      unfold FlatText.V1.save_long_term_memory.
      destruct (json_loads text);
        cbn [fst snd]; rewrite !Hview; cbn [fst snd FlatFile.V1.save_long_term_memory];
        (split; [reflexivity|]); try apply view_dump; reflexivity.
    + cbn [fst snd FlatText.V1.view FlatFile.V1.save_long_term_memory
           FlatText.V1.save_long_term_memory].
      split; [reflexivity|apply view_dump].
Qed.
(** Over the text of the file too, saving one user's memory leaves what
    is loaded for another user as it was. *)
Lemma text_save_leaves_other_users (u v : string) (m : LongTermMemory)
      (f : option string) :
  u <> v ->
  fst (FlatText.V2.load_long_term_memory json_loads v
         (snd (FlatText.V2.save_long_term_memory json_loads json_dump u m f)))
  = fst (FlatText.V2.load_long_term_memory json_loads v f).
Proof.
  intros Huv.
  rewrite (proj1 (text_load_view json_loads v _)),
    (proj1 (text_load_view json_loads v f)).
  rewrite (proj2 (proj1 (text_save_view u m f))).
  destruct (FlatText.V2.view json_loads f); cbn; try reflexivity;
    unfold FlatFile.get_or_empty; rewrite lookup_insert_ne by exact Huv; reflexivity.
Qed.
End TextSave.

(** C4.  What the handler of the second variant's
    [load_long_term_memory] catches and what it lets through.  Text that
    the parser rejects with [JSONDecodeError] or another [ValueError] is
    loaded as the empty memory, as the comment of line 29 says.  Text
    nested deeper than the parser's recursion limit is not: the parser
    raises [RecursionError], which is no [ValueError], so the load raises
    it to its caller, and the run of [main] ends with it before the prompt
    is composed or the model called. *)
Theorem C4_deep_nesting_escapes_the_handler :
  forall (json_loads : string -> FlatText.parsed) (uid text : string),
    (json_loads (PyStr.strip text) = FlatText.Undecodable
     \/ json_loads (PyStr.strip text) = FlatText.OutOfRange ->
     FlatText.V2.load_long_term_memory json_loads uid (Some text)
     = (Returns empty_memory, Some text))
    /\ (PyStr.strip text <> EmptyString ->
        json_loads (PyStr.strip text) = FlatText.Overflow ->
        FlatText.V2.load_long_term_memory json_loads uid (Some text)
        = (Raises FlatFile.RecursionError, Some text)
        /\ FlatText.V2.view json_loads (Some text) = FlatFile.TooDeep
        /\ forall llm chat_input ss,
             Chatbot.main_flat llm uid chat_input ss FlatFile.TooDeep
             = (Raises FlatFile.RecursionError, (ss, FlatFile.TooDeep))).
Proof.
  intros json_loads uid text. split.
  - intros Hbad. unfold FlatText.V2.load_long_term_memory. cbv zeta.
    destruct (PyStr.strip text) as [|c content]; [reflexivity|].
    destruct Hbad as [-> | ->]; reflexivity.
  - intros Hcontent Hdeep.
    unfold FlatText.V2.load_long_term_memory, FlatText.V2.view. cbv zeta.
    destruct (PyStr.strip text) as [|c content]; [congruence|].
    rewrite Hdeep. repeat split.
Qed.

Lemma C4_deep_nesting_witness :
  FlatText.V2.load_long_term_memory Scenario.loads_bounded "user123"
    (Some Scenario.deep_text)
  = (Raises FlatFile.RecursionError, Some Scenario.deep_text).
Proof.
  apply (proj2 (C4_deep_nesting_escapes_the_handler Scenario.loads_bounded "user123"
                  Scenario.deep_text)).
  - vm_compute. discriminate.
  - vm_compute. reflexivity.
Defined.

(** Saving the same memory twice leaves the file as after the first save. *)
Lemma flat_save_twice (uid : string) (m : LongTermMemory) (f : FlatFile.file) :
  snd (FlatFile.V2.save_long_term_memory uid m
         (snd (FlatFile.V2.save_long_term_memory uid m f)))
  = snd (FlatFile.V2.save_long_term_memory uid m f).
Proof.
  destruct f; cbn [FlatFile.V2.save_long_term_memory snd];
    try reflexivity; rewrite insert_insert_eq; reflexivity.
Qed.

(** C10.  On both flat-file variants, saving the memory of user [u] leaves
    what [load_long_term_memory] returns for any other user [v] as it was:
    the document is rewritten with only the entry of [u] replaced. *)
Theorem C10_save_leaves_other_users :
  forall (u v : string) (m : LongTermMemory) (f : FlatFile.file),
    u <> v ->
    fst (FlatFile.V2.load_long_term_memory v
           (snd (FlatFile.V2.save_long_term_memory u m f)))
    = fst (FlatFile.V2.load_long_term_memory v f)
    /\ fst (FlatFile.V1.load_long_term_memory v
              (snd (FlatFile.V1.save_long_term_memory u m f)))
       = fst (FlatFile.V1.load_long_term_memory v f).
Proof.
  intros u v m f Huv.
  assert (Hins : forall data : gmap string LongTermMemory,
             FlatFile.get_or_empty v (<[u := m]> data) = FlatFile.get_or_empty v data).
  { intros data. unfold FlatFile.get_or_empty.
    rewrite lookup_insert_ne by exact Huv. reflexivity. }
  destruct f; cbn; rewrite ?Hins; auto.
Qed.

Lemma C10_save_leaves_other_users_witness :
  fst (FlatFile.V2.load_long_term_memory "bob"
         (snd (FlatFile.V2.save_long_term_memory "alice" Scenario.alice_memory
                 Scenario.two_users)))
  = Returns Scenario.bob_memory.
Proof.
  rewrite (proj1 (C10_save_leaves_other_users "alice" "bob" Scenario.alice_memory
                    Scenario.two_users ltac:(discriminate))).
  vm_compute. reflexivity.
Defined.

(** ** The SQLite backend: history rows *)

Lemma select_exists_history (uid v : string) (st : Sqlite.state) :
  Sqlite.select_exists uid "history" v st = true
  <-> In v (Sqlite.history_values uid st).
Proof.
  unfold Sqlite.select_exists, Sqlite.history_values.
  rewrite existsb_exists, in_map_iff. split.
  - intros (r & Hin & Hr).
    apply andb_true_iff in Hr as [Hr Hv]. apply String.eqb_eq in Hv.
    exists r. split; [exact Hv|]. apply filter_In. split; assumption.
  - intros (r & Hv & Hin). apply filter_In in Hin as [Hin Hr].
    exists r. split; [exact Hin|]. rewrite Hr. apply String.eqb_eq. exact Hv.
Qed.

Lemma history_values_insert_user (uid u : string) (st : Sqlite.state) :
  Sqlite.history_values uid (Sqlite.insert_or_ignore_user u st)
  = Sqlite.history_values uid st.
Proof. reflexivity. Qed.

Lemma history_values_insert (uid u dt k v : string) (st : Sqlite.state) :
  Sqlite.history_values uid (Sqlite.insert_memory u dt k v st)
  = Sqlite.history_values uid st
    ++ (if String.eqb u uid && String.eqb dt "history" then [v] else []).
Proof.
  unfold Sqlite.history_values, Sqlite.insert_memory. cbn [Sqlite.Memory].
  rewrite List.filter_app, List.map_app. cbn [List.filter Sqlite.row_user Sqlite.data_type].
  destruct (String.eqb u uid && String.eqb dt "history"); reflexivity.
Qed.

Lemma history_values_save_preferences (uid u : string) (items : PyDict.dict) :
  forall st,
    Sqlite.history_values uid (Sqlite.save_preferences u items st)
    = Sqlite.history_values uid st.
Proof.
  induction items as [|[k v] items IH]; intros st; cbn [Sqlite.save_preferences].
  - reflexivity.
  - rewrite IH, history_values_insert.
    rewrite andb_false_r. apply app_nil_r.
Qed.

Section SqliteHistory.
Variable json_dumps : InteractionRecord -> string.
Variable json_loads : string -> option InteractionRecord.

(** What the history loop adds: values that were not stored and are
    pairwise different, each the serialization of one of the entries; and
    afterwards every entry's serialization is stored. *)
Lemma save_history_adds (uid : string) (n : nat) (entries : list InteractionRecord) :
  forall st,
  exists added,
    Sqlite.history_values uid (Sqlite.save_history json_dumps uid n entries st)
    = Sqlite.history_values uid st ++ added
    /\ NoDup added
    /\ (forall v, In v added ->
          ~ In v (Sqlite.history_values uid st)
          /\ exists e, In e entries /\ json_dumps e = v)
    /\ (forall e, In e entries ->
          In (json_dumps e) (Sqlite.history_values uid st ++ added)).
Proof.
  induction entries as [|e entries IH]; intros st; cbn [Sqlite.save_history].
  - exists []. rewrite app_nil_r.
    split; [reflexivity|]. split; [constructor|]. split; intros ? [].
  - destruct (Sqlite.select_exists uid "history" (json_dumps e) st) eqn:Hex.
    + apply select_exists_history in Hex.
      destruct (IH st) as (added & Heq & Hnd & Hnew & Hall).
      exists added. split; [exact Heq|]. split; [exact Hnd|]. split.
      * intros v Hin. destruct (Hnew v Hin) as (Hout & e' & He' & Hv).
        split; [exact Hout|]. exists e'. split; [right|]; assumption.
      * intros e' [<-|He']; [apply in_or_app; left; exact Hex|apply Hall; exact He'].
    + assert (Hnot : ~ In (json_dumps e) (Sqlite.history_values uid st)).
      { intros Hin. apply select_exists_history in Hin. congruence. }
      set (st' := Sqlite.insert_memory uid "history"
                    ("interaction_" +:+ PyStr.of_nat n) (json_dumps e) st).
      assert (Hst' : Sqlite.history_values uid st'
                     = Sqlite.history_values uid st ++ [json_dumps e]).
      { unfold st'. rewrite history_values_insert, String.eqb_refl. reflexivity. }
      destruct (IH st') as (added & Heq & Hnd & Hnew & Hall).
      exists (json_dumps e :: added). rewrite Heq, Hst', <- app_assoc.
      split; [reflexivity|]. split; [|split].
      * constructor; [|exact Hnd]. intros Hin. apply list_elem_of_In in Hin.
        destruct (Hnew _ Hin) as [Hout _]. apply Hout. rewrite Hst'.
        apply in_or_app. right. left. reflexivity.
      * intros v [<-|Hin].
        -- split; [exact Hnot|]. exists e. split; [left|]; reflexivity.
        -- destruct (Hnew _ Hin) as (Hout & e' & He' & Hv). split.
           ++ intros Hold. apply Hout. rewrite Hst'. apply in_or_app. left. exact Hold.
           ++ exists e'. split; [right|]; assumption.
      * intros e' [<-|He'].
        -- apply in_or_app. right. left. reflexivity.
        -- specialize (Hall e' He'). rewrite Hst', <- app_assoc in Hall. exact Hall.
Qed.

(** When every entry is already stored the history loop writes nothing. *)
Lemma save_history_all_stored (uid : string) (n : nat) (entries : list InteractionRecord) :
  forall st,
    (forall e, In e entries -> In (json_dumps e) (Sqlite.history_values uid st)) ->
    Sqlite.save_history json_dumps uid n entries st = st.
Proof.
  induction entries as [|e entries IH]; intros st Hall; cbn [Sqlite.save_history].
  - reflexivity.
  - assert (Hex : Sqlite.select_exists uid "history" (json_dumps e) st = true).
    { apply select_exists_history. apply Hall. left. reflexivity. }
    rewrite Hex. apply IH. intros e' He'. apply Hall. right. exact He'.
Qed.

(** What one call of [save_long_term_memory] does to the stored history. *)
Lemma save_adds (uid : string) (m : LongTermMemory) (st : Sqlite.state) :
  exists added,
    Sqlite.history_values uid (Sqlite.save_long_term_memory json_dumps uid m st)
    = Sqlite.history_values uid st ++ added
    /\ NoDup added
    /\ (forall v, In v added ->
          ~ In v (Sqlite.history_values uid st)
          /\ exists e, In e (history m) /\ json_dumps e = v)
    /\ (forall e, In e (history m) ->
          In (json_dumps e) (Sqlite.history_values uid st ++ added)).
Proof.
  unfold Sqlite.save_long_term_memory.
  destruct (save_history_adds uid (length (history m)) (history m)
              (Sqlite.save_preferences uid (preferences m)
                 (Sqlite.insert_or_ignore_user uid st)))
    as (added & Heq & Hrest).
  rewrite history_values_save_preferences, history_values_insert_user in Heq, Hrest.
  exists added. split; assumption.
Qed.

(** The history that [load_long_term_memory] returns is read off the
    stored history values, in row order, undecodable ones skipped. *)
Lemma collect_history (rows : list Sqlite.memory_row) :
  forall prefs hist,
    history (Sqlite.collect json_loads rows prefs hist)
    = hist ++ omap json_loads
               (map Sqlite.value
                    (List.filter (fun r => String.eqb (Sqlite.data_type r) "history") rows)).
Proof.
  induction rows as [|row rows IH]; intros prefs hist; cbn [Sqlite.collect List.filter].
  - cbn. rewrite app_nil_r. reflexivity.
  - destruct (String.eqb (Sqlite.data_type row) "preference") eqn:Hp.
    + apply String.eqb_eq in Hp. rewrite Hp. cbn. apply IH.
    + destruct (String.eqb (Sqlite.data_type row) "history") eqn:Hh.
      * destruct (json_loads (Sqlite.value row)) as [entry|] eqn:Hl;
          rewrite IH; simpl; rewrite Hl; [rewrite <- app_assoc|]; reflexivity.
      * apply IH.
Qed.

Lemma filter_filter {A} (f g : A -> bool) (l : list A) :
  List.filter g (List.filter f l) = List.filter (fun x => f x && g x) l.
Proof.
  induction l as [|x l IH]; cbn; [reflexivity|].
  destruct (f x); cbn; [destruct (g x)|]; rewrite ?IH; reflexivity.
Qed.

Lemma load_history (uid : string) (st : Sqlite.state) :
  history (fst (Sqlite.load_long_term_memory json_loads uid st))
  = omap json_loads (Sqlite.history_values uid st).
Proof.
  unfold Sqlite.load_long_term_memory. cbn [fst].
  rewrite collect_history. cbn [app]. unfold Sqlite.select_memory.
  rewrite filter_filter. reflexivity.
Qed.

End SqliteHistory.

(** C3.  On the SQLite backend, calling [save_long_term_memory] a second
    time with the same user and the same memory stores no further history
    row: the history a reload returns is the same, entry for entry, as
    after the first call, and so is its length.  A call only ever adds
    serialized entries that were not stored for the user before, each once:
    a stored entry is recognised by equality of its whole serialized
    content. *)
Theorem C3_repeated_save_adds_no_history :
  forall (json_dumps : InteractionRecord -> string)
         (json_loads : string -> option InteractionRecord)
         (uid : string) (m : LongTermMemory) (st : Sqlite.state),
    let st1 := Sqlite.save_long_term_memory json_dumps uid m st in
    let st2 := Sqlite.save_long_term_memory json_dumps uid m st1 in
    Sqlite.history_values uid st2 = Sqlite.history_values uid st1
    /\ history (fst (Sqlite.load_long_term_memory json_loads uid st2))
       = history (fst (Sqlite.load_long_term_memory json_loads uid st1))
    /\ length (history (fst (Sqlite.load_long_term_memory json_loads uid st2)))
       = length (history (fst (Sqlite.load_long_term_memory json_loads uid st1)))
    /\ exists added,
         Sqlite.history_values uid st1 = Sqlite.history_values uid st ++ added
         /\ NoDup added
         /\ forall v, In v added ->
              ~ In v (Sqlite.history_values uid st)
              /\ exists e, In e (history m) /\ json_dumps e = v.
Proof.
  intros json_dumps json_loads uid m st st1 st2.
  destruct (save_adds json_dumps uid m st) as (added & Heq & Hnd & Hnew & Hall).
  fold st1 in Heq.
  assert (Hsame : Sqlite.history_values uid st2 = Sqlite.history_values uid st1).
  { unfold st2, Sqlite.save_long_term_memory.
    rewrite save_history_all_stored.
    - rewrite history_values_save_preferences, history_values_insert_user. reflexivity.
    - intros e He.
      rewrite history_values_save_preferences, history_values_insert_user, Heq.
      apply Hall. exact He. }
  split; [exact Hsame|].
  rewrite !load_history, Hsame.
  split; [reflexivity|]. split; [reflexivity|].
  exists added. split; [exact Heq|]. split; assumption.
Qed.

(** ** The SQLite backend: preference rows *)

Lemma dict_get_set (k k' v : string) (d : PyDict.dict) :
  PyDict.get k (PyDict.set k' v d)
  = if String.eqb k' k then Some v else PyDict.get k d.
Proof.
  induction d as [|[k0 v0] d IH]; cbn [PyDict.set PyDict.get].
  - reflexivity.
  - destruct (String.eqb k0 k') eqn:E0; cbn [PyDict.get].
    + apply String.eqb_eq in E0. subst k0.
      destruct (String.eqb k' k); reflexivity.
    + rewrite IH. destruct (String.eqb k0 k) eqn:E1; [|reflexivity].
      apply String.eqb_eq in E1. subst k0. rewrite String.eqb_sym, E0. reflexivity.
Qed.

Lemma dict_get_app (k : string) (d1 d2 : PyDict.dict) :
  PyDict.get k (d1 ++ d2)
  = match PyDict.get k d1 with Some v => Some v | None => PyDict.get k d2 end.
Proof.
  induction d1 as [|[k0 v0] d1 IH]; cbn [app PyDict.get]; [reflexivity|].
  destruct (String.eqb k0 k); [reflexivity|exact IH].
Qed.

Lemma dict_get_none (k : string) (d : PyDict.dict) :
  ~ In k (PyDict.keys d) -> PyDict.get k d = None.
Proof.
  induction d as [|[k0 v0] d IH]; cbn; intros Hk; [reflexivity|].
  destruct (String.eqb k0 k) eqn:E.
  - apply String.eqb_eq in E. tauto.
  - apply IH. tauto.
Qed.

(** In a dict, whose keys are all different, looking a key up from the end
    finds what looking it up from the start finds. *)
Lemma dict_get_rev (k : string) (d : PyDict.dict) :
  NoDup (PyDict.keys d) -> PyDict.get k (rev d) = PyDict.get k d.
Proof.
  induction d as [|[k0 v0] d IH]; intros Hnd; [reflexivity|].
  cbn [PyDict.keys map fst] in Hnd. apply NoDup_cons in Hnd as [Hk0 Hnd].
  cbn [rev PyDict.get]. rewrite dict_get_app, (IH Hnd). cbn [PyDict.get].
  destruct (String.eqb k0 k) eqn:E.
  - apply String.eqb_eq in E. subst k0.
    rewrite dict_get_none; [reflexivity|].
    intros Hin. apply Hk0. apply list_elem_of_In. exact Hin.
  - destruct (PyDict.get k d); reflexivity.
Qed.

(** Assigning a sequence of items one after the other: the last item with
    the key decides, and a key with no item keeps its value. *)
Lemma dict_get_update (k : string) (items : PyDict.dict) :
  forall d,
    PyDict.get k (PyDict.update d items)
    = match PyDict.get k (rev items) with
      | Some v => Some v
      | None => PyDict.get k d
      end.
Proof.
  unfold PyDict.update.
  induction items as [|[k0 v0] items IH]; intros d; cbn [fold_left rev].
  - reflexivity.
  - rewrite IH, dict_get_app, dict_get_set. cbn [fst snd PyDict.get].
    destruct (PyDict.get k (rev items)); [reflexivity|].
    destruct (String.eqb k0 k); reflexivity.
Qed.

Lemma dict_keys_set (k v : string) (d : PyDict.dict) :
  PyDict.keys (PyDict.set k v d)
  = if existsb (fun k' => String.eqb k' k) (PyDict.keys d)
    then PyDict.keys d else PyDict.keys d ++ [k].
Proof.
  induction d as [|[k0 v0] d IH]; cbn [PyDict.set PyDict.keys map fst existsb].
  - reflexivity.
  - destruct (String.eqb k0 k) eqn:E; cbn [map fst orb].
    + apply String.eqb_eq in E. subst k0. reflexivity.
    + fold (PyDict.keys (PyDict.set k v d)). fold (PyDict.keys d). rewrite IH.
      destruct (existsb (fun k' => String.eqb k' k) (PyDict.keys d)); reflexivity.
Qed.

(** Assignment keeps the keys of a dict different from each other. *)
Lemma dict_set_nodup (k v : string) (d : PyDict.dict) :
  NoDup (PyDict.keys d) -> NoDup (PyDict.keys (PyDict.set k v d)).
Proof.
  intros Hnd. rewrite dict_keys_set.
  destruct (existsb (fun k' => String.eqb k' k) (PyDict.keys d)) eqn:E; [exact Hnd|].
  apply NoDup_app. split; [exact Hnd|]. split.
  - intros x Hx Hx'. apply list_elem_of_In in Hx, Hx'. destruct Hx' as [<-|[]].
    assert (existsb (fun k' => String.eqb k' k) (PyDict.keys d) = true); [|congruence].
    apply existsb_exists. exists k. split; [exact Hx|apply String.eqb_refl].
  - apply NoDup_singleton.
Qed.

Lemma dict_update_nodup (items : PyDict.dict) :
  forall d, NoDup (PyDict.keys d) -> NoDup (PyDict.keys (PyDict.update d items)).
Proof.
  unfold PyDict.update.
  induction items as [|[k v] items IH]; intros d Hnd; cbn [fold_left]; [exact Hnd|].
  apply IH. apply dict_set_nodup. exact Hnd.
Qed.

Lemma preference_items_insert_user (uid u : string) (st : Sqlite.state) :
  Sqlite.preference_items uid (Sqlite.insert_or_ignore_user u st)
  = Sqlite.preference_items uid st.
Proof. reflexivity. Qed.

Lemma preference_items_insert (uid u dt k v : string) (st : Sqlite.state) :
  Sqlite.preference_items uid (Sqlite.insert_memory u dt k v st)
  = Sqlite.preference_items uid st
    ++ (if String.eqb u uid && String.eqb dt "preference" then [(k, v)] else []).
Proof.
  unfold Sqlite.preference_items, Sqlite.insert_memory. cbn [Sqlite.Memory].
  rewrite List.filter_app, List.map_app.
  cbn [List.filter Sqlite.row_user Sqlite.data_type].
  destruct (String.eqb u uid && String.eqb dt "preference"); reflexivity.
Qed.

Lemma preference_items_save_preferences (uid : string) (items : PyDict.dict) :
  forall st,
    Sqlite.preference_items uid (Sqlite.save_preferences uid items st)
    = Sqlite.preference_items uid st ++ items.
Proof.
  induction items as [|[k v] items IH]; intros st; cbn [Sqlite.save_preferences].
  - rewrite app_nil_r. reflexivity.
  - rewrite IH, preference_items_insert, !String.eqb_refl, <- app_assoc. reflexivity.
Qed.

Section SqlitePreferences.
Variable json_dumps : InteractionRecord -> string.
Variable json_loads : string -> option InteractionRecord.

Lemma preference_items_save_history (uid : string) (n : nat)
      (entries : list InteractionRecord) :
  forall st,
    Sqlite.preference_items uid (Sqlite.save_history json_dumps uid n entries st)
    = Sqlite.preference_items uid st.
Proof.
  induction entries as [|e entries IH]; intros st; cbn [Sqlite.save_history].
  - reflexivity.
  - destruct (Sqlite.select_exists uid "history" (json_dumps e) st); rewrite IH.
    + reflexivity.
    + rewrite preference_items_insert, andb_false_r. apply app_nil_r.
Qed.

(** A save appends the items of the memory's dict to the user's
    preference rows. *)
Lemma preference_items_save (uid : string) (m : LongTermMemory) (st : Sqlite.state) :
  Sqlite.preference_items uid (Sqlite.save_long_term_memory json_dumps uid m st)
  = Sqlite.preference_items uid st ++ preferences m.
Proof.
  unfold Sqlite.save_long_term_memory.
  rewrite preference_items_save_history, preference_items_save_preferences,
    preference_items_insert_user.
  reflexivity.
Qed.

Lemma collect_preferences (rows : list Sqlite.memory_row) :
  forall prefs hist,
    preferences (Sqlite.collect json_loads rows prefs hist)
    = PyDict.update prefs
        (map (fun r => (Sqlite.key r, Sqlite.value r))
             (List.filter (fun r => String.eqb (Sqlite.data_type r) "preference") rows)).
Proof.
  unfold PyDict.update.
  induction rows as [|row rows IH]; intros prefs hist; cbn [Sqlite.collect List.filter].
  - reflexivity.
  - destruct (String.eqb (Sqlite.data_type row) "preference") eqn:Hp.
    + cbn [map fold_left fst snd]. apply IH.
    + destruct (String.eqb (Sqlite.data_type row) "history");
        [destruct (json_loads (Sqlite.value row))|]; apply IH.
Qed.

(** The dict a load returns: the user's preference rows assigned in row
    order to an empty dict. *)
Lemma load_preferences (uid : string) (st : Sqlite.state) :
  preferences (fst (Sqlite.load_long_term_memory json_loads uid st))
  = PyDict.update [] (Sqlite.preference_items uid st).
Proof.
  unfold Sqlite.load_long_term_memory. cbn [fst].
  rewrite collect_preferences. unfold Sqlite.select_memory, Sqlite.preference_items.
  rewrite filter_filter. reflexivity.
Qed.

(** Reloading after two saves: for a key of the second memory, its value
    there is what the reload returns. *)
Lemma reload_last_write (uid k v : string) (m1 m2 : LongTermMemory) (st : Sqlite.state) :
  NoDup (PyDict.keys (preferences m2)) ->
  PyDict.get k (preferences m2) = Some v ->
  PyDict.get k
    (preferences
       (fst (Sqlite.load_long_term_memory json_loads uid
               (Sqlite.save_long_term_memory json_dumps uid m2
                  (Sqlite.save_long_term_memory json_dumps uid m1 st)))))
  = Some v.
Proof.
  intros Hnd Hget.
  rewrite load_preferences, !preference_items_save, dict_get_update.
  rewrite rev_app_distr, dict_get_app, (dict_get_rev k _ Hnd), Hget. reflexivity.
Qed.

End SqlitePreferences.

(** C7.  On the SQLite backend, saving a memory whose preferences are
    [{location: Paris}] and then one whose preferences are
    [{location: Rome}] for the same user makes a reload return
    [location = Rome], whatever was stored before and whatever the two
    histories are.  In general the value a key has in the memory saved last
    is the value the reload returns for it, and the keys of a reloaded
    preference dict are all different. *)
Theorem C7_preference_last_write_wins :
  forall (json_dumps : InteractionRecord -> string)
         (json_loads : string -> option InteractionRecord)
         (uid : string) (st : Sqlite.state),
    (forall h1 h2,
        PyDict.get "location"
          (preferences
             (fst (Sqlite.load_long_term_memory json_loads uid
                     (Sqlite.save_long_term_memory json_dumps uid
                        (LTM [("location", "Rome")] h2)
                        (Sqlite.save_long_term_memory json_dumps uid
                           (LTM [("location", "Paris")] h1) st)))))
        = Some "Rome")
    /\ (forall m1 m2 k v,
          NoDup (PyDict.keys (preferences m2)) ->
          PyDict.get k (preferences m2) = Some v ->
          PyDict.get k
            (preferences
               (fst (Sqlite.load_long_term_memory json_loads uid
                       (Sqlite.save_long_term_memory json_dumps uid m2
                          (Sqlite.save_long_term_memory json_dumps uid m1 st)))))
          = Some v)
    /\ NoDup (PyDict.keys
                (preferences (fst (Sqlite.load_long_term_memory json_loads uid st)))).
Proof.
  intros json_dumps json_loads uid st. split; [|split].
  - intros h1 h2. apply reload_last_write.
    + cbn. apply NoDup_singleton.
    + reflexivity.
  - intros m1 m2 k v. apply reload_last_write.
  - rewrite load_preferences. apply dict_update_nodup. constructor.
Qed.

(** ** The context composer *)

Lemma skipn_length_app {A} (l k : list A) : skipn (length l) (l ++ k) = k.
Proof. induction l as [|x l IH]; [reflexivity|exact IH]. Qed.

Lemma last3_app {A} (older : list A) (r1 r2 r3 : A) :
  Chatbot.last3 (older ++ [r1; r2; r3]) = [r1; r2; r3].
Proof.
  unfold Chatbot.last3. rewrite List.length_app. cbn [length].
  replace (length older + 3 - 3) with (length older) by lia.
  apply skipn_length_app.
Qed.

(** With at least three entries the history is rendered from its last
    three entries alone. *)
Lemma hist_str_last3 (older : list InteractionRecord) (r1 r2 r3 : InteractionRecord) :
  Chatbot.hist_str (older ++ [r1; r2; r3])
  = nl +:+ "- " +:+ Chatbot.render_interaction r1
    +:+ (nl +:+ "- ") +:+ Chatbot.render_interaction r2
    +:+ (nl +:+ "- ") +:+ Chatbot.render_interaction r3.
Proof.
  unfold Chatbot.hist_str.
  destruct (older ++ [r1; r2; r3]) as [|x rest] eqn:E.
  - destruct older; discriminate E.
  - rewrite <- E, last3_app. reflexivity.
Qed.

(** A run of [main] without chat input only reads the file. *)
Lemma main_flat_idle (llm : nat -> string -> outcome string) (uid : string)
      (ss : Chatbot.session) (f : FlatFile.file) :
  snd (Chatbot.main_flat llm uid None ss f) = (ss, f).
Proof.
  unfold Chatbot.main_flat, Chatbot.main.
  destruct f; reflexivity.
Qed.

(** A run of [main] with a chat input, over a document. *)
Lemma main_flat_turn (llm : nat -> string -> outcome string) (uid prompt : string)
      (ss : Chatbot.session) (data : gmap string LongTermMemory) :
  Chatbot.main_flat llm uid (Some prompt) ss (FlatFile.Document data)
  = let m := FlatFile.get_or_empty uid data in
    match llm (Chatbot.llm_calls ss)
              (Chatbot.prompt_text (Chatbot.long_term_context_str m)
                                   (Chatbot.buffer (Chatbot.ss_memory ss)) prompt) with
    | Returns response =>
        (Returns tt,
         (Chatbot.Session
            (Chatbot.ss_memory ss ++ [(prompt, response)])
            ((Chatbot.ss_messages ss ++ [Chatbot.ChatEntry "user" prompt])
               ++ [Chatbot.ChatEntry "assistant" response])
            (S (Chatbot.llm_calls ss)),
          FlatFile.Document (<[uid := Chatbot.consolidate prompt response m]> data)))
    | Raises e =>
        (Raises e,
         (Chatbot.Session (Chatbot.ss_memory ss)
                          (Chatbot.ss_messages ss ++ [Chatbot.ChatEntry "user" prompt])
                          (S (Chatbot.llm_calls ss)),
          FlatFile.Document data))
    end.
Proof.
  unfold Chatbot.main_flat, Chatbot.main.
  cbn [FlatFile.V2.load_long_term_memory FlatFile.V2.save_long_term_memory
       Chatbot.ss_memory Chatbot.ss_messages Chatbot.llm_calls].
  destruct (llm _ _); reflexivity.
Qed.

Lemma consolidate_history (prompt response : string) (m : LongTermMemory) :
  history (Chatbot.consolidate prompt response m)
  = history m ++ [Interaction prompt response].
Proof. reflexivity. Qed.

(** The third variant never removes a stored history row, whatever the
    run does. *)
Lemma main_sqlite_keeps_history (json_dumps : InteractionRecord -> string)
      (json_loads : string -> option InteractionRecord)
      (llm : nat -> string -> outcome string) (uid : string)
      (chat_input : option string) (ss : Chatbot.session) (st : Sqlite.state) :
  exists added,
    Sqlite.history_values uid
      (snd (snd (Chatbot.main_sqlite json_dumps json_loads llm uid chat_input ss st)))
    = Sqlite.history_values uid st ++ added.
Proof.
  unfold Chatbot.main_sqlite, Chatbot.main, Chatbot.sqlite_load, Chatbot.sqlite_save,
    Sqlite.load_long_term_memory.
  destruct chat_input as [prompt|]; [|exists []; rewrite app_nil_r; reflexivity].
  destruct (llm _ _) as [response|e]; [|exists []; rewrite app_nil_r; reflexivity].
  cbn [snd].
  destruct (save_adds json_dumps uid
              (Chatbot.consolidate prompt response
                 (Sqlite.collect json_loads
                    (Sqlite.select_memory uid (Sqlite.insert_or_ignore_user uid st)) [] []))
              (Sqlite.insert_or_ignore_user uid st)) as (added & Heq & _).
  exists added. exact Heq.
Qed.

(** C9.  The composed context renders the preferences as the text
    [None available] when the preference dict is empty.  Of a history with
    more than three entries it renders the last three, each as the line
    [- User: <input> | Assistant: <response>], oldest first, and nothing
    else: the text is the same as for those three entries alone.  A history
    of four entries and no preference gives the text written out below.
    The older entries stay in storage: a run that only composes leaves the
    file as it is, after a turn the reloaded history is the whole old
    history followed by the new entry, and over the tables a run only ever
    adds history rows. *)
Theorem C9_context_window_of_three :
  (forall hist,
      Chatbot.pref_str [] = "None available"
      /\ Chatbot.long_term_context_str (LTM [] hist)
         = "Stored Preferences:" +:+ nl +:+ "None available" +:+ nl +:+ nl
           +:+ "Recent Past Interactions:" +:+ nl +:+ Chatbot.hist_str hist)
  /\ (forall prefs older r1 r2 r3,
        Chatbot.hist_str (older ++ [r1; r2; r3])
        = nl +:+ "- " +:+ "User: " +:+ user_input r1
             +:+ " | Assistant: " +:+ assistant_response r1
          +:+ nl +:+ "- " +:+ "User: " +:+ user_input r2
             +:+ " | Assistant: " +:+ assistant_response r2
          +:+ nl +:+ "- " +:+ "User: " +:+ user_input r3
             +:+ " | Assistant: " +:+ assistant_response r3
        /\ Chatbot.long_term_context_str (LTM prefs (older ++ [r1; r2; r3]))
           = Chatbot.long_term_context_str (LTM prefs [r1; r2; r3]))
  /\ Chatbot.long_term_context_str
       (LTM [] [Interaction "hello" "Hi! Where to?";
                Interaction "Rome" "When?";
                Interaction "In May" "How many nights?";
                Interaction "Three" "Which budget?"])
     = String.concat (String (ascii_of_nat 10) EmptyString)
         [ "Stored Preferences:";
           "None available";
           "";
           "Recent Past Interactions:";
           "";
           "- User: Rome | Assistant: When?";
           "- User: In May | Assistant: How many nights?";
           "- User: Three | Assistant: Which budget?" ]
  /\ (forall llm uid ss f,
        snd (Chatbot.main_flat llm uid None ss f) = (ss, f))
  /\ (forall llm uid prompt ss data prefs older r1 r2 r3,
        let stored := LTM prefs (older ++ [r1; r2; r3]) in
        let f := FlatFile.Document (<[uid := stored]> data) in
        match Chatbot.main_flat llm uid (Some prompt) ss f with
        | (Returns _, (_, f')) =>
            exists response,
              fst (FlatFile.V2.load_long_term_memory uid f')
              = Returns (Chatbot.consolidate prompt response stored)
              /\ history (Chatbot.consolidate prompt response stored)
                 = older ++ [r1; r2; r3] ++ [Interaction prompt response]
        | (Raises _, (_, f')) => f' = f
        end)
  /\ (forall json_dumps json_loads llm uid chat_input ss st,
        exists added,
          Sqlite.history_values uid
            (snd (snd (Chatbot.main_sqlite json_dumps json_loads llm uid chat_input ss st)))
          = Sqlite.history_values uid st ++ added).
Proof.
  split; [|split; [|split; [|split; [|split]]]];
    [| | | | |intros; apply main_sqlite_keeps_history].
  - intros hist. split; reflexivity.
  - intros prefs older r1 r2 r3. split.
    + rewrite hist_str_last3. unfold Chatbot.render_interaction.
      rewrite !string_app_assoc. reflexivity.
    + unfold Chatbot.long_term_context_str. cbn [preferences history].
      pose proof (hist_str_last3 [] r1 r2 r3) as Hthree. cbn [app] in Hthree.
      rewrite hist_str_last3, Hthree. reflexivity.
  - vm_compute. reflexivity.
  - intros llm uid ss f. apply main_flat_idle.
  - intros llm uid prompt ss data prefs older r1 r2 r3 stored f.
    unfold f. rewrite main_flat_turn. cbv zeta.
    unfold FlatFile.get_or_empty at 1 2. rewrite lookup_insert_eq.
    destruct (llm _ _) as [response|e]; [|reflexivity].
    exists response. split.
    + cbn [FlatFile.V2.load_long_term_memory fst]. unfold FlatFile.get_or_empty.
      rewrite lookup_insert_eq. reflexivity.
    + rewrite consolidate_history. unfold stored. cbn [history].
      rewrite <- app_assoc. reflexivity.
Qed.

(** ** app.py: a turn whose reply generation fails *)

Section AppFacts.
Variable chat_model : nat -> string -> list App.message -> string -> outcome string.
Variable summary_model : nat -> string -> outcome string.

(** The store once the session's history exists. *)
Local Abbreviation ensured sid s := (snd (App.get_session_history sid s)).
Local Abbreviation history_of sid s := (fst (App.get_session_history sid s)).

Lemma get_session_history_ensured (sid : string) (s : gmap string (list App.message)) :
  App.get_session_history sid (ensured sid s) = (history_of sid s, ensured sid s).
Proof.
  unfold App.get_session_history.
  destruct (s !! sid) as [h|] eqn:E; cbn [fst snd].
  - rewrite E. reflexivity.
  - rewrite lookup_insert_eq. reflexivity.
Qed.

Lemma ensured_lookup (sid : string) (s : gmap string (list App.message)) :
  ensured sid s !! sid = Some (history_of sid s).
Proof.
  unfold App.get_session_history.
  destruct (s !! sid) as [h|] eqn:E; cbn [fst snd].
  - exact E.
  - apply lookup_insert_eq.
Qed.

Lemma ensured_lookup_other (sid sid' : string) (s : gmap string (list App.message)) :
  sid <> sid' -> ensured sid s !! sid' = s !! sid'.
Proof.
  intros Hne. unfold App.get_session_history.
  destruct (s !! sid) as [h|] eqn:E; cbn [snd].
  - reflexivity.
  - apply lookup_insert_ne. exact Hne.
Qed.

(** A failing call of the chain creates the session history if need be,
    counts the call, and appends nothing. *)
Lemma chain_invoke_raises (sid input prefs : string) (w : App.world) (e : exn) :
  chat_model (App.chat_calls w) prefs (history_of sid (App.store w)) input = Raises e ->
  App.chain_invoke chat_model sid input prefs w
  = (Raises e, App.count_chat_call (App.set_store (ensured sid (App.store w)) w)).
Proof.
  intros H. unfold App.chain_invoke.
  destruct (App.get_session_history sid (App.store w)) as [hist s1] eqn:E.
  cbn [fst snd] in *. rewrite H. reflexivity.
Qed.

(** The retry loop over the chain when attempt [k] is the first that is
    not a transient failure and is a failure: it is re-raised at once. *)
Lemma app_retry_raises (sid input prefs : string) (e : exn) (n k : nat) :
  forall (a0 : nat) (w : App.world),
    k < n ->
    (forall j, j < k ->
       Gateway.transient
         (chat_model (App.chat_calls w + j) prefs (history_of sid (App.store w)) input)
       = true) ->
    chat_model (App.chat_calls w + k) prefs (history_of sid (App.store w)) input
    = Raises e ->
    Gateway.is_rate_limit e = false ->
    Gateway.retry_loop (App.chain_invoke chat_model sid input prefs) App.sleep (seq a0 n) w
    = (Raises e,
       App.World (ensured sid (App.store w)) (App.ss_messages w) (App.ss_preferences w)
                 (App.user_profiles w) (App.chat_calls w + S k)
                 (App.slept w ++ map (Nat.pow 2) (seq a0 k)) (App.summary_calls w)).
Proof.
  revert k. induction n as [|n IH]; intros k a0 w Hk Hbefore Hat Hfatal; [lia|].
  cbn [seq Gateway.retry_loop].
  destruct k as [|k].
  - rewrite Nat.add_0_r in Hat. rewrite (chain_invoke_raises _ _ _ _ _ Hat), Hfatal.
    cbn [seq map]. rewrite app_nil_r.
    replace (App.chat_calls w + 1) with (S (App.chat_calls w)) by lia. reflexivity.
  - pose proof (Hbefore 0 ltac:(lia)) as H0. rewrite Nat.add_0_r in H0.
    destruct (chat_model (App.chat_calls w) prefs (history_of sid (App.store w)) input)
      as [r|e0] eqn:E0; [discriminate H0|].
    cbn [Gateway.transient] in H0.
    rewrite (chain_invoke_raises _ _ _ _ _ E0), H0.
    rewrite (IH k (S a0)).
    + cbn [App.sleep App.count_chat_call App.set_store App.store App.ss_messages
           App.ss_preferences App.user_profiles App.chat_calls App.slept
           App.summary_calls].
      rewrite get_session_history_ensured. cbn [snd seq map].
      rewrite <- app_assoc.
      replace (S (App.chat_calls w) + S k) with (App.chat_calls w + S (S k)) by lia.
      reflexivity.
    + lia.
    + intros j Hj.
      cbn [App.sleep App.count_chat_call App.set_store App.store App.chat_calls].
      rewrite get_session_history_ensured. cbn [fst].
      replace (S (App.chat_calls w) + j) with (App.chat_calls w + S j) by lia.
      apply Hbefore. lia.
    + cbn [App.sleep App.count_chat_call App.set_store App.store App.chat_calls].
      rewrite get_session_history_ensured. cbn [fst].
      replace (S (App.chat_calls w) + k) with (App.chat_calls w + S k) by lia.
      exact Hat.
    + exact Hfatal.
Qed.

End AppFacts.

(** C8.  When the chat model's failure at attempt [k] (after [k] transient
    ones) does not carry the transient marker, the turn of app.py raises
    that very exception after exactly [k + 1] calls and without a further
    [sleep].  The displayed messages have gained the user's entry only, the
    session history holds what it held before, the summary model was not
    called, and the profile table and the session's preferences are as they
    were. *)
Theorem C8_fatal_failure_writes_nothing :
  forall (chat_model : nat -> string -> list App.message -> string -> outcome string)
         (summary_model : nat -> string -> outcome string)
         (uid user_name user_input : string) (w : App.world) (k : nat) (e : exn),
    let hist := fst (App.get_session_history uid (App.store w)) in
    k < 3 ->
    (forall j, j < k ->
       Gateway.transient
         (chat_model (App.chat_calls w + j) (App.ss_preferences w) hist user_input)
       = true) ->
    chat_model (App.chat_calls w + k) (App.ss_preferences w) hist user_input = Raises e ->
    Gateway.is_rate_limit e = false ->
    let w' := snd (App.turn chat_model summary_model uid user_name user_input w) in
    fst (App.turn chat_model summary_model uid user_name user_input w) = Raises e
    /\ App.chat_calls w' = App.chat_calls w + S k
    /\ App.slept w' = App.slept w ++ map (Nat.pow 2) (seq 0 k)
    /\ App.ss_messages w' = App.ss_messages w ++ [App.ChatEntry "user" user_input]
    /\ App.store w' !! uid = Some hist
    /\ (forall sid, uid <> sid -> App.store w' !! sid = App.store w !! sid)
    /\ App.summary_calls w' = App.summary_calls w
    /\ App.user_profiles w' = App.user_profiles w
    /\ App.ss_preferences w' = App.ss_preferences w.
Proof.
  intros chat_model summary_model uid user_name user_input w k e hist Hk Hbefore Hat Hfatal.
  unfold App.turn, Gateway.call_llm_with_retry.
  rewrite (app_retry_raises chat_model uid user_input _ e 3 k 0
             (App.push_message (App.ChatEntry "user" user_input) w) Hk);
    [|exact Hbefore|exact Hat|exact Hfatal].
  cbn [fst snd App.push_message App.store App.ss_messages App.ss_preferences
       App.user_profiles App.chat_calls App.slept App.summary_calls].
  repeat split.
  - apply ensured_lookup.
  - intros sid Hne. apply ensured_lookup_other. exact Hne.
Qed.

(** ** app.py: a turn whose reply generation succeeds *)

Section AppSummary.
Variable chat_model : nat -> string -> list App.message -> string -> outcome string.
Variable summary_model : nat -> string -> outcome string.

(** The retry loop writes neither the profile table nor the session's
    preferences, and does not call the summary model. *)
Lemma app_retry_frame (sid input prefs : string) (attempts : list nat) :
  forall w,
    let w' := snd (Gateway.retry_loop (App.chain_invoke chat_model sid input prefs)
                                      App.sleep attempts w) in
    App.user_profiles w' = App.user_profiles w
    /\ App.ss_preferences w' = App.ss_preferences w
    /\ App.summary_calls w' = App.summary_calls w.
Proof.
  induction attempts as [|a attempts IH]; intros w; cbv zeta; cbn [Gateway.retry_loop].
  - repeat split.
  - unfold App.chain_invoke.
    destruct (App.get_session_history sid (App.store w)) as [hist s1].
    destruct (chat_model (App.chat_calls w) prefs hist input) as [r|e].
    + repeat split.
    + destruct (Gateway.is_rate_limit e); [|repeat split].
      fold (App.chain_invoke chat_model sid input prefs).
      destruct (IH (App.sleep (2 ^ a) (App.count_chat_call (App.set_store s1 w))))
        as (H1 & H2 & H3).
      rewrite H1, H2, H3. repeat split.
Qed.

Lemma query_first_update (uid summary : string) (t : list App.UserProfile) (r : App.UserProfile) :
  App.query_first uid t = Some r ->
  App.query_first uid (App.update_first uid summary t)
  = Some (App.Profile (App.id r) (App.user_id r) summary).
Proof.
  unfold App.query_first.
  induction t as [|r0 t IH]; cbn [List.find App.update_first]; [discriminate|].
  destruct (String.eqb (App.user_id r0) uid) eqn:E; intros H.
  - injection H as <-. cbn [List.find App.user_id]. rewrite E. reflexivity.
  - cbn [List.find]. rewrite E. apply IH. exact H.
Qed.

Lemma query_first_append (uid summary : string) (n : nat) (t : list App.UserProfile) :
  App.query_first uid t = None ->
  App.query_first uid (t ++ [App.Profile n uid summary])
  = Some (App.Profile n uid summary).
Proof.
  unfold App.query_first.
  induction t as [|r0 t IH]; cbn [List.find app App.user_id].
  - rewrite String.eqb_refl. reflexivity.
  - destruct (String.eqb (App.user_id r0) uid); [discriminate|exact IH].
Qed.

(** After the upsert the user's row holds the summary. *)
Lemma query_first_upsert (uid summary : string) (t : list App.UserProfile) :
  exists r,
    App.query_first uid (App.upsert uid summary t) = Some r
    /\ App.preferences r = summary.
Proof.
  unfold App.upsert. destruct (App.query_first uid t) as [r|] eqn:E.
  - eexists. split; [apply (query_first_update _ _ _ _ E)|reflexivity].
  - eexists. split; [apply (query_first_append _ _ _ _ E)|reflexivity].
Qed.

Lemma update_first_length (uid summary : string) (t : list App.UserProfile) :
  length (App.update_first uid summary t) = length t.
Proof.
  induction t as [|r0 t IH]; cbn [App.update_first]; [reflexivity|].
  destruct (String.eqb (App.user_id r0) uid); cbn [length]; [reflexivity|].
  rewrite IH. reflexivity.
Qed.

End AppSummary.

(** What line 129 reads: the history of the user in the dict of this
    run, which is created empty; and the fallback over the empty
    conversation, which finds no room phrase and leaves the summary as it
    is. *)
Lemma script_history (uid : string) :
  App.get_session_history uid App.script_store = ([], <[uid := []]> ∅).
Proof.
  unfold App.get_session_history, App.script_store. rewrite lookup_empty. reflexivity.
Qed.

Lemma apply_fallback_script (summary : string) :
  App.apply_fallback (App.render_history []) summary = summary.
Proof. apply apply_fallback_no_match. reflexivity. Qed.

(** The rest of a turn once the retry loop has returned the reply. *)
Lemma turn_after_reply
      (chat_model : nat -> string -> list App.message -> string -> outcome string)
      (summary_model : nat -> string -> outcome string)
      (uid user_name user_input answer : string) (w w2 : App.world) :
  Gateway.retry_loop
    (App.chain_invoke chat_model uid user_input (App.ss_preferences w)) App.sleep (seq 0 3)
    (App.push_message (App.ChatEntry "user" user_input) w)
  = (Returns answer, w2) ->
  App.turn chat_model summary_model uid user_name user_input w
  = let w3 := App.push_message (App.ChatEntry "assistant" answer) w2 in
    match summary_model (App.summary_calls w2)
                        (App.summary_prompt EmptyString user_name) with
    | Raises e => (Raises e, App.count_summary_call w3)
    | Returns text =>
        (Returns tt,
         App.set_preferences text
           (App.set_profiles (App.upsert uid text (App.user_profiles w2))
                             (App.count_summary_call w3)))
    end.
Proof.
  intros Hchat. unfold App.turn, Gateway.call_llm_with_retry.
  cbn [App.push_message App.ss_preferences]. rewrite Hchat.
  rewrite script_history. cbv zeta.
  cbn [App.push_message App.summary_calls App.user_profiles App.count_summary_call].
  change (App.render_history []) with EmptyString.
  destruct (summary_model _ _) as [text|e]; [|reflexivity].
  pose proof (apply_fallback_script text) as Hsame.
  change (App.render_history []) with EmptyString in Hsame.
  rewrite Hsame. reflexivity.
Qed.


(** ** One history entry per turn *)

(** Flat file: a completed turn stores the loaded history followed by the
    new entry. *)
Lemma main_flat_completed (llm : nat -> string -> outcome string) (uid prompt : string)
      (ss ss' : Chatbot.session) (f f' : FlatFile.file) :
  Chatbot.main_flat llm uid (Some prompt) ss f = (Returns tt, (ss', f')) ->
  exists m response,
    fst (FlatFile.V2.load_long_term_memory uid f) = Returns m
    /\ fst (FlatFile.V2.load_long_term_memory uid f')
       = Returns (Chatbot.consolidate prompt response m)
    /\ history (Chatbot.consolidate prompt response m)
       = history m ++ [Interaction prompt response].
Proof.
  unfold Chatbot.main_flat, Chatbot.main.
  destruct f as [| |text| | | |data];
    cbn [FlatFile.V2.load_long_term_memory FlatFile.V2.save_long_term_memory
         Chatbot.ss_memory Chatbot.ss_messages Chatbot.llm_calls];
    try discriminate;
    destruct (llm _ _) as [response|e]; try discriminate;
    intros H; injection H as _ <-;
    eexists _, response; (split; [reflexivity|]);
    (split; [|reflexivity]);
    cbn [FlatFile.V2.load_long_term_memory fst]; unfold FlatFile.get_or_empty at 1;
    rewrite lookup_insert_eq; reflexivity.
Qed.

Section SqliteTurn.
Variable json_dumps : InteractionRecord -> string.
Variable json_loads : string -> option InteractionRecord.

Lemma save_history_app (uid : string) (n : nat) (l1 l2 : list InteractionRecord) :
  forall st,
    Sqlite.save_history json_dumps uid n (l1 ++ l2) st
    = Sqlite.save_history json_dumps uid n l2 (Sqlite.save_history json_dumps uid n l1 st).
Proof.
  induction l1 as [|e l1 IH]; intros st; cbn [app Sqlite.save_history].
  - reflexivity.
  - destruct (Sqlite.select_exists uid "history" (json_dumps e) st); apply IH.
Qed.

Lemma select_exists_same (uid v : string) (a b : Sqlite.state) :
  Sqlite.history_values uid a = Sqlite.history_values uid b ->
  Sqlite.select_exists uid "history" v a = Sqlite.select_exists uid "history" v b.
Proof.
  intros Hsame.
  destruct (Sqlite.select_exists uid "history" v a) eqn:Ea;
    destruct (Sqlite.select_exists uid "history" v b) eqn:Eb; try reflexivity.
  - apply select_exists_history in Ea. rewrite Hsame in Ea.
    apply select_exists_history in Ea. congruence.
  - apply select_exists_history in Eb. rewrite <- Hsame in Eb.
    apply select_exists_history in Eb. congruence.
Qed.

(** Entries loaded from rows the program wrote serialize to those rows. *)
Lemma loaded_entries_stored (uid : string) (st : Sqlite.state) :
  Sqlite.written_by json_dumps json_loads uid st ->
  forall e,
    In e (history (fst (Sqlite.load_long_term_memory json_loads uid st))) ->
    In (json_dumps e) (Sqlite.history_values uid st).
Proof.
  intros Hw e He. rewrite load_history in He.
  apply list_elem_of_In, list_elem_of_omap in He as (v & Hv & Hl).
  apply list_elem_of_In in Hv. destruct (Hw v Hv) as (e' & Hl' & Hd).
  rewrite Hl in Hl'. injection Hl' as <-. rewrite Hd. exact Hv.
Qed.

(** SQLite: what load, consolidate and save of one turn store.  The new
    entry is stored unless its serialization already is. *)
Lemma sqlite_turn_values (uid prompt response : string) (st : Sqlite.state) :
  Sqlite.written_by json_dumps json_loads uid st ->
  let loaded := Sqlite.load_long_term_memory json_loads uid st in
  let entry := json_dumps (Interaction prompt response) in
  Sqlite.history_values uid
    (Sqlite.save_long_term_memory json_dumps uid
       (Chatbot.consolidate prompt response (fst loaded)) (snd loaded))
  = Sqlite.history_values uid st
    ++ (if Sqlite.select_exists uid "history" entry st then [] else [entry]).
Proof.
  intros Hw loaded entry.
  unfold Sqlite.save_long_term_memory.
  set (prefs := preferences (Chatbot.consolidate prompt response (fst loaded))).
  set (n := length (history (Chatbot.consolidate prompt response (fst loaded)))).
  rewrite consolidate_history.
  set (st2 := Sqlite.save_preferences uid prefs
                (Sqlite.insert_or_ignore_user uid (snd loaded))).
  assert (Hst2 : Sqlite.history_values uid st2 = Sqlite.history_values uid st).
  { unfold st2. rewrite history_values_save_preferences. reflexivity. }
  rewrite save_history_app,
    (save_history_all_stored json_dumps uid n (history (fst loaded)) st2).
  - cbn [Sqlite.save_history]. fold entry.
    rewrite (select_exists_same uid entry st2 st Hst2).
    destruct (Sqlite.select_exists uid "history" entry st).
    + rewrite Hst2, app_nil_r. reflexivity.
    + rewrite history_values_insert, !String.eqb_refl, Hst2. reflexivity.
  - intros e He. rewrite Hst2. apply loaded_entries_stored; assumption.
Qed.

(** The rows stay the program's own when the codec reads back what it
    writes. *)
Lemma written_by_save (uid : string) (m : LongTermMemory) (st : Sqlite.state) :
  (forall e, json_loads (json_dumps e) = Some e) ->
  Sqlite.written_by json_dumps json_loads uid st ->
  Sqlite.written_by json_dumps json_loads uid
    (Sqlite.save_long_term_memory json_dumps uid m st).
Proof.
  intros Hcodec Hw v Hv.
  destruct (save_adds json_dumps uid m st) as (added & Heq & _ & Hnew & _).
  rewrite Heq in Hv. apply in_app_or in Hv as [Hv|Hv].
  - apply Hw. exact Hv.
  - destruct (Hnew v Hv) as (_ & e & _ & <-). exists e. split; [apply Hcodec|reflexivity].
Qed.

End SqliteTurn.

Lemma main_sqlite_completed (json_dumps : InteractionRecord -> string)
      (json_loads : string -> option InteractionRecord)
      (llm : nat -> string -> outcome string) (uid prompt : string)
      (ss ss' : Chatbot.session) (st st' : Sqlite.state) :
  Chatbot.main_sqlite json_dumps json_loads llm uid (Some prompt) ss st
  = (Returns tt, (ss', st')) ->
  exists response,
    st' = Sqlite.save_long_term_memory json_dumps uid
            (Chatbot.consolidate prompt response
               (fst (Sqlite.load_long_term_memory json_loads uid st)))
            (snd (Sqlite.load_long_term_memory json_loads uid st)).
Proof.
  unfold Chatbot.main_sqlite, Chatbot.main, Chatbot.sqlite_load, Chatbot.sqlite_save.
  destruct (Sqlite.load_long_term_memory json_loads uid st) as [m st1].
  cbn [Chatbot.ss_memory Chatbot.ss_messages Chatbot.llm_calls fst snd].
  destruct (llm _ _) as [response|e]; [|discriminate].
  intros H. injection H as _ <-. exists response. reflexivity.
Qed.

Lemma app_turn_completed
      (chat_model : nat -> string -> list App.message -> string -> outcome string)
      (summary_model : nat -> string -> outcome string)
      (uid user_name user_input : string) (w : App.world) :
  fst (App.turn chat_model summary_model uid user_name user_input w) = Returns tt ->
  exists summary,
    App.user_profiles (snd (App.turn chat_model summary_model uid user_name user_input w))
    = App.upsert uid summary (App.user_profiles w).
Proof.
  unfold App.turn, Gateway.call_llm_with_retry.
  pose proof (app_retry_frame chat_model uid user_input
                (App.ss_preferences (App.push_message (App.ChatEntry "user" user_input) w))
                (seq 0 3)
                (App.push_message (App.ChatEntry "user" user_input) w)) as Hframe.
  cbv zeta in Hframe. destruct Hframe as (Hprofiles & _ & _).
  destruct (Gateway.retry_loop _ _ _ _) as [[answer|e] w2]; [|discriminate].
  cbn [snd App.push_message App.user_profiles] in Hprofiles.
  destruct (App.get_session_history uid _) as [hist s].
  destruct (summary_model _ _) as [text|e]; [|discriminate].
  intros _. exists (App.apply_fallback (App.render_history hist) text).
  cbn [snd App.set_preferences App.set_profiles App.count_summary_call
       App.push_message App.user_profiles].
  rewrite Hprofiles. reflexivity.
Qed.

(** C5, as the code has it.  Under the heuristic strategy a completed turn
    appends exactly one entry to the loaded history and saves the result:
    the JSON file then holds the loaded history followed by that entry; the
    SQLite table gains the entry's row unless a row with the same content is
    already stored for the user, in which case it gains none.  The
    summarisation variant stores the summary in the user's profile row, the
    row being created on the first turn and overwritten on the later ones;
    that table has no column for interactions. *)
Theorem C5_history_entry_per_turn :
  (forall llm uid prompt ss ss' f f',
      Chatbot.main_flat llm uid (Some prompt) ss f = (Returns tt, (ss', f')) ->
      exists m response,
        fst (FlatFile.V2.load_long_term_memory uid f) = Returns m
        /\ fst (FlatFile.V2.load_long_term_memory uid f')
           = Returns (Chatbot.consolidate prompt response m)
        /\ history (Chatbot.consolidate prompt response m)
           = history m ++ [Interaction prompt response])
  /\ (forall json_dumps json_loads llm uid prompt ss ss' st st',
        Sqlite.written_by json_dumps json_loads uid st ->
        Chatbot.main_sqlite json_dumps json_loads llm uid (Some prompt) ss st
        = (Returns tt, (ss', st')) ->
        exists response,
          Sqlite.history_values uid st'
          = Sqlite.history_values uid st
            ++ (if Sqlite.select_exists uid "history"
                     (json_dumps (Interaction prompt response)) st
                then [] else [json_dumps (Interaction prompt response)]))
  /\ (forall chat_model summary_model uid user_name user_input w,
        fst (App.turn chat_model summary_model uid user_name user_input w) = Returns tt ->
        exists summary,
          App.user_profiles
            (snd (App.turn chat_model summary_model uid user_name user_input w))
          = App.upsert uid summary (App.user_profiles w)
          /\ (App.query_first uid (App.user_profiles w) <> None ->
              length (App.upsert uid summary (App.user_profiles w))
              = length (App.user_profiles w))).
Proof.
  split; [|split].
  - intros llm uid prompt ss ss' f f'. apply main_flat_completed.
  - intros json_dumps json_loads llm uid prompt ss ss' st st' Hw Hrun.
    destruct (main_sqlite_completed _ _ _ _ _ _ _ _ _ Hrun) as [response ->].
    exists response. apply sqlite_turn_values. exact Hw.
  - intros chat_model summary_model uid user_name user_input w Hdone.
    destruct (app_turn_completed _ _ _ _ _ _ Hdone) as [summary Heq].
    exists summary. split; [exact Heq|].
    intros Hrow. unfold App.upsert.
    destruct (App.query_first uid (App.user_profiles w)); [|congruence].
    apply update_first_length.
Qed.

Lemma C5_history_entry_per_turn_witness :
  (exists m response,
      fst (FlatFile.V2.load_long_term_memory "bob" Scenario.two_users) = Returns m
      /\ fst (FlatFile.V2.load_long_term_memory "bob"
                (snd (snd (Chatbot.main_flat Scenario.same_answer "bob" (Some "hello")
                             Scenario.new_session Scenario.two_users))))
         = Returns (Chatbot.consolidate "hello" response m)
      /\ history (Chatbot.consolidate "hello" response m)
         = history m ++ [Interaction "hello" response])
  /\ (exists response,
        Sqlite.history_values "u1" (snd (snd Scenario.sqlite_second_turn))
        = Sqlite.history_values "u1" (snd (snd Scenario.sqlite_first_turn))
          ++ (if Sqlite.select_exists "u1" "history"
                   (Json.dumps (Interaction "hi" response))
                   (snd (snd Scenario.sqlite_first_turn))
              then [] else [Json.dumps (Interaction "hi" response)])).
Proof.
  split.
  - apply (proj1 C5_history_entry_per_turn Scenario.same_answer "bob" "hello"
             Scenario.new_session
             (fst (snd (Chatbot.main_flat Scenario.same_answer "bob" (Some "hello")
                          Scenario.new_session Scenario.two_users)))
             Scenario.two_users).
    vm_compute. reflexivity.
  - apply (proj1 (proj2 C5_history_entry_per_turn) Json.dumps Json.loads
             Scenario.same_answer "u1" "hi"
             (fst (snd Scenario.sqlite_first_turn))
             (fst (snd Scenario.sqlite_second_turn))).
    + intros v Hv. vm_compute in Hv. destruct Hv as [<-|[]].
      eexists. split; vm_compute; reflexivity.
    + vm_compute. reflexivity.
Defined.

(** C5 as stated, one new entry for every turn, fails.  Third variant:
    [u1] types [hi] twice and gets the same answer twice; both turns
    complete, and the reloaded history holds one entry after the first turn
    and still one after the second.  app.py: after two completed turns the
    whole table is one row that holds the latest summary. *)
Lemma C5_counterexample :
  (fst Scenario.sqlite_first_turn = Returns tt
   /\ fst Scenario.sqlite_second_turn = Returns tt
   /\ length (history (fst (Sqlite.load_long_term_memory Json.loads "u1"
                              (snd (snd Scenario.sqlite_first_turn))))) = 1
   /\ length (history (fst (Sqlite.load_long_term_memory Json.loads "u1"
                              (snd (snd Scenario.sqlite_second_turn))))) = 1)
  /\ (fst Scenario.app_first_turn = Returns tt
      /\ fst Scenario.app_second_turn = Returns tt
      /\ App.user_profiles (snd Scenario.app_second_turn)
         = [App.Profile 1 "u1"
              "Name: John, Location: Paris, Room Type: King Bed, Other: Near Eiffel Tower"]).
Proof.
  split; repeat split; vm_compute; reflexivity.
Qed.



Lemma C8_fatal_failure_witness :
  fst (App.turn Scenario.chat_refused Scenario.summary_paris "u1" "John"
                "Do you have suites?" Scenario.john_world)
  = Raises (Exn "ConnectionError" "connection refused")
  /\ App.chat_calls
       (snd (App.turn Scenario.chat_refused Scenario.summary_paris "u1" "John"
                      "Do you have suites?" Scenario.john_world)) = 1
  /\ App.ss_messages
       (snd (App.turn Scenario.chat_refused Scenario.summary_paris "u1" "John"
                      "Do you have suites?" Scenario.john_world))
     = [App.ChatEntry "user" "Do you have suites?"]
  /\ App.summary_calls
       (snd (App.turn Scenario.chat_refused Scenario.summary_paris "u1" "John"
                      "Do you have suites?" Scenario.john_world)) = 0
  /\ App.user_profiles
       (snd (App.turn Scenario.chat_refused Scenario.summary_paris "u1" "John"
                      "Do you have suites?" Scenario.john_world))
     = App.user_profiles Scenario.john_world.
Proof.
  destruct (C8_fatal_failure_writes_nothing
              Scenario.chat_refused Scenario.summary_paris "u1" "John"
              "Do you have suites?" Scenario.john_world 0
              (Exn "ConnectionError" "connection refused")
              ltac:(lia) ltac:(intros j Hj; lia) eq_refl eq_refl)
    as (Hraise & Hcalls & _ & Hmsgs & _ & _ & Hsummary & Hprofiles & _).
  split; [exact Hraise|]. split; [exact Hcalls|]. split; [exact Hmsgs|].
  split; [exact Hsummary|exact Hprofiles].
Defined.

Lemma C7_preference_last_write_witness :
  PyDict.get "location"
    (preferences (fst (Sqlite.load_long_term_memory Json.loads "u1"
                         Scenario.paris_then_rome)))
  = Some "Rome".
Proof.
  apply (proj1 (proj2 (C7_preference_last_write_wins Json.dumps Json.loads "u1"
                         Scenario.empty_tables))
           (LTM [("location", "Paris")] []) (LTM [("location", "Rome")] [])
           "location" "Rome").
  - cbn. apply NoDup_singleton.
  - reflexivity.
Defined.

(** ** The codec reads back what it writes *)

(** One escaped character is read back as that character. *)
Lemma read_escape_char (c : ascii) (acc t : string) :
  Json.read_string Json.Plain acc (Json.escape_char c +:+ t)
  = Json.read_string Json.Plain (acc +:+ String c EmptyString) t.
Proof.
  destruct c as [[] [] [] [] [] [] [] []]; reflexivity.
Qed.

(** An escaped text, closed by a quote, is read back as the text. *)
Lemma read_escape (s : string) :
  forall acc rest,
    Json.read_string Json.Plain acc (Json.escape s +:+ dq +:+ rest)
    = Some (acc +:+ s, rest).
Proof.
  induction s as [|c s IH]; intros acc rest.
  - cbn [Json.escape]. unfold dq. rewrite append_nil, append_cons, append_nil.
    cbn [Json.read_string].
    change (ascii_of_nat 34) with Json.quote.
    rewrite (Ascii.eqb_refl Json.quote), string_app_nil_r. reflexivity.
  - cbn [Json.escape]. rewrite string_app_assoc, read_escape_char, IH.
    rewrite string_app_assoc. reflexivity.
Qed.

Lemma expect_app (p s : string) : Json.expect p (p +:+ s) = Some s.
Proof.
  induction p as [|a p IH]; [reflexivity|].
  rewrite append_cons. cbn [Json.expect]. rewrite Ascii.eqb_refl. exact IH.
Qed.

(** [loads] inverts [dumps]. *)
Lemma loads_dumps (e : InteractionRecord) : Json.loads (Json.dumps e) = Some e.
Proof.
  destruct e as [ui ar]. unfold Json.loads, Json.dumps.
  cbn [user_input assistant_response].
  rewrite expect_app, read_escape, expect_app, read_escape.
  reflexivity.
Qed.

(** Over this codec, every save keeps the stored history rows readable. *)
Lemma written_by_json_save (uid : string) (m : LongTermMemory) (st : Sqlite.state) :
  Sqlite.written_by Json.dumps Json.loads uid st ->
  Sqlite.written_by Json.dumps Json.loads uid
    (Sqlite.save_long_term_memory Json.dumps uid m st).
Proof. apply written_by_save. exact loads_dumps. Qed.

(** * Further properties of the code *)

(** ** The retry loop for any attempt budget *)

Lemma sum_powers_of_two (a0 j : nat) :
  list_sum (map (Nat.pow 2) (seq a0 j)) + 2 ^ a0 = 2 ^ (a0 + j).
Proof.
  revert a0. induction j as [|j IH]; intros a0; cbn [seq map list_sum].
  - rewrite Nat.add_0_r. reflexivity.
  - specialize (IH (S a0)).
    replace (a0 + S j) with (S a0 + j) by lia.
    rewrite <- IH. cbn [Nat.pow list_sum fold_right].
    change (fold_right Nat.add 0 (map (Nat.pow 2) (seq (S a0) j)))
      with (list_sum (map (Nat.pow 2) (seq (S a0) j))).
    lia.
Qed.

Lemma retry_loop_step {R : Type} (script : nat -> outcome R) (a : nat)
      (rest : list nat) (t : Gateway.trace) :
  Gateway.retry_loop (Gateway.scripted_invoke script) Gateway.log_sleep (a :: rest) t
  = match script (Gateway.calls t) with
    | Returns r => (Returns r, Gateway.Trace (S (Gateway.calls t)) (Gateway.slept t))
    | Raises e =>
        if Gateway.is_rate_limit e
        then Gateway.retry_loop (Gateway.scripted_invoke script) Gateway.log_sleep rest
               (Gateway.Trace (S (Gateway.calls t)) (Gateway.slept t ++ [2 ^ a]))
        else (Raises e, Gateway.Trace (S (Gateway.calls t)) (Gateway.slept t))
    end.
Proof. reflexivity. Qed.

(** The shape of every run of the loop: [j] transient failures, each
    followed by its sleep, and then either the budget is spent or one more
    call decides the outcome. *)
Lemma retry_loop_shape {R : Type} (script : nat -> outcome R) (n : nat) :
  forall (a0 : nat) (t : Gateway.trace),
  exists j,
    j <= n
    /\ ((j = n
         /\ Gateway.retry_loop (Gateway.scripted_invoke script) Gateway.log_sleep
                               (seq a0 n) t
            = (Raises Gateway.max_retries_exceeded,
               Gateway.Trace (Gateway.calls t + j)
                             (Gateway.slept t ++ map (Nat.pow 2) (seq a0 j))))
        \/ (j < n
            /\ Gateway.transient (script (Gateway.calls t + j)) = false
            /\ Gateway.retry_loop (Gateway.scripted_invoke script) Gateway.log_sleep
                                  (seq a0 n) t
               = (script (Gateway.calls t + j),
                  Gateway.Trace (Gateway.calls t + S j)
                                (Gateway.slept t ++ map (Nat.pow 2) (seq a0 j))))).
Proof.
  induction n as [|n IH]; intros a0 t.
  - exists 0. cbn [seq Gateway.retry_loop map]. rewrite app_nil_r, Nat.add_0_r.
    split; [lia|]. left. split; [reflexivity|]. destruct t; reflexivity.
  - cbn [seq]. rewrite retry_loop_step.
    destruct (script (Gateway.calls t)) as [r|e] eqn:E.
    + exists 0. cbn [seq map]. rewrite app_nil_r, Nat.add_0_r.
      split; [lia|]. right. split; [lia|]. rewrite E. split; [reflexivity|].
      replace (Gateway.calls t + 1) with (S (Gateway.calls t)) by lia. reflexivity.
    + destruct (Gateway.is_rate_limit e) eqn:T.
      * destruct (IH (S a0)
                     (Gateway.Trace (S (Gateway.calls t)) (Gateway.slept t ++ [2 ^ a0])))
          as (j & Hj & Hcase).
        cbn [Gateway.calls Gateway.slept] in Hcase.
        exists (S j). cbn [seq map].
        replace (Gateway.calls t + S j) with (S (Gateway.calls t) + j) by lia.
        replace (Gateway.calls t + S (S j)) with (S (Gateway.calls t) + S j) by lia.
        rewrite <- app_assoc in Hcase. cbn [app] in Hcase.
        split; [lia|].
        destruct Hcase as [[-> Hrun]|(Hlt & Hfinal & Hrun)].
        -- left. split; [reflexivity|exact Hrun].
        -- right. split; [lia|]. split; [exact Hfinal|exact Hrun].
      * exists 0. cbn [seq map]. rewrite app_nil_r, Nat.add_0_r.
        split; [lia|]. right. split; [lia|]. rewrite E. cbn [Gateway.transient].
        split; [exact T|].
        replace (Gateway.calls t + 1) with (S (Gateway.calls t)) by lia. reflexivity.
Qed.

(** X1.  Whatever [max_retries] is and whatever the model does,
    [call_llm_with_retry] calls it at most [max_retries] times; the sleeps
    are 1, 2, 4, ... in this order, one after each call but possibly the
    last, and add up to less than [2^max_retries]; an answer that is
    returned is the answer of the last call made, with no sleep after it;
    and with a budget of 0 the model is never called and the terminal
    exception is raised at once. *)
Theorem X1_retry_budget_is_respected :
  forall (R : Type) (script : nat -> outcome R) (max_retries : nat),
    Gateway.calls (snd (Gateway.run script max_retries)) <= max_retries
    /\ Gateway.slept (snd (Gateway.run script max_retries))
       = map (Nat.pow 2)
             (seq 0 (length (Gateway.slept (snd (Gateway.run script max_retries)))))
    /\ length (Gateway.slept (snd (Gateway.run script max_retries)))
       <= Gateway.calls (snd (Gateway.run script max_retries))
    /\ list_sum (Gateway.slept (snd (Gateway.run script max_retries))) < 2 ^ max_retries
    /\ (forall r,
          fst (Gateway.run script max_retries) = Returns r ->
          exists k,
            Gateway.calls (snd (Gateway.run script max_retries)) = S k
            /\ length (Gateway.slept (snd (Gateway.run script max_retries))) = k
            /\ script k = Returns r)
    /\ Gateway.run script 0 = (Raises Gateway.max_retries_exceeded, Gateway.Trace 0 []).
Proof.
  intros R script n.
  unfold Gateway.run, Gateway.call_llm_with_retry.
  destruct (retry_loop_shape script n 0 (Gateway.Trace 0 [])) as (j & Hj & Hcase).
  cbn [Gateway.calls Gateway.slept app] in Hcase.
  assert (Hlen : length (map (Nat.pow 2) (seq 0 j)) = j)
    by (rewrite List.length_map, List.length_seq; reflexivity).
  assert (Hsum : list_sum (map (Nat.pow 2) (seq 0 j)) < 2 ^ n).
  { pose proof (sum_powers_of_two 0 j) as Hs. cbn [Nat.pow Nat.add] in Hs.
    assert (2 ^ j <= 2 ^ n) by (apply Nat.pow_le_mono_r; lia). lia. }
  destruct Hcase as [[-> Hrun]|(Hlt & Hfinal & Hrun)]; rewrite Hrun;
    cbn [fst snd Gateway.calls Gateway.slept]; rewrite Hlen.
  - repeat split; try lia; try reflexivity; try exact Hsum. intros r Hr. discriminate Hr.
  - repeat split; try lia; try reflexivity; try exact Hsum.
    intros r Hr. exists j. repeat split. exact Hr.
Qed.

(** ** [parse_room_type] and the fallback on any input *)

Lemma lower_ascii_idempotent (c : ascii) :
  PyStr.lower_ascii (PyStr.lower_ascii c) = PyStr.lower_ascii c.
Proof. destruct c as [[] [] [] [] [] [] [] []]; reflexivity. Qed.

Lemma lower_idempotent (s : string) : PyStr.lower (PyStr.lower s) = PyStr.lower s.
Proof.
  induction s as [|c s IH]; cbn [PyStr.lower]; [reflexivity|].
  rewrite lower_ascii_idempotent, IH. reflexivity.
Qed.

Lemma first_room_found (before after : list string) (room h : string) :
  PyStr.contains room h = true ->
  Forall (fun r => PyStr.contains r h = false) before ->
  App.first_room (before ++ room :: after) h = Some room.
Proof.
  intros Hroom Hbefore. induction Hbefore as [|r before Hr _ IH]; cbn [app App.first_room].
  - rewrite Hroom. reflexivity.
  - rewrite Hr. exact IH.
Qed.

Lemma first_room_absent (rooms : list string) (h : string) :
  Forall (fun r => PyStr.contains r h = false) rooms ->
  App.first_room rooms h = None.
Proof.
  intros Hall. induction Hall as [|r rooms Hr _ IH]; cbn [App.first_room].
  - reflexivity.
  - rewrite Hr. exact IH.
Qed.

(** X2.  For every history text in ASCII, [parse_room_type] returns one of
    six texts: the five phrases with their first letter in upper case, or
    [Not Specified].  The letter case of the history does not matter.  The
    phrase returned is the first of the list that occurs in the
    lower-cased history, whatever later phrases occur too; and when none
    occurs the result is [Not Specified]. *)
Theorem X2_parse_room_type_range_and_priority :
  forall (h : string),
    PyStr.is_ascii h = true ->
    In (App.parse_room_type h)
       ["King bed"; "Double bed"; "Queen bed"; "Suite"; "Single bed"; "Not Specified"]
    /\ App.parse_room_type (PyStr.lower h) = App.parse_room_type h
    /\ (forall before room after,
          App.room_types = before ++ room :: after ->
          PyStr.contains room (PyStr.lower h) = true ->
          Forall (fun r => PyStr.contains r (PyStr.lower h) = false) before ->
          App.parse_room_type h = PyStr.capitalize room)
    /\ (Forall (fun r => PyStr.contains r (PyStr.lower h) = false) App.room_types ->
        App.parse_room_type h = "Not Specified").
Proof.
  intros h _. split; [|split; [|split]].
  - unfold App.parse_room_type, App.room_types. cbn [App.first_room].
    destruct (PyStr.contains "king bed" (PyStr.lower h)); [cbn; tauto|].
    destruct (PyStr.contains "double bed" (PyStr.lower h)); [cbn; tauto|].
    destruct (PyStr.contains "queen bed" (PyStr.lower h)); [cbn; tauto|].
    destruct (PyStr.contains "suite" (PyStr.lower h)); [cbn; tauto|].
    destruct (PyStr.contains "single bed" (PyStr.lower h)); cbn; tauto.
  - unfold App.parse_room_type. rewrite lower_idempotent. reflexivity.
  - intros before room after Hsplit Hroom Hbefore.
    unfold App.parse_room_type. rewrite Hsplit.
    rewrite (first_room_found before after room _ Hroom Hbefore). reflexivity.
  - intros Hnone. unfold App.parse_room_type.
    rewrite (first_room_absent _ _ Hnone). reflexivity.
Qed.

Lemma X2_parse_room_type_witness :
  App.parse_room_type "human: A SUITE or a single bed, I do not mind"
  = PyStr.capitalize "suite".
Proof.
  apply (proj1 (proj2 (proj2 (X2_parse_room_type_range_and_priority
                                "human: A SUITE or a single bed, I do not mind"
                                eq_refl)))
           ["king bed"; "double bed"; "queen bed"] "suite" ["single bed"]).
  - reflexivity.
  - vm_compute. reflexivity.
  - repeat constructor.
Defined.

Lemma prefix_app_self (p r : string) : String.prefix p (p +:+ r) = true.
Proof.
  induction p as [|a p IH]; [destruct r; reflexivity|].
  rewrite append_cons. cbn [String.prefix].
  destruct (ascii_dec a a); [exact IH|congruence].
Qed.

Lemma contains_cons (needle : string) (c : ascii) (t : string) :
  PyStr.contains needle t = true -> PyStr.contains needle (String c t) = true.
Proof. intros H. cbn [PyStr.contains]. rewrite H. apply orb_true_r. Qed.

Lemma contains_app_self (needle r : string) : PyStr.contains needle (needle +:+ r) = true.
Proof.
  destruct (needle +:+ r) eqn:E; cbn [PyStr.contains];
    rewrite <- E, prefix_app_self; reflexivity.
Qed.

Lemma contains_app_r (needle a b : string) :
  PyStr.contains needle b = true -> PyStr.contains needle (a +:+ b) = true.
Proof.
  intros H. induction a as [|c a IH]; [exact H|].
  rewrite append_cons. apply contains_cons. exact IH.
Qed.

(** Where the old text occurs, the replaced text holds the new one. *)
Lemma replace_from_puts_new (old new : string) :
  old <> EmptyString ->
  forall s,
    PyStr.contains old s = true ->
    PyStr.contains new (PyStr.replace_from 0 old new s) = true.
Proof.
  intros Hold s. induction s as [|c t IH]; intros Hin.
  - destruct old; [congruence|discriminate Hin].
  - cbn [PyStr.replace_from].
    destruct (String.prefix old (String c t)) eqn:Hp.
    + apply contains_app_self.
    + apply contains_cons. apply IH.
      cbn [PyStr.contains] in Hin. rewrite Hp in Hin. exact Hin.
Qed.

(** X3.  What lines 153-156 do to a generated summary, for a history
    text in ASCII.  A summary without the text [Room Type: Not Specified]
    is kept as it is; so is any summary when no room phrase occurs in the
    lower-cased history; and a summary that holds the sentinel comes out
    holding [Room Type: ] followed by what [parse_room_type] returns for
    the history. *)
Theorem X3_fallback_rewrites_only_the_sentinel :
  forall (history_str summary : string),
    PyStr.is_ascii history_str = true ->
    (PyStr.contains "Room Type: Not Specified" summary = false ->
     App.apply_fallback history_str summary = summary)
    /\ (App.first_room App.room_types (PyStr.lower history_str) = None ->
        App.apply_fallback history_str summary = summary)
    /\ (PyStr.contains "Room Type: Not Specified" summary = true ->
        PyStr.contains ("Room Type: " +:+ App.parse_room_type history_str)
                       (App.apply_fallback history_str summary) = true).
Proof.
  intros history_str summary _. split; [|split].
  - intros Hno. unfold App.apply_fallback. rewrite Hno. reflexivity.
  - apply apply_fallback_no_match.
  - intros Hyes. unfold App.apply_fallback. rewrite Hyes.
    apply replace_from_puts_new; [discriminate|exact Hyes].
Qed.

Lemma X3_fallback_witness :
  PyStr.contains ("Room Type: " +:+ App.parse_room_type "human: a double bed, please")
    (App.apply_fallback "human: a double bed, please"
       "Name: Ann, Location: Rome, Room Type: Not Specified, Other: None")
  = true.
Proof.
  apply (proj2 (proj2 (X3_fallback_rewrites_only_the_sentinel
                         "human: a double bed, please"
                         "Name: Ann, Location: Rome, Room Type: Not Specified, Other: None"
                         eq_refl))).
  vm_compute. reflexivity.
Defined.

(** ** The session store of app.py *)

(** X4.  [get_session_history] is a get-or-create: the history it returns
    is the one the store holds for the session afterwards; calling it again
    returns the same history and changes nothing; no other session is
    touched; a session seen for the first time gets the empty history, and
    a known session gets its history back with the store unchanged. *)
Theorem X4_get_session_history_get_or_create :
  forall (session_id : string) (s : gmap string (list App.message)),
    snd (App.get_session_history session_id s) !! session_id
    = Some (fst (App.get_session_history session_id s))
    /\ App.get_session_history session_id (snd (App.get_session_history session_id s))
       = App.get_session_history session_id s
    /\ (forall other, session_id <> other ->
          snd (App.get_session_history session_id s) !! other = s !! other)
    /\ (s !! session_id = None -> fst (App.get_session_history session_id s) = [])
    /\ (forall h, s !! session_id = Some h ->
          App.get_session_history session_id s = (h, s)).
Proof.
  intros session_id s. unfold App.get_session_history.
  destruct (s !! session_id) as [h0|] eqn:E; cbn [fst snd].
  - rewrite E. repeat split; try reflexivity; try congruence.
  - rewrite lookup_insert_eq. repeat split; try reflexivity; try congruence.
    intros other Hne. apply lookup_insert_ne. exact Hne.
Qed.

(** ** app.py: a turn whose reply comes after retries *)

Section AppReply.
Variable chat_model : nat -> string -> list App.message -> string -> outcome string.

Local Abbreviation ensured sid s := (snd (App.get_session_history sid s)).
Local Abbreviation history_of sid s := (fst (App.get_session_history sid s)).

(** An answering call of the chain appends the input and the answer. *)
Lemma chain_invoke_returns (sid input prefs answer : string) (w : App.world) :
  chat_model (App.chat_calls w) prefs (history_of sid (App.store w)) input
  = Returns answer ->
  App.chain_invoke chat_model sid input prefs w
  = (Returns answer,
     App.World
       (<[sid := history_of sid (App.store w)
                 ++ [App.Message "human" input; App.Message "ai" answer]]>
          (ensured sid (App.store w)))
       (App.ss_messages w) (App.ss_preferences w) (App.user_profiles w)
       (S (App.chat_calls w)) (App.slept w) (App.summary_calls w)).
Proof.
  intros H. unfold App.chain_invoke.
  destruct (App.get_session_history sid (App.store w)) as [hist s1] eqn:E.
  cbn [fst snd] in *. rewrite H. reflexivity.
Qed.

(** The retry loop over the chain when attempt [k] is the first that is
    not a transient failure and is an answer. *)
Lemma app_retry_returns (sid input prefs answer : string) (n k : nat) :
  forall (a0 : nat) (w : App.world),
    k < n ->
    (forall j, j < k ->
       Gateway.transient
         (chat_model (App.chat_calls w + j) prefs (history_of sid (App.store w)) input)
       = true) ->
    chat_model (App.chat_calls w + k) prefs (history_of sid (App.store w)) input
    = Returns answer ->
    Gateway.retry_loop (App.chain_invoke chat_model sid input prefs) App.sleep (seq a0 n) w
    = (Returns answer,
       App.World
         (<[sid := history_of sid (App.store w)
                   ++ [App.Message "human" input; App.Message "ai" answer]]>
            (ensured sid (App.store w)))
         (App.ss_messages w) (App.ss_preferences w) (App.user_profiles w)
         (App.chat_calls w + S k)
         (App.slept w ++ map (Nat.pow 2) (seq a0 k)) (App.summary_calls w)).
Proof.
  revert k. induction n as [|n IH]; intros k a0 w Hk Hbefore Hat; [lia|].
  cbn [seq Gateway.retry_loop].
  destruct k as [|k].
  - rewrite Nat.add_0_r in Hat. rewrite (chain_invoke_returns _ _ _ _ _ Hat).
    cbn [seq map]. rewrite app_nil_r.
    replace (App.chat_calls w + 1) with (S (App.chat_calls w)) by lia. reflexivity.
  - pose proof (Hbefore 0 ltac:(lia)) as H0. rewrite Nat.add_0_r in H0.
    destruct (chat_model (App.chat_calls w) prefs (history_of sid (App.store w)) input)
      as [r|e0] eqn:E0; [discriminate H0|].
    cbn [Gateway.transient] in H0.
    rewrite (chain_invoke_raises chat_model _ _ _ _ _ E0), H0.
    rewrite (IH k (S a0)).
    + cbn [App.sleep App.count_chat_call App.set_store App.store App.ss_messages
           App.ss_preferences App.user_profiles App.chat_calls App.slept
           App.summary_calls].
      rewrite get_session_history_ensured. cbn [fst snd seq map].
      rewrite <- app_assoc.
      replace (S (App.chat_calls w) + S k) with (App.chat_calls w + S (S k)) by lia.
      reflexivity.
    + lia.
    + intros j Hj.
      cbn [App.sleep App.count_chat_call App.set_store App.store App.chat_calls].
      rewrite get_session_history_ensured. cbn [fst].
      replace (S (App.chat_calls w) + j) with (App.chat_calls w + S j) by lia.
      apply Hbefore. lia.
    + cbn [App.sleep App.count_chat_call App.set_store App.store App.chat_calls].
      rewrite get_session_history_ensured. cbn [fst].
      replace (S (App.chat_calls w) + k) with (App.chat_calls w + S k) by lia.
      exact Hat.
Qed.

End AppReply.

(** X5.  A turn of app.py whose reply comes at attempt [k], after [k]
    rate-limited attempts: the model was called [k + 1] times with sleeps
    1, 2, ..., the failed attempts left no trace in the history that the
    chain keeps for the session, which gains exactly the user's input and
    the answer, in this order; the displayed messages gain the same two
    entries; no other session changes.  The summary model is then called
    once, and its prompt holds no conversation at all: line 129 reads the
    history from the dict of this run, not from the one the chain wrote
    to.  The outcome of that call decides whether the turn returns or
    raises. *)
Theorem X5_reply_after_retries_is_recorded_once :
  forall (chat_model : nat -> string -> list App.message -> string -> outcome string)
         (summary_model : nat -> string -> outcome string)
         (uid user_name user_input answer : string) (w : App.world) (k : nat),
    let hist := fst (App.get_session_history uid (App.store w)) in
    let hist' := hist ++ [App.Message "human" user_input; App.Message "ai" answer] in
    k < 3 ->
    (forall j, j < k ->
       Gateway.transient
         (chat_model (App.chat_calls w + j) (App.ss_preferences w) hist user_input)
       = true) ->
    chat_model (App.chat_calls w + k) (App.ss_preferences w) hist user_input
    = Returns answer ->
    let result := App.turn chat_model summary_model uid user_name user_input w in
    App.store (snd result) !! uid = Some hist'
    /\ (forall sid, uid <> sid -> App.store (snd result) !! sid = App.store w !! sid)
    /\ App.ss_messages (snd result)
       = App.ss_messages w ++ [App.ChatEntry "user" user_input;
                               App.ChatEntry "assistant" answer]
    /\ App.chat_calls (snd result) = App.chat_calls w + S k
    /\ App.slept (snd result) = App.slept w ++ map (Nat.pow 2) (seq 0 k)
    /\ App.summary_calls (snd result) = S (App.summary_calls w)
    /\ fst result
       = match summary_model (App.summary_calls w)
                 (App.summary_prompt EmptyString user_name) with
         | Returns _ => Returns tt
         | Raises e => Raises e
         end.
Proof.
  intros chat_model summary_model uid user_name user_input answer w k hist hist'
         Hk Hbefore Hat result.
  set (store' := <[uid := hist']> (snd (App.get_session_history uid (App.store w)))).
  pose proof (app_retry_returns chat_model uid user_input (App.ss_preferences w)
                answer 3 k 0
                (App.push_message (App.ChatEntry "user" user_input) w) Hk
                Hbefore Hat) as Hloop.
  cbn [App.push_message App.store App.ss_messages App.ss_preferences
       App.user_profiles App.chat_calls App.slept App.summary_calls] in Hloop.
  fold hist in Hloop. fold hist' in Hloop. fold store' in Hloop.
  assert (Hother : forall sid, uid <> sid -> store' !! sid = App.store w !! sid).
  { intros sid Hne. unfold store'. rewrite lookup_insert_ne by exact Hne.
    apply ensured_lookup_other. exact Hne. }
  assert (Hmine : store' !! uid = Some hist').
  { unfold store'. apply lookup_insert_eq. }
  unfold result. rewrite (turn_after_reply _ _ _ _ _ _ _ _ Hloop). cbv zeta.
  cbn [App.summary_calls].
  destruct (summary_model _ _) as [text|e];
    cbn [fst snd App.store App.ss_messages App.chat_calls App.slept App.summary_calls
         App.set_preferences App.set_profiles App.count_summary_call App.push_message
         App.ss_preferences App.user_profiles];
    rewrite <- app_assoc;
    (split; [exact Hmine|]); (split; [exact Hother|]); repeat split.
Qed.

Lemma X5_reply_after_retries_witness :
  App.store
    (snd (App.turn Scenario.chat_limited_once Scenario.summary_paris "u1" "John"
                   "Do you have suites?" Scenario.john_world)) !! "u1"
  = Some [App.Message "human" "Do you have suites?";
          App.Message "ai" "We have several suites available."]
  /\ App.slept
       (snd (App.turn Scenario.chat_limited_once Scenario.summary_paris "u1" "John"
                      "Do you have suites?" Scenario.john_world)) = [1].
Proof.
  destruct (X5_reply_after_retries_is_recorded_once
              Scenario.chat_limited_once Scenario.summary_paris "u1" "John"
              "Do you have suites?" "We have several suites available."
              Scenario.john_world 1 ltac:(lia))
    as (Hstore & _ & _ & _ & Hslept & _).
  - intros j Hj. destruct j; [reflexivity|lia].
  - reflexivity.
  - split; [exact Hstore|exact Hslept].
Defined.

(** ** The profile table of app.py *)

Lemma update_first_keys (uid summary : string) (t : list App.UserProfile) :
  map App.user_id (App.update_first uid summary t) = map App.user_id t
  /\ map App.id (App.update_first uid summary t) = map App.id t.
Proof.
  induction t as [|r t [IHu IHi]]; cbn [App.update_first]; [split; reflexivity|].
  destruct (String.eqb (App.user_id r) uid); cbn [map App.user_id App.id].
  - split; reflexivity.
  - rewrite IHu, IHi. split; reflexivity.
Qed.

Lemma query_first_none (uid : string) (t : list App.UserProfile) :
  App.query_first uid t = None -> ~ In uid (map App.user_id t).
Proof.
  unfold App.query_first. induction t as [|r t IH]; cbn [List.find map];
    [intros _ []|].
  destruct (String.eqb (App.user_id r) uid) eqn:E; [discriminate|].
  intros Hnone [Heq|Hin]; [|exact (IH Hnone Hin)].
  rewrite Heq, String.eqb_refl in E. discriminate E.
Qed.

Lemma id_below_max (t : list App.UserProfile) (n : nat) :
  In n (map App.id t) -> n <= fold_right Nat.max 0 (map App.id t).
Proof.
  induction t as [|r t IH]; cbn [map fold_right]; [intros []|].
  intros [<-|Hin]; [lia|]. specialize (IH Hin). lia.
Qed.

Lemma query_first_other_update (uid other summary : string) (t : list App.UserProfile) :
  other <> uid ->
  App.query_first other (App.update_first uid summary t) = App.query_first other t.
Proof.
  intros Hne. unfold App.query_first.
  induction t as [|r t IH]; cbn [App.update_first List.find]; [reflexivity|].
  destruct (String.eqb (App.user_id r) uid) eqn:E; cbn [List.find App.user_id].
  - apply String.eqb_eq in E. rewrite E.
    destruct (String.eqb uid other) eqn:E'; [|reflexivity].
    apply String.eqb_eq in E'. congruence.
  - rewrite IH. reflexivity.
Qed.

Lemma query_first_other_append (uid other summary : string) (n : nat)
      (t : list App.UserProfile) :
  other <> uid ->
  App.query_first other (t ++ [App.Profile n uid summary]) = App.query_first other t.
Proof.
  intros Hne. unfold App.query_first.
  induction t as [|r t IH]; cbn [app List.find App.user_id].
  - destruct (String.eqb uid other) eqn:E; [|reflexivity].
    apply String.eqb_eq in E. congruence.
  - destruct (String.eqb (App.user_id r) other); [reflexivity|exact IH].
Qed.

(** X6.  The write of lines 161-167 keeps the table's keys sound: on a
    table whose user ids are all different and whose row ids are all
    different, storing a summary for a user leaves both so (the [unique]
    column and the primary key are never violated), adds a row only when
    the user had none, and leaves the row of every other user as it was. *)
Theorem X6_upsert_keeps_the_keys_unique :
  forall (uid summary : string) (t : list App.UserProfile),
    NoDup (map App.user_id t) ->
    NoDup (map App.id t) ->
    NoDup (map App.user_id (App.upsert uid summary t))
    /\ NoDup (map App.id (App.upsert uid summary t))
    /\ length (App.upsert uid summary t)
       = length t + match App.query_first uid t with Some _ => 0 | None => 1 end
    /\ (forall other, other <> uid ->
          App.query_first other (App.upsert uid summary t) = App.query_first other t).
Proof.
  intros uid summary t Hu Hi. unfold App.upsert.
  destruct (App.query_first uid t) as [r|] eqn:E.
  - destruct (update_first_keys uid summary t) as [-> ->].
    rewrite update_first_length, Nat.add_0_r.
    repeat split; try assumption.
    intros other Hne. apply query_first_other_update. exact Hne.
  - rewrite !List.map_app, List.length_app. cbn [map length App.user_id App.id].
    split; [|split; [|split]].
    + apply NoDup_app. split; [exact Hu|]. split; [|apply NoDup_singleton].
      intros x Hx Hx'. apply list_elem_of_In in Hx, Hx'. destruct Hx' as [<-|[]].
      exact (query_first_none _ _ E Hx).
    + apply NoDup_app. split; [exact Hi|]. split; [|apply NoDup_singleton].
      intros x Hx Hx'. apply list_elem_of_In in Hx, Hx'. destruct Hx' as [<-|[]].
      apply id_below_max in Hx. unfold App.fresh_id in Hx. lia.
    + reflexivity.
    + intros other Hne. apply query_first_other_append. exact Hne.
Qed.

Lemma X6_upsert_witness :
  NoDup (map App.user_id
           (App.upsert "u2" "Name: Ann, Location: Rome, Room Type: Suite, Other: None"
                       (App.user_profiles Scenario.john_world)))
  /\ NoDup (map App.id
              (App.upsert "u2" "Name: Ann, Location: Rome, Room Type: Suite, Other: None"
                          (App.user_profiles Scenario.john_world))).
Proof.
  destruct (X6_upsert_keeps_the_keys_unique
              "u2" "Name: Ann, Location: Rome, Room Type: Suite, Other: None"
              (App.user_profiles Scenario.john_world))
    as (Hu & Hi & _).
  - cbn. apply NoDup_singleton.
  - cbn. apply NoDup_singleton.
  - split; [exact Hu|exact Hi].
Defined.

(** X7.  After a completed turn of app.py the preferences kept in the
    session are the text stored in the user's profile row, and a session
    opened later for the same user starts from exactly that text, whatever
    name is typed in. *)
Theorem X7_stored_summary_is_the_next_session_start :
  forall (chat_model : nat -> string -> list App.message -> string -> outcome string)
         (summary_model : nat -> string -> outcome string)
         (uid user_name user_input : string) (w : App.world),
    fst (App.turn chat_model summary_model uid user_name user_input w) = Returns tt ->
    let w' := snd (App.turn chat_model summary_model uid user_name user_input w) in
    (exists r,
        App.query_first uid (App.user_profiles w') = Some r
        /\ App.preferences r = App.ss_preferences w')
    /\ (forall typed_name,
          App.initial_preferences uid typed_name (App.user_profiles w')
          = App.ss_preferences w').
Proof.
  intros chat_model summary_model uid user_name user_input w.
  unfold App.turn.
  destruct (Gateway.call_llm_with_retry _ _ _ _) as [[answer|e] w2]; [|discriminate].
  destruct (App.get_session_history uid _) as [hist s].
  destruct (summary_model _ _) as [text|e]; [|discriminate].
  intros _. cbn [snd App.set_preferences App.set_profiles App.ss_preferences
                 App.user_profiles].
  destruct (query_first_upsert uid (App.apply_fallback (App.render_history hist) text)
              (App.user_profiles
                 (App.count_summary_call
                    (App.push_message (App.ChatEntry "assistant" answer) w2))))
    as (r & Hr & Hp).
  split.
  - exists r. split; assumption.
  - intros typed_name. unfold App.initial_preferences. rewrite Hr. exact Hp.
Qed.

Lemma X7_stored_summary_witness :
  App.initial_preferences "u1" "Somebody else"
    (App.user_profiles (snd Scenario.app_first_turn))
  = "Name: John, Location: Paris, Room Type: King Bed, Other: Near Eiffel Tower".
Proof.
  unfold Scenario.app_first_turn.
  rewrite (proj2 (X7_stored_summary_is_the_next_session_start
                    Scenario.chat_ok Scenario.summary_paris "u1" "John"
                    "I want a hotel in Paris with a king bed near the Eiffel Tower"
                    Scenario.empty_world ltac:(vm_compute; reflexivity))
             "Somebody else").
  vm_compute. reflexivity.
Defined.

(** ** The keyword heuristics of the second and third variant *)

(** X8.  What the heuristics do to the preferences, key by key.  When the
    lower-cased input holds [location] or [city], key [location] becomes
    the whole input as typed; when it holds [budget], key [budget] becomes
    the whole input; every other key, and these two without their trigger,
    keep the value they had.  The keys of the dict stay different from each
    other. *)
Theorem X8_heuristics_touch_budget_and_location_only :
  forall (prompt response : string) (m : LongTermMemory) (k : string),
    PyDict.get k (preferences (Chatbot.consolidate prompt response m))
    = (if String.eqb "location" k
          && (PyStr.contains "location" (PyStr.lower prompt)
              || PyStr.contains "city" (PyStr.lower prompt))
       then Some prompt
       else if String.eqb "budget" k && PyStr.contains "budget" (PyStr.lower prompt)
       then Some prompt
       else PyDict.get k (preferences m))
    /\ (NoDup (PyDict.keys (preferences m)) ->
        NoDup (PyDict.keys (preferences (Chatbot.consolidate prompt response m)))).
Proof.
  intros prompt response m k. unfold Chatbot.consolidate. cbn [preferences].
  destruct (PyStr.contains "budget" (PyStr.lower prompt));
    destruct (PyStr.contains "location" (PyStr.lower prompt)
              || PyStr.contains "city" (PyStr.lower prompt));
    rewrite ?dict_get_set, ?andb_true_r, ?andb_false_r.
  - split.
    + destruct (String.eqb "location" k); reflexivity.
    + intros Hnd. apply dict_set_nodup, dict_set_nodup. exact Hnd.
  - split; [reflexivity|]. intros Hnd. apply dict_set_nodup. exact Hnd.
  - split.
    + destruct (String.eqb "location" k); reflexivity.
    + intros Hnd. apply dict_set_nodup. exact Hnd.
  - split; [reflexivity|]. tauto.
Qed.

(** ** The JSON file: saving and loading together *)

(** X9.  On both flat-file variants a save that returns is read back by
    the next load of the same user as exactly the memory saved, and a save
    that raises has written nothing.  The second variant's save raises in
    two cases only: a file holding JSON that is not an object, where the
    assignment of line 44 fails, and a file nested too deep for the
    parser, whose [RecursionError] the handler of line 40 does not catch.
    It never raises [JSONDecodeError] or another [ValueError]. *)
Theorem X9_flat_save_then_load :
  forall (uid : string) (m : LongTermMemory) (f : FlatFile.file),
    (fst (FlatFile.V2.save_long_term_memory uid m f) = Returns tt ->
     fst (FlatFile.V2.load_long_term_memory uid
            (snd (FlatFile.V2.save_long_term_memory uid m f))) = Returns m)
    /\ (fst (FlatFile.V1.save_long_term_memory uid m f) = Returns tt ->
        fst (FlatFile.V1.load_long_term_memory uid
               (snd (FlatFile.V1.save_long_term_memory uid m f))) = Returns m)
    /\ (forall e, fst (FlatFile.V2.save_long_term_memory uid m f) = Raises e ->
                  snd (FlatFile.V2.save_long_term_memory uid m f) = f
                  /\ ((f = FlatFile.NotAnObject /\ e = FlatFile.TypeError)
                      \/ (f = FlatFile.TooDeep /\ e = FlatFile.RecursionError)))
    /\ (forall e, fst (FlatFile.V1.save_long_term_memory uid m f) = Raises e ->
                  snd (FlatFile.V1.save_long_term_memory uid m f) = f).
Proof.
  intros uid m f.
  assert (Hback : forall data : gmap string LongTermMemory,
             FlatFile.get_or_empty uid (<[uid := m]> data) = m).
  { intros data. unfold FlatFile.get_or_empty. rewrite lookup_insert_eq. reflexivity. }
  split; [|split; [|split]].
  - destruct f; cbn; try discriminate; intros _; rewrite Hback; reflexivity.
  - destruct f; cbn; try discriminate; intros _; rewrite Hback; reflexivity.
  - intros e. destruct f; cbn; try discriminate;
      intros H; injection H as <-; (split; [reflexivity|]);
      [right|left]; split; reflexivity.
  - intros e. destruct f; cbn; try discriminate; reflexivity.
Qed.

Lemma X9_flat_save_then_load_witness :
  fst (FlatFile.V2.load_long_term_memory "alice"
         (snd (FlatFile.V2.save_long_term_memory "alice" Scenario.alice_memory
                 (FlatFile.Malformed Scenario.truncated_text))))
  = Returns Scenario.alice_memory.
Proof.
  apply (proj1 (X9_flat_save_then_load "alice" Scenario.alice_memory
                  (FlatFile.Malformed Scenario.truncated_text))).
  reflexivity.
Defined.

(** X10.  The two variants over the same text of the file, for a parser
    that rejects the empty text and reads a document with white space
    around it as it reads the document alone.  Whenever the first
    variant's load returns, the second's returns the same; whenever the
    first's save returns, the second's writes the same file; with no file
    they agree.  They differ only on text the first variant cannot parse:
    there the first raises and writes nothing, while the second goes by
    the stripped text, and when that is blank or rejected too, its load
    returns the empty memory and its save starts a new document that
    holds the saved user alone. *)
Theorem X10_second_variant_extends_the_first :
  forall (json_loads : string -> FlatText.parsed)
         (json_dump : gmap string LongTermMemory -> string)
         (uid : string) (m : LongTermMemory) (text : string),
    json_loads EmptyString = FlatText.Undecodable ->
    (forall t,
        json_loads t = FlatText.NonDict \/ (exists data, json_loads t = FlatText.Dict data) ->
        json_loads (PyStr.strip t) = json_loads t) ->
    (forall m0,
        fst (FlatText.V1.load_long_term_memory json_loads uid (Some text)) = Returns m0 ->
        FlatText.V2.load_long_term_memory json_loads uid (Some text)
        = FlatText.V1.load_long_term_memory json_loads uid (Some text))
    /\ (fst (FlatText.V1.save_long_term_memory json_loads json_dump uid m (Some text))
        = Returns tt ->
        FlatText.V2.save_long_term_memory json_loads json_dump uid m (Some text)
        = FlatText.V1.save_long_term_memory json_loads json_dump uid m (Some text))
    /\ (FlatText.V2.load_long_term_memory json_loads uid None
        = FlatText.V1.load_long_term_memory json_loads uid None
        /\ FlatText.V2.save_long_term_memory json_loads json_dump uid m None
           = FlatText.V1.save_long_term_memory json_loads json_dump uid m None)
    /\ (json_loads text = FlatText.Undecodable ->
        FlatText.V1.load_long_term_memory json_loads uid (Some text)
        = (Raises FlatFile.JSONDecodeError, Some text)
        /\ FlatText.V1.save_long_term_memory json_loads json_dump uid m (Some text)
           = (Raises FlatFile.JSONDecodeError, Some text))
    /\ (PyStr.strip text = EmptyString
        \/ json_loads (PyStr.strip text) = FlatText.Undecodable
        \/ json_loads (PyStr.strip text) = FlatText.OutOfRange ->
        FlatText.V2.load_long_term_memory json_loads uid (Some text)
        = (Returns empty_memory, Some text)
        /\ FlatText.V2.save_long_term_memory json_loads json_dump uid m (Some text)
           = (Returns tt, Some (json_dump (<[uid := m]> ∅)))).
Proof.
  intros json_loads json_dump uid m text Hempty Hstrip.
  assert (Hdoc : forall data, json_loads text = FlatText.Dict data ->
                 exists c content,
                   PyStr.strip text = String c content
                   /\ json_loads (String c content) = FlatText.Dict data).
  { intros data Hd.
    pose proof (Hstrip text (or_intror (ex_intro _ data Hd))) as Hs. rewrite Hd in Hs.
    destruct (PyStr.strip text) as [|c content]; [congruence|].
    exists c, content. split; [reflexivity|exact Hs]. }
  split; [|split; [|split; [|split]]].
  - intros m0. unfold FlatText.V1.load_long_term_memory.
    destruct (json_loads text) as [| | | |data] eqn:E; cbn [fst]; try discriminate.
    intros _. destruct (Hdoc data eq_refl) as (c & content & Hs & Hd).
    unfold FlatText.V2.load_long_term_memory. cbv zeta. rewrite Hs, Hd. reflexivity.
  - unfold FlatText.V1.save_long_term_memory.
    destruct (json_loads text) as [| | | |data] eqn:E; cbn [fst]; try discriminate.
    intros _. destruct (Hdoc data eq_refl) as (c & content & Hs & Hd).
    unfold FlatText.V2.save_long_term_memory, FlatText.V2.read_data. cbv zeta.
    rewrite Hs, Hd. reflexivity.
  - split; reflexivity.
  - intros Hbad.
    unfold FlatText.V1.load_long_term_memory, FlatText.V1.save_long_term_memory.
    rewrite Hbad. split; reflexivity.
  - intros Hbad.
    unfold FlatText.V2.load_long_term_memory, FlatText.V2.save_long_term_memory,
      FlatText.V2.read_data. cbv zeta.
    destruct (PyStr.strip text) as [|c content]; [split; reflexivity|].
    destruct Hbad as [Hbad|[Hbad|Hbad]]; [discriminate Hbad| |];
      rewrite Hbad; split; reflexivity.
Qed.

Lemma X10_second_variant_witness :
  FlatText.V2.load_long_term_memory Scenario.loads_empty_only "bob" (Some "{}")
  = FlatText.V1.load_long_term_memory Scenario.loads_empty_only "bob" (Some "{}").
Proof.
  assert (Hstrip : forall t,
             Scenario.loads_empty_only t = FlatText.NonDict
             \/ (exists data, Scenario.loads_empty_only t = FlatText.Dict data) ->
             Scenario.loads_empty_only (PyStr.strip t) = Scenario.loads_empty_only t).
  { intros t H. unfold Scenario.loads_empty_only in H.
    destruct (String.eqb_spec t "{}") as [Ht|_].
    - rewrite Ht. reflexivity.
    - destruct H as [H|[data H]]; discriminate H. }
  apply (proj1 (X10_second_variant_extends_the_first
                  Scenario.loads_empty_only (fun _ => "{}") "bob" empty_memory "{}"
                  eq_refl Hstrip)
           empty_memory).
  reflexivity.
Defined.

(** ** The SQLite backend: users apart, and saving and loading together *)

Lemma select_memory_insert (v u dt k val : string) (st : Sqlite.state) :
  Sqlite.select_memory v (Sqlite.insert_memory u dt k val st)
  = Sqlite.select_memory v st
    ++ (if String.eqb u v
        then [Sqlite.Row (S (Sqlite.last_rowid st)) u dt k val (Sqlite.clock st)]
        else []).
Proof.
  unfold Sqlite.select_memory, Sqlite.insert_memory. cbn [Sqlite.Memory].
  rewrite List.filter_app. cbn [List.filter Sqlite.row_user].
  destruct (String.eqb u v); reflexivity.
Qed.

Lemma select_memory_other_insert (v u dt k val : string) (st : Sqlite.state) :
  u <> v ->
  Sqlite.select_memory v (Sqlite.insert_memory u dt k val st) = Sqlite.select_memory v st.
Proof.
  intros Hne. rewrite select_memory_insert.
  destruct (String.eqb u v) eqn:E; [apply String.eqb_eq in E; congruence|].
  apply app_nil_r.
Qed.

Lemma select_memory_other_save_preferences (v u : string) (items : PyDict.dict) :
  u <> v ->
  forall st,
    Sqlite.select_memory v (Sqlite.save_preferences u items st) = Sqlite.select_memory v st.
Proof.
  intros Hne. induction items as [|[k val] items IH]; intros st;
    cbn [Sqlite.save_preferences]; [reflexivity|].
  rewrite IH. apply select_memory_other_insert. exact Hne.
Qed.

Lemma select_memory_other_save_history (json_dumps : InteractionRecord -> string)
      (v u : string) (n : nat) (entries : list InteractionRecord) :
  u <> v ->
  forall st,
    Sqlite.select_memory v (Sqlite.save_history json_dumps u n entries st)
    = Sqlite.select_memory v st.
Proof.
  intros Hne. induction entries as [|e entries IH]; intros st;
    cbn [Sqlite.save_history]; [reflexivity|].
  destruct (Sqlite.select_exists u "history" (json_dumps e) st); rewrite IH;
    [reflexivity|].
  apply select_memory_other_insert. exact Hne.
Qed.

(** X11.  On the SQLite backend, saving the memory of one user leaves
    what [load_long_term_memory] returns for every other user as it was,
    preferences and history alike. *)
Theorem X11_sqlite_save_leaves_other_users :
  forall (json_dumps : InteractionRecord -> string)
         (json_loads : string -> option InteractionRecord)
         (u v : string) (m : LongTermMemory) (st : Sqlite.state),
    u <> v ->
    fst (Sqlite.load_long_term_memory json_loads v
           (Sqlite.save_long_term_memory json_dumps u m st))
    = fst (Sqlite.load_long_term_memory json_loads v st).
Proof.
  intros json_dumps json_loads u v m st Hne.
  unfold Sqlite.load_long_term_memory. cbn [fst]. f_equal.
  change (Sqlite.select_memory v
            (Sqlite.insert_or_ignore_user v
               (Sqlite.save_long_term_memory json_dumps u m st)))
    with (Sqlite.select_memory v (Sqlite.save_long_term_memory json_dumps u m st)).
  change (Sqlite.select_memory v (Sqlite.insert_or_ignore_user v st))
    with (Sqlite.select_memory v st).
  unfold Sqlite.save_long_term_memory.
  rewrite select_memory_other_save_history by exact Hne.
  rewrite select_memory_other_save_preferences by exact Hne.
  reflexivity.
Qed.

Lemma X11_sqlite_other_users_witness :
  fst (Sqlite.load_long_term_memory Json.loads "u1"
         (Sqlite.save_long_term_memory Json.dumps "u2" Scenario.ann_memory
            Scenario.paris_then_rome))
  = fst (Sqlite.load_long_term_memory Json.loads "u1" Scenario.paris_then_rome).
Proof.
  apply X11_sqlite_save_leaves_other_users. discriminate.
Defined.

Lemma dict_set_fresh (k v : string) (d : PyDict.dict) :
  ~ In k (PyDict.keys d) -> PyDict.set k v d = d ++ [(k, v)].
Proof.
  induction d as [|[k0 v0] d IH]; cbn [PyDict.set PyDict.keys map fst app];
    intros Hk; [reflexivity|].
  destruct (String.eqb k0 k) eqn:E.
  - apply String.eqb_eq in E. subst k0. destruct Hk. left. reflexivity.
  - rewrite IH; [reflexivity|]. intros Hin. apply Hk. right. exact Hin.
Qed.

(** Assigning items with new, different keys appends them in order. *)
Lemma dict_update_fresh (items : PyDict.dict) :
  forall d,
    NoDup (PyDict.keys (d ++ items)) -> PyDict.update d items = d ++ items.
Proof.
  unfold PyDict.update.
  induction items as [|[k v] items IH]; intros d Hnd; cbn [fold_left fst snd].
  - rewrite app_nil_r. reflexivity.
  - assert (Hk : ~ In k (PyDict.keys d)).
    { unfold PyDict.keys in *. rewrite List.map_app in Hnd.
      apply NoDup_app in Hnd as (_ & Hdisj & _).
      intros Hin. apply (Hdisj k); apply list_elem_of_In; [exact Hin|left; reflexivity]. }
    rewrite (dict_set_fresh k v d Hk), IH, <- app_assoc; [reflexivity|].
    rewrite <- app_assoc. exact Hnd.
Qed.

Section SqliteRoundTrip.
Variable json_dumps : InteractionRecord -> string.
Variable json_loads : string -> option InteractionRecord.

(** Entries with new, different serializations are all stored, in order. *)
Lemma save_history_fresh (uid : string) (n : nat) (entries : list InteractionRecord) :
  forall st,
    NoDup (Sqlite.history_values uid st ++ map json_dumps entries) ->
    Sqlite.history_values uid (Sqlite.save_history json_dumps uid n entries st)
    = Sqlite.history_values uid st ++ map json_dumps entries.
Proof.
  induction entries as [|e entries IH]; intros st Hnd; cbn [Sqlite.save_history map].
  - rewrite app_nil_r. reflexivity.
  - cbn [map] in Hnd.
    assert (Hnew : Sqlite.select_exists uid "history" (json_dumps e) st = false).
    { destruct (Sqlite.select_exists uid "history" (json_dumps e) st) eqn:E;
        [|reflexivity].
      apply select_exists_history in E. apply NoDup_app in Hnd as (_ & Hdisj & _).
      destruct (Hdisj (json_dumps e)); apply list_elem_of_In; [exact E|left; reflexivity]. }
    rewrite Hnew, IH; rewrite history_values_insert, !String.eqb_refl; cbn [andb].
    + rewrite <- app_assoc. reflexivity.
    + rewrite <- app_assoc. exact Hnd.
Qed.

Lemma omap_loads_dumps (entries : list InteractionRecord) :
  (forall e, In e entries -> json_loads (json_dumps e) = Some e) ->
  omap json_loads (map json_dumps entries) = entries.
Proof.
  induction entries as [|e entries IH]; intros Hcodec; [reflexivity|].
  cbn [map]. simpl. rewrite (Hcodec e (or_introl eq_refl)). f_equal.
  apply IH. intros e' He'. apply Hcodec. right. exact He'.
Qed.

End SqliteRoundTrip.

(** X12.  Saving and loading on the SQLite backend are inverse for a user
    who has no row yet: when the library reads back each history entry it
    writes, and the entries of the memory are pairwise different once
    written (as are, in a dict, its keys), the load after the save returns
    the very memory saved, preferences and history in their order. *)
Theorem X12_sqlite_save_then_load_for_a_new_user :
  forall (json_dumps : InteractionRecord -> string)
         (json_loads : string -> option InteractionRecord)
         (uid : string) (m : LongTermMemory) (st : Sqlite.state),
    Sqlite.select_memory uid st = [] ->
    NoDup (PyDict.keys (preferences m)) ->
    NoDup (map json_dumps (history m)) ->
    (forall e, In e (history m) -> json_loads (json_dumps e) = Some e) ->
    fst (Sqlite.load_long_term_memory json_loads uid
           (Sqlite.save_long_term_memory json_dumps uid m st))
    = m.
Proof.
  intros json_dumps json_loads uid m st Hnone Hkeys Hhist Hcodec.
  assert (Hp0 : Sqlite.preference_items uid st = []).
  { unfold Sqlite.preference_items. unfold Sqlite.select_memory in Hnone.
    rewrite <- (filter_filter (fun r => String.eqb (Sqlite.row_user r) uid)).
    rewrite Hnone. reflexivity. }
  assert (Hh0 : Sqlite.history_values uid st = []).
  { unfold Sqlite.history_values. unfold Sqlite.select_memory in Hnone.
    rewrite <- (filter_filter (fun r => String.eqb (Sqlite.row_user r) uid)).
    rewrite Hnone. reflexivity. }
  assert (Hprefs : preferences
                     (fst (Sqlite.load_long_term_memory json_loads uid
                             (Sqlite.save_long_term_memory json_dumps uid m st)))
                   = preferences m).
  { rewrite load_preferences, preference_items_save, Hp0. cbn [app].
    rewrite dict_update_fresh; [reflexivity|exact Hkeys]. }
  assert (Hhistory : history
                       (fst (Sqlite.load_long_term_memory json_loads uid
                               (Sqlite.save_long_term_memory json_dumps uid m st)))
                     = history m).
  { rewrite load_history. unfold Sqlite.save_long_term_memory.
    rewrite save_history_fresh;
      rewrite history_values_save_preferences, history_values_insert_user, Hh0;
      cbn [app]; [|exact Hhist].
    apply omap_loads_dumps. exact Hcodec. }
  destruct (fst (Sqlite.load_long_term_memory json_loads uid
                   (Sqlite.save_long_term_memory json_dumps uid m st))) as [p h].
  destruct m as [p0 h0]. cbn [preferences history] in Hprefs, Hhistory.
  rewrite Hprefs, Hhistory. reflexivity.
Qed.

Lemma X12_sqlite_save_then_load_witness :
  fst (Sqlite.load_long_term_memory Json.loads "u2"
         (Sqlite.save_long_term_memory Json.dumps "u2" Scenario.ann_memory
            Scenario.paris_then_rome))
  = Scenario.ann_memory.
Proof.
  apply X12_sqlite_save_then_load_for_a_new_user.
  - reflexivity.
  - cbn. apply NoDup_singleton.
  - apply (bool_decide_unpack _). vm_compute. exact I.
  - intros e _. apply loads_dumps.
Defined.

(** ** The SQLite backend: what the tables keep *)

Lemma rowids_insert (u dt k v : string) (st : Sqlite.state) :
  Sqlite.rowids_ok st -> Sqlite.rowids_ok (Sqlite.insert_memory u dt k v st).
Proof.
  intros [Hnd Hall]. unfold Sqlite.rowids_ok, Sqlite.insert_memory.
  cbn [Sqlite.Memory Sqlite.last_rowid]. split.
  - rewrite List.map_app. cbn [map Sqlite.row_id]. apply NoDup_app.
    split; [exact Hnd|]. split; [|apply NoDup_singleton].
    intros x Hx Hx'. apply list_elem_of_In in Hx, Hx'. destruct Hx' as [<-|[]].
    apply in_map_iff in Hx as (r & Hr & Hin).
    rewrite Forall_forall in Hall. apply list_elem_of_In in Hin.
    specialize (Hall r Hin). lia.
  - apply Forall_app. split.
    + eapply List.Forall_impl; [|exact Hall]. cbn. intros r Hr. lia.
    + constructor; [cbn; lia|constructor].
Qed.

Lemma rowids_insert_user (u : string) (st : Sqlite.state) :
  Sqlite.rowids_ok st -> Sqlite.rowids_ok (Sqlite.insert_or_ignore_user u st).
Proof. intros H. exact H. Qed.

Lemma users_insert (u dt k v : string) (st : Sqlite.state) :
  Sqlite.users_ok st -> Sqlite.users_ok (Sqlite.insert_memory u dt k v st).
Proof. intros H. exact H. Qed.

Lemma users_insert_user (u : string) (st : Sqlite.state) :
  Sqlite.users_ok st ->
  Sqlite.users_ok (Sqlite.insert_or_ignore_user u st)
  /\ In u (map Sqlite.u_user_id (Sqlite.Users (Sqlite.insert_or_ignore_user u st))).
Proof.
  intros Hnd. unfold Sqlite.users_ok, Sqlite.insert_or_ignore_user. cbn [Sqlite.Users].
  destruct (existsb (fun r => String.eqb (Sqlite.u_user_id r) u) (Sqlite.Users st)) eqn:E.
  - split; [exact Hnd|].
    apply existsb_exists in E as (r & Hin & Hr). apply String.eqb_eq in Hr.
    apply in_map_iff. exists r. split; assumption.
  - rewrite List.map_app. cbn [map Sqlite.u_user_id]. split.
    + apply NoDup_app. split; [exact Hnd|]. split; [|apply NoDup_singleton].
      intros x Hx Hx'. apply list_elem_of_In in Hx, Hx'. destruct Hx' as [<-|[]].
      apply in_map_iff in Hx as (r & Hr & Hin).
      assert (existsb (fun r => String.eqb (Sqlite.u_user_id r) u) (Sqlite.Users st)
              = true); [|congruence].
      apply existsb_exists. exists r. split; [exact Hin|]. apply String.eqb_eq. exact Hr.
    + apply in_or_app. right. left. reflexivity.
Qed.

Section SqliteKeys.
Variable json_dumps : InteractionRecord -> string.

Lemma keys_save_preferences (u : string) (items : PyDict.dict) :
  forall st,
    Sqlite.rowids_ok st ->
    Sqlite.rowids_ok (Sqlite.save_preferences u items st)
    /\ Sqlite.Users (Sqlite.save_preferences u items st) = Sqlite.Users st.
Proof.
  induction items as [|[k v] items IH]; intros st Hok; cbn [Sqlite.save_preferences].
  - split; [exact Hok|reflexivity].
  - destruct (IH (Sqlite.insert_memory u "preference" k v st)
                 (rowids_insert _ _ _ _ _ Hok)) as [H1 H2].
    split; [exact H1|exact H2].
Qed.

Lemma keys_save_history (u : string) (n : nat) (entries : list InteractionRecord) :
  forall st,
    Sqlite.rowids_ok st ->
    Sqlite.rowids_ok (Sqlite.save_history json_dumps u n entries st)
    /\ Sqlite.Users (Sqlite.save_history json_dumps u n entries st) = Sqlite.Users st.
Proof.
  induction entries as [|e entries IH]; intros st Hok; cbn [Sqlite.save_history].
  - split; [exact Hok|reflexivity].
  - destruct (Sqlite.select_exists u "history" (json_dumps e) st).
    + apply IH. exact Hok.
    + destruct (IH (Sqlite.insert_memory u "history"
                      ("interaction_" +:+ PyStr.of_nat n) (json_dumps e) st)
                   (rowids_insert _ _ _ _ _ Hok)) as [H1 H2].
      split; [exact H1|exact H2].
Qed.

End SqliteKeys.

(** X13.  The tables keep their keys through every load and save: when
    the row ids of [Memory] are all different and none exceeds the last id
    handed out, and the user ids of [Users] are all different, the same
    holds after [save_long_term_memory] and after [load_long_term_memory];
    and after either call the user has a row in [Users]. *)
Theorem X13_tables_keep_their_keys :
  forall (json_dumps : InteractionRecord -> string)
         (json_loads : string -> option InteractionRecord)
         (uid : string) (m : LongTermMemory) (st : Sqlite.state),
    Sqlite.rowids_ok st ->
    Sqlite.users_ok st ->
    (Sqlite.rowids_ok (Sqlite.save_long_term_memory json_dumps uid m st)
     /\ Sqlite.users_ok (Sqlite.save_long_term_memory json_dumps uid m st)
     /\ In uid (map Sqlite.u_user_id
                    (Sqlite.Users (Sqlite.save_long_term_memory json_dumps uid m st))))
    /\ (Sqlite.rowids_ok (snd (Sqlite.load_long_term_memory json_loads uid st))
        /\ Sqlite.users_ok (snd (Sqlite.load_long_term_memory json_loads uid st))
        /\ In uid (map Sqlite.u_user_id
                       (Sqlite.Users (snd (Sqlite.load_long_term_memory json_loads uid st))))).
Proof.
  intros json_dumps json_loads uid m st Hrows Husers.
  destruct (users_insert_user uid st Husers) as [Hu1 Hin1].
  split.
  - unfold Sqlite.save_long_term_memory.
    destruct (keys_save_preferences uid (preferences m)
                (Sqlite.insert_or_ignore_user uid st) (rowids_insert_user uid st Hrows))
      as [Hr2 Hu2].
    destruct (keys_save_history json_dumps uid (length (history m)) (history m)
                (Sqlite.save_preferences uid (preferences m)
                   (Sqlite.insert_or_ignore_user uid st)) Hr2) as [Hr3 Hu3].
    split; [exact Hr3|]. unfold Sqlite.users_ok. rewrite Hu3, Hu2.
    split; [exact Hu1|exact Hin1].
  - unfold Sqlite.load_long_term_memory. cbn [snd].
    split; [exact (rowids_insert_user uid st Hrows)|]. split; [exact Hu1|exact Hin1].
Qed.

Lemma X13_tables_keep_their_keys_witness :
  Sqlite.rowids_ok
    (Sqlite.save_long_term_memory Json.dumps "u2" Scenario.ann_memory Scenario.empty_tables)
  /\ Sqlite.users_ok
       (Sqlite.save_long_term_memory Json.dumps "u2" Scenario.ann_memory
                                     Scenario.empty_tables).
Proof.
  destruct (X13_tables_keep_their_keys Json.dumps Json.loads "u2" Scenario.ann_memory
              Scenario.empty_tables) as [(Hr & Hu & _) _].
  - split; cbn; constructor.
  - cbn. constructor.
  - split; [exact Hr|exact Hu].
Defined.

Lemma memory_length_save_preferences (u : string) (items : PyDict.dict) :
  forall st,
    length (Sqlite.Memory (Sqlite.save_preferences u items st))
    = length (Sqlite.Memory st) + length items.
Proof.
  induction items as [|[k v] items IH]; intros st; cbn [Sqlite.save_preferences length].
  - lia.
  - rewrite IH. cbn [Sqlite.insert_memory Sqlite.Memory].
    rewrite List.length_app. cbn [length]. lia.
Qed.

(** X14.  The [INSERT OR REPLACE] of the preferences replaces nothing.
    Saving the same memory a second time adds no history row but adds one
    row for each of its preferences again: the table grows by the number
    of preferences, and the user's preference rows are those of before
    followed by the items of the memory. *)
Theorem X14_each_save_stores_the_preferences_again :
  forall (json_dumps : InteractionRecord -> string)
         (uid : string) (m : LongTermMemory) (st : Sqlite.state),
    let st1 := Sqlite.save_long_term_memory json_dumps uid m st in
    let st2 := Sqlite.save_long_term_memory json_dumps uid m st1 in
    length (Sqlite.Memory st2)
    = length (Sqlite.Memory st1) + length (preferences m)
    /\ Sqlite.preference_items uid st2
       = Sqlite.preference_items uid st1 ++ preferences m
    /\ Sqlite.preference_items uid st1
       = Sqlite.preference_items uid st ++ preferences m.
Proof.
  intros json_dumps uid m st st1 st2.
  split; [|split].
  - destruct (save_adds json_dumps uid m st) as (added & Heq & _ & _ & Hall).
    fold st1 in Heq. unfold st2, Sqlite.save_long_term_memory.
    rewrite save_history_all_stored.
    + rewrite memory_length_save_preferences. reflexivity.
    + intros e He.
      rewrite history_values_save_preferences, history_values_insert_user, Heq.
      apply Hall. exact He.
  - unfold st2. apply preference_items_save.
  - unfold st1. apply preference_items_save.
Qed.

(** X15.  A load on the SQLite backend reads the [Memory] table without
    changing it; it registers the user in [Users] when needed, keeping
    every row already there; and loading again returns the same memory and
    adds no further row. *)
Theorem X15_sqlite_load_only_registers_the_user :
  forall (json_loads : string -> option InteractionRecord)
         (uid : string) (st : Sqlite.state),
    let st1 := snd (Sqlite.load_long_term_memory json_loads uid st) in
    Sqlite.Memory st1 = Sqlite.Memory st
    /\ (exists new_rows,
          Sqlite.Users st1 = Sqlite.Users st ++ new_rows
          /\ length new_rows <= 1
          /\ Forall (fun r => Sqlite.u_user_id r = uid) new_rows)
    /\ fst (Sqlite.load_long_term_memory json_loads uid st1)
       = fst (Sqlite.load_long_term_memory json_loads uid st)
    /\ Sqlite.Users (snd (Sqlite.load_long_term_memory json_loads uid st1))
       = Sqlite.Users st1.
Proof.
  intros json_loads uid st st1.
  unfold st1, Sqlite.load_long_term_memory. cbn [fst snd].
  split; [reflexivity|]. split; [|split; [reflexivity|]].
  - unfold Sqlite.insert_or_ignore_user. cbn [Sqlite.Users].
    destruct (existsb _ (Sqlite.Users st)).
    + exists []. rewrite app_nil_r. repeat split; [cbn; lia|constructor].
    + eexists. split; [reflexivity|]. split; [cbn; lia|].
      constructor; [reflexivity|constructor].
  - unfold Sqlite.insert_or_ignore_user at 1. cbn [Sqlite.Users].
    assert (Hin : existsb (fun r => String.eqb (Sqlite.u_user_id r) uid)
                    (Sqlite.Users (Sqlite.insert_or_ignore_user uid st)) = true).
    { unfold Sqlite.insert_or_ignore_user. cbn [Sqlite.Users].
      destruct (existsb _ (Sqlite.Users st)) eqn:E; [exact E|].
      rewrite existsb_app. cbn [existsb Sqlite.u_user_id].
      rewrite String.eqb_refl. apply orb_true_r. }
    rewrite Hin. reflexivity.
Qed.

Section SqliteRows.
Variable json_loads : string -> option InteractionRecord.

Lemma collect_app (rows1 rows2 : list Sqlite.memory_row) :
  forall prefs hist,
    Sqlite.collect json_loads (rows1 ++ rows2) prefs hist
    = Sqlite.collect json_loads rows2
        (preferences (Sqlite.collect json_loads rows1 prefs hist))
        (history (Sqlite.collect json_loads rows1 prefs hist)).
Proof.
  induction rows1 as [|row rows1 IH]; intros prefs hist; cbn [app Sqlite.collect].
  - reflexivity.
  - destruct (String.eqb (Sqlite.data_type row) "preference"); [apply IH|].
    destruct (String.eqb (Sqlite.data_type row) "history"); [|apply IH].
    destruct (json_loads (Sqlite.value row)); apply IH.
Qed.

End SqliteRows.

(** X16.  The load of the third variant passes over two kinds of row.  A
    history row on whose value the parser raises [JSONDecodeError], the
    exception that line 74 catches, and a row whose [data_type] is neither
    [preference] nor [history], leave the loaded memory as it would be
    without the row. *)
Theorem X16_sqlite_load_skips_unusable_rows :
  forall (json_loads : string -> option InteractionRecord)
         (uid dt k v : string) (st : Sqlite.state),
    (dt = "history" /\ json_loads v = None)
    \/ (dt <> "preference" /\ dt <> "history") ->
    fst (Sqlite.load_long_term_memory json_loads uid
           (Sqlite.insert_memory uid dt k v st))
    = fst (Sqlite.load_long_term_memory json_loads uid st).
Proof.
  intros json_loads uid dt k v st Hrow.
  unfold Sqlite.load_long_term_memory. cbn [fst].
  change (Sqlite.select_memory uid
            (Sqlite.insert_or_ignore_user uid (Sqlite.insert_memory uid dt k v st)))
    with (Sqlite.select_memory uid (Sqlite.insert_memory uid dt k v st)).
  change (Sqlite.select_memory uid (Sqlite.insert_or_ignore_user uid st))
    with (Sqlite.select_memory uid st).
  rewrite select_memory_insert, String.eqb_refl, collect_app.
  cbn [Sqlite.collect Sqlite.data_type Sqlite.value].
  destruct (Sqlite.collect json_loads (Sqlite.select_memory uid st) [] []) as [p h].
  cbn [preferences history].
  destruct Hrow as [[-> Hbad]|[Hp Hh]].
  - cbn. rewrite Hbad. reflexivity.
  - destruct (String.eqb dt "preference") eqn:Ep;
      [apply String.eqb_eq in Ep; congruence|].
    destruct (String.eqb dt "history") eqn:Eh;
      [apply String.eqb_eq in Eh; congruence|].
    reflexivity.
Qed.

Lemma X16_sqlite_load_skips_witness :
  fst (Sqlite.load_long_term_memory Json.loads "u1"
         (Sqlite.insert_memory "u1" "history" "interaction_9" "{not json"
                               Scenario.paris_then_rome))
  = fst (Sqlite.load_long_term_memory Json.loads "u1" Scenario.paris_then_rome).
Proof.
  apply X16_sqlite_load_skips_unusable_rows.
  left. split; [reflexivity|vm_compute; reflexivity].
Defined.

(** ** [main] of the second and third variant *)

(** X17.  When the model raises in a run of [main] with a chat input, the
    exception leaves [main] and nothing is saved: the JSON file is the
    file of before, and the tables are those the load left, with the
    [Memory] table untouched.  The conversation memory is not extended;
    the displayed messages have gained the user's entry, and the call is
    counted. *)
Theorem X17_failed_reply_saves_nothing :
  forall (llm : nat -> string -> outcome string) (uid prompt : string)
         (ss : Chatbot.session) (e : exn),
    let ss' := Chatbot.Session (Chatbot.ss_memory ss)
                 (Chatbot.ss_messages ss ++ [Chatbot.ChatEntry "user" prompt])
                 (S (Chatbot.llm_calls ss)) in
    (forall f m,
        fst (FlatFile.V2.load_long_term_memory uid f) = Returns m ->
        llm (Chatbot.llm_calls ss)
            (Chatbot.prompt_text (Chatbot.long_term_context_str m)
                                 (Chatbot.buffer (Chatbot.ss_memory ss)) prompt)
        = Raises e ->
        Chatbot.main_flat llm uid (Some prompt) ss f = (Raises e, (ss', f)))
    /\ (forall json_dumps json_loads st,
          llm (Chatbot.llm_calls ss)
              (Chatbot.prompt_text
                 (Chatbot.long_term_context_str
                    (fst (Sqlite.load_long_term_memory json_loads uid st)))
                 (Chatbot.buffer (Chatbot.ss_memory ss)) prompt)
          = Raises e ->
          Chatbot.main_sqlite json_dumps json_loads llm uid (Some prompt) ss st
          = (Raises e, (ss', snd (Sqlite.load_long_term_memory json_loads uid st)))
          /\ Sqlite.Memory (snd (Sqlite.load_long_term_memory json_loads uid st))
             = Sqlite.Memory st).
Proof.
  intros llm uid prompt ss e ss'. split.
  - intros f m Hload Hllm. unfold Chatbot.main_flat, Chatbot.main.
    destruct (FlatFile.V2.load_long_term_memory uid f) as [[m0|e0] f0] eqn:El;
      cbn [fst] in Hload; [|discriminate].
    injection Hload as ->.
    assert (f0 = f) as -> by (destruct f; cbn in El; congruence).
    cbn [Chatbot.ss_memory Chatbot.ss_messages Chatbot.llm_calls].
    rewrite Hllm. reflexivity.
  - intros json_dumps json_loads st Hllm.
    unfold Chatbot.main_sqlite, Chatbot.main, Chatbot.sqlite_load.
    destruct (Sqlite.load_long_term_memory json_loads uid st) as [m st1] eqn:El.
    cbn [fst snd] in *.
    cbn [Chatbot.ss_memory Chatbot.ss_messages Chatbot.llm_calls].
    rewrite Hllm. split; [reflexivity|].
    unfold Sqlite.load_long_term_memory in El. injection El as _ <-. reflexivity.
Qed.

Lemma X17_failed_reply_witness :
  Chatbot.main_flat Scenario.llm_down "bob" (Some "hello") Scenario.new_session
                    Scenario.two_users
  = (Raises (Exn "ConnectionError" "connection refused"),
     (Chatbot.Session [] [Chatbot.ChatEntry "user" "hello"] 1, Scenario.two_users)).
Proof.
  apply (proj1 (X17_failed_reply_saves_nothing Scenario.llm_down "bob" "hello"
                  Scenario.new_session (Exn "ConnectionError" "connection refused"))
           Scenario.two_users Scenario.bob_memory).
  - vm_compute. reflexivity.
  - reflexivity.
Defined.

(** ** The context window for every history *)

Lemma last3_length {A} (l : list A) : length (Chatbot.last3 l) = Nat.min 3 (length l).
Proof. unfold Chatbot.last3. rewrite List.length_skipn. lia. Qed.

Lemma last3_suffix {A} (l : list A) :
  firstn (length l - 3) l ++ Chatbot.last3 l = l.
Proof. unfold Chatbot.last3. apply firstn_skipn. Qed.

Lemma last3_short {A} (l : list A) : length l <= 3 -> Chatbot.last3 l = l.
Proof.
  intros H. unfold Chatbot.last3.
  replace (length l - 3) with 0 by lia. reflexivity.
Qed.

(** X18.  [history[-3:]] for every history: the window is the end of the
    history, of length 3 or the whole history when that is shorter, so a
    history of up to three entries is rendered in full; and the composed
    context depends on the history through this window only. *)
Theorem X18_context_window_for_every_history :
  forall (prefs : PyDict.dict) (hist : list InteractionRecord),
    length (Chatbot.last3 hist) = Nat.min 3 (length hist)
    /\ firstn (length hist - 3) hist ++ Chatbot.last3 hist = hist
    /\ (length hist <= 3 -> Chatbot.last3 hist = hist)
    /\ Chatbot.long_term_context_str (LTM prefs hist)
       = Chatbot.long_term_context_str (LTM prefs (Chatbot.last3 hist)).
Proof.
  intros prefs hist.
  split; [apply last3_length|]. split; [apply last3_suffix|]. split; [apply last3_short|].
  unfold Chatbot.long_term_context_str. cbn [preferences history].
  do 6 f_equal. unfold Chatbot.hist_str.
  destruct hist as [|x hist]; [reflexivity|].
  pose proof (last3_length (x :: hist)) as Hlen.
  destruct (Chatbot.last3 (x :: hist)) as [|y rest] eqn:E.
  - cbn [length] in Hlen. lia.
  - rewrite <- E. rewrite (last3_short (Chatbot.last3 (x :: hist))); [reflexivity|].
    rewrite last3_length. lia.
Qed.

(** ** What the composed context holds *)

Lemma prefix_app_l (needle a b : string) :
  String.prefix needle a = true -> String.prefix needle (a +:+ b) = true.
Proof.
  intros H. destruct (prefix_split _ _ H) as [r ->].
  rewrite string_app_assoc. apply prefix_app_self.
Qed.

Lemma contains_app_l (needle a b : string) :
  PyStr.contains needle a = true -> PyStr.contains needle (a +:+ b) = true.
Proof.
  induction a as [|c a IH]; intros H.
  - cbn [PyStr.contains] in H. rewrite orb_false_r in H.
    destruct needle; [|discriminate H].
    rewrite append_nil. destruct b; reflexivity.
  - rewrite append_cons. cbn [PyStr.contains] in *.
    apply orb_true_iff in H as [Hp|Hc].
    + rewrite <- append_cons, (prefix_app_l _ _ _ Hp). reflexivity.
    + rewrite (IH Hc). apply orb_true_r.
Qed.

Lemma contains_self (s : string) : PyStr.contains s s = true.
Proof.
  pose proof (contains_app_self s EmptyString) as H.
  rewrite string_app_nil_r in H. exact H.
Qed.

Lemma contains_join (sep x : string) (parts : list string) :
  In x parts -> PyStr.contains x (PyStr.join sep parts) = true.
Proof.
  induction parts as [|p parts IH]; intros Hin; [destruct Hin|].
  destruct parts as [|q parts].
  - destruct Hin as [->|[]]. apply contains_self.
  - change (PyStr.join sep (p :: q :: parts))
      with (p +:+ sep +:+ PyStr.join sep (q :: parts)).
    destruct Hin as [->|Hin].
    + apply contains_app_self.
    + apply contains_app_r, contains_app_r, IH. exact Hin.
Qed.

(** X19.  Nothing stored is left out of the prompt's long-term context
    but the history before the window: every preference of the memory
    occurs in the composed text as [key: value], and each of the last
    three history entries occurs as its line
    [User: <input> | Assistant: <response>]. *)
Theorem X19_context_holds_preferences_and_window :
  forall (m : LongTermMemory),
    (forall k v, In (k, v) (preferences m) ->
                 PyStr.contains (k +:+ ": " +:+ v) (Chatbot.long_term_context_str m) = true)
    /\ (forall u a, In (Interaction u a) (Chatbot.last3 (history m)) ->
                    PyStr.contains ("User: " +:+ u +:+ " | Assistant: " +:+ a)
                                   (Chatbot.long_term_context_str m) = true).
Proof.
  intros m. unfold Chatbot.long_term_context_str. split.
  - intros k v Hin. apply contains_app_r, contains_app_r, contains_app_l.
    unfold Chatbot.pref_str.
    destruct (preferences m) as [|kv prefs] eqn:E; [destruct Hin|]. rewrite <- E in *.
    apply contains_app_r, contains_app_r. apply contains_join.
    apply in_map_iff. exists (k, v). split; [reflexivity|exact Hin].
  - intros u a Hin. do 6 apply contains_app_r.
    unfold Chatbot.hist_str.
    destruct (history m) as [|x hist] eqn:E; [destruct Hin|]. rewrite <- E in *.
    apply contains_app_r, contains_app_r. apply contains_join.
    apply in_map_iff. exists (Interaction u a). split; [reflexivity|exact Hin].
Qed.

Lemma X19_context_witness :
  PyStr.contains "budget: My budget is 150 euros"
                 (Chatbot.long_term_context_str Scenario.ann_memory) = true
  /\ PyStr.contains "User: My budget is 150 euros | Assistant: Noted."
                    (Chatbot.long_term_context_str Scenario.ann_memory) = true.
Proof.
  split.
  - apply (proj1 (X19_context_holds_preferences_and_window Scenario.ann_memory)
             "budget" "My budget is 150 euros").
    left. reflexivity.
  - apply (proj2 (X19_context_holds_preferences_and_window Scenario.ann_memory)
             "My budget is 150 euros" "Noted.").
    right. left. reflexivity.
Defined.
